(** * build_data: the tolerant XLSX reader and dataset builder

    A shallow embedding of [scripts/build_data.py]: the text helpers the
    script relies on, the XML element tree it walks, and its functions
    [slugify], [to_int], [clean_headers], [extract_number_columns],
    [_col_to_index], [_parse_shared_strings], [_first_sheet_path],
    [read_first_sheet_rows], [parse_xlsx_dataset] and [build_all],
    followed by the properties proved of them.

    Conventions.
    - A Python [str] is a Rocq [string] read as ASCII text; the character
      classes below ([\d], [\s], [str.strip], [str.upper]) are the ASCII
      restrictions of Python's, and bytes from 128 up are inert (no case,
      no digit, no space). Python's own classes reach further (a no-break
      space is trimmed, the digits of other scripts are digits), so the
      properties that tell what a given text is trimmed to or classified
      as are stated for ASCII text ([is_ascii], [ascii_cell]).
    - [int] is [Z]. [int(s)] raises [ValueError] on a literal of more than
      4300 digits, the interpreter's default limit, and so does
      [PyStr.int_of_str]; [str(n)] is used below that limit only.
    - A raising call returns [Raise e]; [try/except] is a match on it. Of
      the archive and of the XML parser only the missing member and the
      rejected document are modelled: the archive is taken as opened, and
      a row as fitting in memory.
    - [dict]s whose iteration order is never observed ([seen], [cells],
      attribute tables, the archive directory) are [gmap]s; the ones that
      reach the JSON output ([rec], [counts]) are insertion-ordered
      association lists. *)

From Stdlib Require Import ZArith List String Ascii Bool Lia.
From Stdlib Require Import DecimalString.
From Stdlib Require DecimalPos DecimalFacts.
From Stdlib Require Import Floats.SpecFloat.
From stdpp Require Import base option list gmap strings.

Open Scope string_scope.
Open Scope list_scope.
Open Scope Z_scope.

(* ================================================================== *)
(** ** Python text primitives *)

Module PyStr.

Definition ord (c : ascii) : Z := Z.of_N (N_of_ascii c).

Definition in_range (lo hi : Z) (c : ascii) : bool :=
  (lo <=? ord c) && (ord c <=? hi).

(** [\d] on ASCII text. *)
Definition is_digit (c : ascii) : bool := in_range 48 57 c.

(** [[A-Z]] and [[a-z]]. *)
Definition is_upper (c : ascii) : bool := in_range 65 90 c.
Definition is_lower (c : ascii) : bool := in_range 97 122 c.

(** [str.isspace] / [\s] on ASCII text: TAB..CR, FS..US and SPACE. *)
Definition is_space (c : ascii) : bool :=
  in_range 9 13 c || in_range 28 32 c.

Definition upper_char (c : ascii) : ascii :=
  if is_lower c then ascii_of_N (N_of_ascii c - 32) else c.

Definition lower_char (c : ascii) : ascii :=
  if is_upper c then ascii_of_N (N_of_ascii c + 32) else c.

(** [s.upper()] *)
Fixpoint upper (s : string) : string :=
  match s with
  | EmptyString => EmptyString
  | String c r => String (upper_char c) (upper r)
  end.

Fixpoint forallb_str (p : ascii -> bool) (s : string) : bool :=
  match s with
  | EmptyString => true
  | String c r => p c && forallb_str p r
  end.

Fixpoint existsb_str (p : ascii -> bool) (s : string) : bool :=
  match s with
  | EmptyString => false
  | String c r => p c || existsb_str p r
  end.

Definition is_empty (s : string) : bool :=
  match s with EmptyString => true | _ => false end.

(** [s.lstrip(<chars satisfying p>)] *)
Fixpoint lstrip_by (p : ascii -> bool) (s : string) : string :=
  match s with
  | EmptyString => EmptyString
  | String c r => if p c then lstrip_by p r else s
  end.

Fixpoint rstrip_by (p : ascii -> bool) (s : string) : string :=
  match s with
  | EmptyString => EmptyString
  | String c r =>
      let r' := rstrip_by p r in
      if p c && is_empty r' then EmptyString else String c r'
  end.

(** [s.strip()] on ASCII text. *)
Definition strip (s : string) : string :=
  rstrip_by is_space (lstrip_by is_space s).

(** The longest prefix of [s] whose characters satisfy [p], and the rest:
    what a greedy [[class]*] consumes when the next item of the pattern
    cannot start with a character of the class. *)
Fixpoint span (p : ascii -> bool) (s : string) : string * string :=
  match s with
  | EmptyString => (EmptyString, EmptyString)
  | String c r =>
      if p c then let '(a, b) := span p r in (String c a, b)
      else (EmptyString, s)
  end.

Definition digit_val (c : ascii) : Z := ord c - 48.

(** Value of a run of decimal digits, most significant first. *)
Fixpoint digits_val (acc : Z) (s : string) : Z :=
  match s with
  | EmptyString => acc
  | String c r => digits_val (acc * 10 + digit_val c) r
  end.

(** [re.fullmatch(r"\d+", s)] as a truth value. *)
Definition fullmatch_digits (s : string) : bool :=
  negb (is_empty s) && forallb_str is_digit s.

(** The digit groups of an integer literal: digits, with single
    underscores allowed between two digits. [prev] tells whether the
    previous character was a digit. *)
Fixpoint int_body (prev : bool) (acc : Z) (s : string) : option Z :=
  match s with
  | EmptyString => if prev then Some acc else None
  | String c r =>
      if is_digit c then int_body true (acc * 10 + digit_val c) r
      else if (ord c =? 95) && prev then
        match r with
        | EmptyString => None
        | String d _ => if is_digit d then int_body false acc r else None
        end
      else None
  end.

(** The whitespace [int] skips around an ASCII literal: TAB..CR and
    SPACE, without the separators FS..US that [str.strip] also drops. *)
Definition is_int_space (c : ascii) : bool :=
  in_range 9 13 c || (ord c =? 32).

(** [sys.get_int_max_str_digits()], by default: the largest number of
    digits [int] converts from a decimal literal, and [str] to one. *)
Definition max_str_digits : Z := 4300.

Fixpoint count_digits (s : string) : Z :=
  match s with
  | EmptyString => 0
  | String c r => (if is_digit c then 1 else 0) + count_digits r
  end.

(** [int(s)] for a [str] argument in base 10: surrounding whitespace is
    dropped, one sign is allowed, and the literal has at most
    [max_str_digits] digits; [None] stands for [ValueError]. *)
Definition int_of_str (s : string) : option Z :=
  let t := rstrip_by is_int_space (lstrip_by is_int_space s) in
  if max_str_digits <? count_digits t then None
  else
    match t with
    | String "+" r => int_body false 0 r
    | String "-" r => Z.opp <$> int_body false 0 r
    | t => int_body false 0 t
    end.

(** [str(n)] for an [int]. *)
Definition str_of_int (n : Z) : string :=
  NilZero.string_of_int (Z.to_int n).

(** [s.startswith(p)] *)
Fixpoint startswith (p s : string) : bool :=
  match p, s with
  | EmptyString, _ => true
  | String a p', String b s' => Ascii.eqb a b && startswith p' s'
  | String _ _, EmptyString => false
  end.

(** [s.endswith(p)] *)
Fixpoint endswith (p s : string) : bool :=
  String.eqb p s ||
  match s with
  | EmptyString => false
  | String _ s' => endswith p s'
  end.

(** The characters of [s] as one-character strings: what iterating over
    a [str] yields. *)
Fixpoint chars (s : string) : list string :=
  match s with
  | EmptyString => []
  | String c r => String c EmptyString :: chars r
  end.

End PyStr.

(* ================================================================== *)
(** ** Exceptions *)

Inductive exn : Type :=
| KeyError (key : string)
| ValueError
| IndexError
| ParseError
| RuntimeError (msg : string).

Inductive result (A : Type) : Type :=
| Ok (a : A)
| Raise (e : exn).
Arguments Ok {A} a.
Arguments Raise {A} e.

Definition bind {A B} (m : result A) (k : A -> result B) : result B :=
  match m with
  | Ok a => k a
  | Raise e => Raise e
  end.

Notation "'let*' x ':=' m 'in' k" := (bind m (fun x => k))
  (at level 10, x pattern, m at level 100, k at level 200).

(** A [for] loop whose body may raise: the state is threaded left to
    right and the first exception ends the loop. *)
Fixpoint for_each {S X} (body : S -> X -> result S) (st : S) (xs : list X)
  : result S :=
  match xs with
  | [] => Ok st
  | x :: xs' => let* st' := body st x in for_each body st' xs'
  end.

(* ================================================================== *)
(** ** Values seen by [to_int] *)

Inductive pyval : Type :=
| VNone
| VBool (b : bool)
| VInt (n : Z)
| VFloat (f : spec_float)
| VStr (s : string)
| VOther.

Module PyFloat.

(** [f.is_integer()]: finite and without a fractional part. The value of
    [S754_finite s m e] is [(-1)^s * m * 2^e]. *)
Definition is_integer (f : spec_float) : bool :=
  match f with
  | S754_zero _ => true
  | S754_infinity _ | S754_nan => false
  | S754_finite _ m e =>
      (0 <=? e) || (Z.pos m mod 2 ^ (- e) =? 0)
  end.

(** [int(f)] for a finite [f]: truncation towards zero. *)
Definition trunc (f : spec_float) : Z :=
  match f with
  | S754_finite s m e =>
      let a := if 0 <=? e then Z.pos m * 2 ^ e else Z.pos m / 2 ^ (- e) in
      if s then - a else a
  | _ => 0
  end.

End PyFloat.

(* ================================================================== *)
(** ** Utils *)

(** [to_int]: [Ok None] is the returned [None]; the [ValueError] is the
    one [int(s)] raises on too long a run of digits, which nothing here
    catches. *)
Definition to_int (v : pyval) : result (option Z) :=
  match v with
  | VNone => Ok None
  | VBool _ => Ok None
  | VInt n => Ok (Some n)
  | VFloat f =>
      if PyFloat.is_integer f then Ok (Some (PyFloat.trunc f)) else Ok None
  | VStr v =>
      let s := PyStr.strip v in
      if PyStr.fullmatch_digits s then
        match PyStr.int_of_str s with
        | Some n => Ok (Some n)
        | None => Raise ValueError
        end
      else Ok None
  | VOther => Ok None
  end.

(** One iteration of the loop of [clean_headers]: [seen] and [out] are the
    loop's two variables. *)
Definition clean_headers_step (st : gmap string Z * list (option string))
    (h : option string) : gmap string Z * list (option string) :=
  let '(seen, out) := st in
  match h with
  | None => (seen, out ++ [None])
  | Some h =>
      let s := PyStr.strip h in
      if PyStr.is_empty s then (seen, out ++ [None])
      else
        match seen !! s with
        | Some k =>
            let seen' := <[s := k + 1]> seen in
            (seen', out ++ [Some (s +:+ "_" +:+ PyStr.str_of_int (k + 1))])
        | None => (<[s := 1]> seen, out ++ [Some s])
        end
  end.

Definition clean_headers (headers : list (option string)) : list (option string) :=
  snd (fold_left clean_headers_step headers (∅, [])).

(** [_col_to_index] *)
Definition _col_to_index (col_letters : string) : Z :=
  let col_letters := PyStr.upper col_letters in
  let idx :=
    fold_left (fun idx ch => idx * 26 + (PyStr.ord ch - PyStr.ord "A" + 1))
              (list_ascii_of_string col_letters) 0 in
  idx - 1.

(** The six patterns of [extract_number_columns] are [^NAME\s*\d+$] and
    [^NAME\d+$] under [re.I]; [p.match] anchors at the start, and [$]
    accepts the end of the text or a final newline. [ws] tells whether
    the pattern has the [\s*]. *)
Fixpoint strip_prefix_ci (name s : string) : option string :=
  match name, s with
  | EmptyString, _ => Some s
  | String a name', String b s' =>
      if Ascii.eqb (PyStr.lower_char a) (PyStr.lower_char b)
      then strip_prefix_ci name' s' else None
  | String _ _, EmptyString => None
  end.

Definition at_dollar (rest : string) : bool :=
  PyStr.is_empty rest || String.eqb rest (String "010" EmptyString).

Definition pattern_match (name : string) (ws : bool) (hs : string) : bool :=
  match strip_prefix_ci name hs with
  | None => false
  | Some r =>
      let r1 := if ws then snd (PyStr.span PyStr.is_space r) else r in
      let '(d, r2) := PyStr.span PyStr.is_digit r1 in
      negb (PyStr.is_empty d) && at_dollar r2
  end.

Definition patterns : list (string * bool) :=
  [("Bola", true); ("Bola", false);
   ("Trevo", true); ("Trevo", false);
   ("Coluna", true); ("Coluna", false)].

Fixpoint extract_number_columns (headers : list (option string)) : list string :=
  match headers with
  | [] => []
  | h :: rest =>
      match h with
      | None => extract_number_columns rest
      | Some h =>
          if PyStr.is_empty h then extract_number_columns rest
          else
            let hs := PyStr.strip h in
            if existsb (fun p => pattern_match (fst p) (snd p) hs) patterns
            then hs :: extract_number_columns rest
            else extract_number_columns rest
      end
  end.

(* ================================================================== *)
(** ** The element tree ([xml.etree.ElementTree]) *)

#[warnings="-register-all"]
Inductive element : Type :=
  Element (tag : string) (attrib : gmap string string)
          (text : option string) (children : list element).

Module ET.

Definition tag (e : element) : string :=
  match e with Element t _ _ _ => t end.
Definition attrib (e : element) : gmap string string :=
  match e with Element _ a _ _ => a end.
Definition text (e : element) : option string :=
  match e with Element _ _ t _ => t end.
Definition children (e : element) : list element :=
  match e with Element _ _ _ cs => cs end.

(** The step [{*}name]: the element's tag is [name] itself or ends in
    [}name], i.e. [name] in any namespace or in none. *)
Definition tag_matches (name : string) (e : element) : bool :=
  String.eqb (tag e) name || PyStr.endswith ("}" +:+ name) (tag e).

(** [e.iter()]: [e] and everything below it, in document order. *)
Fixpoint iter (e : element) : list element :=
  match e with
  | Element _ _ _ cs => e :: flat_map iter cs
  end.

(** What [.//] ranges over: everything strictly below [e]. *)
Definition descendants (e : element) : list element :=
  flat_map iter (children e).

(** [e.findall("{*}name")] *)
Definition findall_child (name : string) (e : element) : list element :=
  filter (fun c => tag_matches name c = true) (children e).

(** [e.findall(".//{*}name")] *)
Definition findall_desc (name : string) (e : element) : list element :=
  filter (fun c => tag_matches name c = true) (descendants e).

(** [e.findall(".//{*}outer/{*}inner")] *)
Definition findall_desc_child (outer inner : string) (e : element)
  : list element :=
  flat_map (findall_child inner) (findall_desc outer e).

(** [find] is the first result of [findall], or [None]. *)
Definition find_child (name : string) (e : element) : option element :=
  head (findall_child name e).
Definition find_desc (name : string) (e : element) : option element :=
  head (findall_desc name e).
Definition find_desc_child (outer inner : string) (e : element)
  : option element :=
  head (findall_desc_child outer inner e).

End ET.

(* ================================================================== *)
(** ** XLSX: cells and rows *)

(** [re.match(r"([A-Z]+)(\d+)", ref)]: the two groups, when it matches. *)
Definition match_ref (ref : string) : option (string * string) :=
  let '(letters, rest) := PyStr.span PyStr.is_upper ref in
  let '(digits, _) := PyStr.span PyStr.is_digit rest in
  if PyStr.is_empty letters || PyStr.is_empty digits then None
  else Some (letters, digits).

(** The variables of the loop over the cells of one row. *)
Record cell_state : Type := CellState {
  cells : gmap Z (option string);
  cur_col : Z;
  global_max_col : Z
}.

(** Lines 167-171: the cursor after looking at the cell's [r]. *)
Definition resolve_column (cur_col : Z) (c : element) : Z :=
  match ET.attrib c !! "r" with
  | Some ref =>
      if PyStr.is_empty ref then cur_col
      else
        match match_ref ref with
        | Some (letters, _) => _col_to_index letters
        | None => cur_col
        end
  | None => cur_col
  end.

(** [shared[si] if 0 <= si < len(shared) else v_el.text] *)
Definition shared_lookup (shared : list string) (si : Z) (raw : string)
  : string :=
  if (0 <=? si) && (si <? Z.of_nat (length shared))
  then default raw (shared !! Z.to_nat si)
  else raw.

(** Lines 176-188: the text of a cell. *)
Definition cell_value (shared : list string) (c : element)
  : result (option string) :=
  let t := ET.attrib c !! "t" in
  let v_el := ET.find_child "v" c in
  if bool_decide (t = Some "s") then
    match v_el with
    | Some v =>
        match ET.text v with
        | Some raw =>
            match PyStr.int_of_str raw with
            | Some si => Ok (Some (shared_lookup shared si raw))
            | None => Raise ValueError
            end
        | None => Ok None
        end
    | None => Ok None
    end
  else if bool_decide (t = Some "inlineStr") then
    match ET.find_desc "t" c with
    | Some t_el => Ok (ET.text t_el)
    | None => Ok None
    end
  else
    match v_el with
    | Some v => Ok (ET.text v)
    | None => Ok None
    end.

(** The body of the loop over the cells of a row (lines 166-191). *)
Definition cell_step (shared : list string) (st : cell_state) (c : element)
  : result cell_state :=
  let cur := resolve_column (cur_col st) c in
  let col_idx := cur in
  let cur := cur + 1 in
  let* value := cell_value shared c in
  Ok {| cells := <[col_idx := value]> (cells st);
        cur_col := cur;
        global_max_col := Z.max (global_max_col st) col_idx |}.

(** The loop over the cells of one row, entered with a fresh [cells], the
    cursor at 0 and the running [global_max_col]. *)
Definition scan_row (shared : list string) (gmax : Z) (cs : list element)
  : result cell_state :=
  for_each (cell_step shared)
           {| cells := ∅; cur_col := 0; global_max_col := gmax |} cs.

(** [l[i] = v] on a Python list: a negative index counts from the end, an
    index outside the list raises. *)
Definition list_setitem {A} (l : list A) (i : Z) (v : A) : result (list A) :=
  let n := Z.of_nat (length l) in
  let j := if i <? 0 then i + n else i in
  if (0 <=? j) && (j <? n) then Ok (<[Z.to_nat j := v]> l)
  else Raise IndexError.

(** Lines 197-199. [cells.items()] is walked in key order here and in
    insertion order in Python; the keys are distinct valid indices of
    [row] (see [scan_row_ok]), for which the order is immaterial. The row
    is taken to fit in memory: the [OverflowError] or [MemoryError] that
    [[None] * n] raises on an enormous width is not modelled, and the
    properties that tell how the reader ends bound the width. *)
Definition materialize (gmax : Z) (cells : gmap Z (option string))
  : result (list (option string)) :=
  let row := replicate (Z.to_nat (gmax + 1)) None in
  for_each (fun row kv => list_setitem row (fst kv) (snd kv))
           row (map_to_list cells).

(** The body of the loop over the rows (lines 162-200); the state is
    [(rows, global_max_col)]. *)
Definition row_step (shared : list string)
    (st : list (list (option string)) * Z) (row_el : element)
  : result (list (list (option string)) * Z) :=
  let '(rows, gmax) := st in
  let* cst := scan_row shared gmax (ET.findall_child "c" row_el) in
  let gmax := global_max_col cst in
  if bool_decide (cells cst = ∅) && bool_decide (rows = []) then
    Ok (rows, gmax)
  else
    let* row := materialize gmax (cells cst) in
    Ok (rows ++ [row], gmax).

Definition row_elements (root : element) : list element :=
  ET.findall_desc_child "sheetData" "row" root.

(** Lines 159-202 of [read_first_sheet_rows]: from the parsed worksheet
    and the shared strings to the matrix. *)
Definition sheet_rows (shared : list string) (root : element)
  : result (list (list (option string))) :=
  let* st := for_each (row_step shared) ([], 0) (row_elements root) in
  Ok (fst st).

(* ================================================================== *)
(** ** XLSX: the archive *)

Definition py_truthy_str (o : option string) : bool :=
  match o with
  | Some s => negb (PyStr.is_empty s)
  | None => false
  end.

(** [a or b] on optional strings. *)
Definition py_or_str (a b : option string) : option string :=
  if py_truthy_str a then a else b.

Definition rel_id_attr : string :=
  "{http://schemas.openxmlformats.org/officeDocument/2006/relationships}id".

Section Archive.

(** The content of an archive member, and [ET.fromstring] on it ([None]
    when the parser rejects the document). Of what [zipfile] and the
    parser can raise, only the [KeyError] of a missing member and the
    error of a rejected document are modelled. *)
Variable bytes : Type.
Variable fromstring : bytes -> option element.

(** An opened archive: member name to content. *)
Definition ZipFile : Type := gmap string bytes.

(** [zf.read(name)] *)
Definition zf_read (zf : ZipFile) (name : string) : result bytes :=
  match zf !! name with
  | Some b => Ok b
  | None => Raise (KeyError name)
  end.

Definition ET_fromstring (b : bytes) : result element :=
  match fromstring b with
  | Some e => Ok e
  | None => Raise ParseError
  end.

(** One entry of the shared-string table: the non-empty texts of the
    [t] nodes below [si], joined. *)
Definition shared_string_of (si : element) : string :=
  let parts :=
    omap (fun tnode =>
            match ET.text tnode with
            | Some s => if PyStr.is_empty s then None else Some s
            | None => None
            end)
         (ET.findall_desc "t" si) in
  fold_right String.append "" parts.

Definition _parse_shared_strings (zf : ZipFile) : result (list string) :=
  match zf_read zf "xl/sharedStrings.xml" with
  | Raise (KeyError _) => Ok []
  | Raise e => Raise e
  | Ok xml_data =>
      let* root := ET_fromstring xml_data in
      Ok (map shared_string_of (ET.findall_desc "si" root))
  end.

Definition _first_sheet_path (zf : ZipFile) : result string :=
  let* wb_data := zf_read zf "xl/workbook.xml" in
  let* wb := ET_fromstring wb_data in
  let* rels_data := zf_read zf "xl/_rels/workbook.xml.rels" in
  let* rels := ET_fromstring rels_data in
  let rid_to_target : gmap (option string) string :=
    fold_left
      (fun m rel =>
         <[ET.attrib rel !! "Id" := default "" (ET.attrib rel !! "Target")]> m)
      (ET.findall_desc "Relationship" rels) ∅ in
  match ET.find_desc_child "sheets" "sheet" wb with
  | None => Raise (RuntimeError "Não achei nenhuma sheet no workbook.xml")
  | Some sheet =>
      let rid := py_or_str (ET.attrib sheet !! rel_id_attr)
                           (ET.attrib sheet !! "r:id") in
      let target := default "" (rid_to_target !! rid) in
      if PyStr.is_empty target then
        Raise (RuntimeError
                 "Não consegui resolver o caminho da primeira sheet (rels).")
      else if PyStr.startswith "xl/" target then Ok target
      else Ok ("xl/" +:+ PyStr.lstrip_by (Ascii.eqb "/") target)
  end.

(** The body of the [with] block of [read_first_sheet_rows], on the
    opened archive. *)
Definition read_first_sheet_rows (zf : ZipFile)
  : result (list (list (option string))) :=
  let* shared := _parse_shared_strings zf in
  let* sheet_path := _first_sheet_path zf in
  let* sheet_data := zf_read zf sheet_path in
  let* root := ET_fromstring sheet_data in
  sheet_rows shared root.

End Archive.

(* ================================================================== *)
(** ** Build JSON *)

(** A value stored in a draw: a trimmed text, or the list under
    [__numbers]. *)
Inductive field : Type :=
| FText (s : string)
| FNumbers (l : list Z).

(** An insertion-ordered [dict] with [str] keys. *)
Definition dict (V : Type) : Type := list (string * V).

Fixpoint dict_get {V} (k : string) (d : dict V) : option V :=
  match d with
  | [] => None
  | (k', v) :: d' => if String.eqb k k' then Some v else dict_get k d'
  end.

(** [d[k] = v]: a key already present keeps its place. *)
Fixpoint dict_set {V} (k : string) (v : V) (d : dict V) : dict V :=
  match d with
  | [] => [(k, v)]
  | (k', v') :: d' =>
      if String.eqb k k' then (k, v) :: d' else (k', v') :: dict_set k v d'
  end.

Definition record : Type := dict field.

(** [v is None or str(v).strip() == ""] *)
Definition is_blank (v : option string) : bool :=
  match v with
  | None => true
  | Some s => PyStr.is_empty (PyStr.strip s)
  end.

(** Lines 215-218: the index of the last non-blank entry, 0 if none. *)
Fixpoint last_nonblank (i last : nat) (header_raw : list (option string))
  : nat :=
  match header_raw with
  | [] => last
  | v :: rest =>
      last_nonblank (S i) (if is_blank v then last else i) rest
  end.

(** Lines 237-245. *)
Definition record_step (rec : record) (hv : option string * option string)
  : record :=
  match fst hv with
  | None => rec
  | Some h =>
      if PyStr.is_empty h then rec
      else
        match snd hv with
        | None => rec
        | Some v =>
            let s := PyStr.strip v in
            if PyStr.is_empty s then rec else dict_set h (FText s) rec
        end
  end.

(** What [to_int] receives from [rec.get(col)]. *)
Definition pyval_of_field (o : option field) : pyval :=
  match o with
  | None => VNone
  | Some (FText s) => VStr s
  | Some (FNumbers _) => VOther
  end.

(** Lines 249-252: one turn of the loop over the number columns. *)
Definition numbers_step (rec : record) (nums : list Z) (col : string)
  : result (list Z) :=
  let* n := to_int (pyval_of_field (dict_get col rec)) in
  Ok (match n with
      | Some n => nums ++ [n]
      | None => nums
      end).

(** Lines 227-256: the record a data row contributes, if any. *)
Definition row_record (headers : list (option string))
    (num_cols : list string) (row : list (option string))
  : result (option record) :=
  let row := take (length headers) row in
  match row with
  | [] => Ok None
  | first :: _ =>
      if forallb is_blank row then Ok None
      else if is_blank first then Ok None
      else
        let rec := fold_left record_step (zip headers row) [] in
        let* nums := for_each (numbers_step rec) [] num_cols in
        Ok (Some (match nums with
                  | [] => rec
                  | _ => dict_set "__numbers" (FNumbers nums) rec
                  end))
  end.

(** The body of the loop over the data rows (lines 226-256). *)
Definition draws_step (headers : list (option string))
    (num_cols : list string) (draws : list record)
    (row : list (option string)) : result (list record) :=
  let* r := row_record headers num_cols row in
  Ok (match r with
      | Some rec => draws ++ [rec]
      | None => draws
      end).

(** What [for n in d.get("__numbers", [])] yields, as [str(n)]. *)
Definition number_keys (d : record) : list string :=
  match dict_get "__numbers" d with
  | None => []
  | Some (FNumbers l) => map PyStr.str_of_int l
  | Some (FText s) => PyStr.chars s
  end.

(** Lines 258-263; the state is [(counts, total_nums)]. *)
Definition count_step (st : dict Z * Z) (key : string) : dict Z * Z :=
  let '(counts, total_nums) := st in
  (dict_set key (default 0 (dict_get key counts) + 1) counts, total_nums + 1).

Definition py_truthy_field (o : option field) : bool :=
  match o with
  | Some (FText s) => negb (PyStr.is_empty s)
  | Some (FNumbers l) => match l with [] => false | _ => true end
  | None => false
  end.

Definition py_or_field (a b : option field) : option field :=
  if py_truthy_field a then a else b.

Record meta_block : Type := Meta {
  game_name : string;
  source_file : string;
  generated_at_utc : string;
  rows : Z;
  number_columns : list string
}.

Record stats_block : Type := Stats {
  total_numbers : Z;
  number_counts : dict Z
}.

Record last_block : Type := Last {
  Concurso : option field;
  Data_do_Sorteio : option field
}.

Record dataset : Type := Dataset {
  meta : meta_block;
  stats : stats_block;
  last : last_block;
  draws : list record
}.

(** [xlsx_path.stem], [xlsx_path.name] and [utc_now_iso()]. *)
Record run_info : Type := RunInfo {
  path_stem : string;
  path_name : string;
  utc_now : string
}.

(** Lines 210-287 of [parse_xlsx_dataset]: from the matrix to the
    dataset. *)
Definition dataset_of_matrix (info : run_info)
    (matrix : list (list (option string))) : result dataset :=
  match matrix with
  | [] => Raise (RuntimeError ("Sem dados em " +:+ path_name info))
  | header_raw :: data_rows =>
      let last_i := last_nonblank 0 0 header_raw in
      let header_raw := take (S last_i) header_raw in
      let headers := clean_headers header_raw in
      let num_cols := extract_number_columns headers in
      let* draws := for_each (draws_step headers num_cols) [] data_rows in
      let '(counts, total_nums) :=
        fold_left count_step (flat_map number_keys draws) ([], 0) in
      let last_draw : record := default [] (list.last draws) in
      Ok {| meta := {| game_name := path_stem info;
                       source_file := path_name info;
                       generated_at_utc := utc_now info;
                       rows := Z.of_nat (length draws);
                       number_columns := num_cols |};
            stats := {| total_numbers := total_nums;
                        number_counts := counts |};
            last := {| Concurso := dict_get "Concurso" last_draw;
                       Data_do_Sorteio :=
                         py_or_field
                           (py_or_field (dict_get "Data do Sorteio" last_draw)
                                        (dict_get "Data de Sorteio" last_draw))
                           (dict_get "Data de apuração" last_draw) |};
            draws := draws |}
  end.

Section Pipeline.

Variable bytes : Type.
Variable fromstring : bytes -> option element.

Definition parse_xlsx_dataset (info : run_info) (zf : ZipFile bytes)
  : result dataset :=
  let* matrix := read_first_sheet_rows bytes fromstring zf in
  dataset_of_matrix info matrix.

End Pipeline.

(* ================================================================== *)
(** ** Vocabulary of the properties *)

(** The binary64 values 7.0 and 7.5. *)
Definition float_7_0 : spec_float := S754_finite false 7881299347898368 (-50).
Definition float_7_5 : spec_float := S754_finite false 8444249301319680 (-50).

(** The value of [f] is the integer [n]: [f] is a zero and [n] is 0, or
    [f] is [(-1)^s * m * 2^e] and that number is [n]. *)
Definition float_integer (f : spec_float) (n : Z) : Prop :=
  match f with
  | S754_zero _ => n = 0
  | S754_finite s m e =>
      let v := if s then - Z.pos m else Z.pos m in
      if 0 <=? e then n = v * 2 ^ e else n * 2 ^ (- e) = v
  | _ => False
  end.

(** ASCII text: every character below 128. *)
Definition is_ascii (s : string) : bool :=
  PyStr.forallb_str (fun c => PyStr.ord c <? 128) s.

(** A cell or a header that is absent or holds ASCII text, and a value
    that is not a text or is an ASCII one. *)
Definition ascii_cell (v : option string) : Prop :=
  match v with
  | Some s => is_ascii s = true
  | None => True
  end.

Definition ascii_value (v : pyval) : Prop :=
  match v with
  | VStr s => is_ascii s = true
  | _ => True
  end.

(** A text made of decimal digits only, and at least one. *)
Definition decimal_text (s : string) : Prop :=
  s <> "" /\ PyStr.forallb_str PyStr.is_digit s = true.

(** A text within the limit of [int], and one beyond it. *)
Definition short_text (s : string) : Prop :=
  Z.of_nat (String.length s) <= PyStr.max_str_digits.

Definition long_text (s : string) : Prop :=
  PyStr.max_str_digits < Z.of_nat (String.length s).

(** The first integer with more digits than [int] and [str] convert. *)
Definition str_limit : Z := 10 ^ PyStr.max_str_digits.

(** 4301 times the digit 7. *)
Definition long_digits : string := N.iter 4301 (String "7") "".

(** The values [to_int] takes for a number: an integer, a float without
    fractional part, a text whose trimmed form is a run of digits. *)
Definition coercible (v : pyval) : Prop :=
  match v with
  | VInt _ => True
  | VFloat f => PyFloat.is_integer f = true
  | VStr s => decimal_text (PyStr.strip s)
  | _ => False
  end.

(** The trimmed name of a header entry, [None] when blank or absent. *)
Definition header_name (h : option string) : option string :=
  match h with
  | None => None
  | Some h =>
      let s := PyStr.strip h in
      if PyStr.is_empty s then None else Some s
  end.

(** How many entries of [hs] carry the name [s]. *)
Definition occurrences (s : string) (hs : list (option string)) : nat :=
  length (filter (fun h => header_name h = Some s) hs).

(** The cleaned form of the header [h] found at position [i] of
    [headers]: absent when blank, its trimmed name when it is the first of
    that name up to there, the name followed by [_n] when it is the n-th. *)
Definition cleaned_entry (headers : list (option string)) (i : nat)
    (h : option string) : option string :=
  match header_name h with
  | None => None
  | Some s =>
      let n := occurrences s (take (S i) headers) in
      if (n =? 1)%nat then Some s
      else Some (s +:+ "_" +:+ PyStr.str_of_int (Z.of_nat n))
  end.

(** A column label: capital letters only. *)
Definition label (s : string) : Prop :=
  PyStr.forallb_str PyStr.is_upper s = true.

(** A reference the reader decodes: capital letters, then a digit at
    least, then anything. *)
Definition cell_reference (ref : string) : Prop :=
  exists letters digits rest : string,
    ref = letters +:+ digits +:+ rest /\
    label letters /\ letters <> "" /\ decimal_text digits.

(** Alphabetical order on labels of one length. *)
Fixpoint lex_lt (a b : string) : Prop :=
  match a, b with
  | String x a', String y b' =>
      PyStr.ord x < PyStr.ord y \/ (x = y /\ lex_lt a' b')
  | _, _ => False
  end.

(** The order of the columns of a spreadsheet: shorter labels first,
    alphabetical among labels of one length. *)
Definition label_lt (a b : string) : Prop :=
  (String.length a < String.length b)%nat \/
  (String.length a = String.length b /\ lex_lt a b).

(** The value a character contributes to [_col_to_index]. *)
Definition letter_value (c : ascii) : Z :=
  PyStr.ord (PyStr.upper_char c) - 64.

(** The loop of [_col_to_index], entered with [idx] on a text already in
    capitals. *)
Fixpoint col_loop (idx : Z) (s : string) : Z :=
  match s with
  | EmptyString => idx
  | String ch r => col_loop (idx * 26 + (PyStr.ord ch - PyStr.ord "A" + 1)) r
  end.

(** [26^n], and [1 + 26 + ... + 26^(n-1)]: the loop's value on [n] times
    the letter A. *)
Fixpoint pow26 (n : nat) : Z :=
  match n with
  | O => 1
  | S k => 26 * pow26 k
  end.

Fixpoint ones26 (n : nat) : Z :=
  match n with
  | O => 0
  | S k => 26 * ones26 k + 1
  end.

(** The columns the cells [cs] of a row are stored at, the cursor being
    [cur] before the first of them. *)
Fixpoint columns_from (cur : Z) (cs : list element) : list Z :=
  match cs with
  | [] => []
  | c :: cs' =>
      let col := resolve_column cur c in
      col :: columns_from (col + 1) cs'
  end.

Definition row_cells (row_el : element) : list element :=
  ET.findall_child "c" row_el.

Definition row_columns (row_el : element) : list Z :=
  columns_from 0 (row_cells row_el).

(** The largest column index among the cells of [row_els], from [base]. *)
Definition max_column_from (base : Z) (row_els : list element) : Z :=
  fold_left Z.max (flat_map row_columns row_els) base.

Definition max_column (row_els : list element) : Z :=
  max_column_from 0 row_els.

(** The row elements left once the cell-less ones that open the sheet are
    dropped: those that yield a row of the matrix. *)
Fixpoint drop_leading_empty (row_els : list element) : list element :=
  match row_els with
  | [] => []
  | r :: rest =>
      match row_cells r with
      | [] => drop_leading_empty rest
      | _ => row_els
      end
  end.

(** A cell, a row and a worksheet as the XML parser delivers them. *)
Definition v_elem (txt : string) : element :=
  Element "v" ∅ (Some txt) [].

Definition c_elem (r t : option string) (txt : string) : element :=
  Element "c"
    (from_option (fun r => {[ "r" := r ]}) ∅ r ∪ from_option (fun t => {[ "t" := t ]}) ∅ t)
    None [v_elem txt].

Definition worksheet (row_els : list (list element)) : element :=
  Element "worksheet" ∅ None
    [Element "sheetData" ∅ None (map (Element "row" ∅ None) row_els)].

(** Two rows, A1 alone and then A2 and B2. *)
Definition sheet_two_widths : element :=
  worksheet [[c_elem (Some "A1") None "a"];
             [c_elem (Some "A2") None "b"; c_elem (Some "B2") None "c"]].

(** One cell, tagged as a shared string, whose value is not a number. *)
Definition sheet_bad_index : element :=
  worksheet [[c_elem (Some "A1") (Some "s") "abc"]].

(** An archive around [sheet_bad_index], its members already parsed. *)
Definition archive_bad_index : ZipFile element :=
  {[ "xl/workbook.xml" :=
       Element "workbook" ∅ None
         [Element "sheets" ∅ None
            [Element "sheet" {[ rel_id_attr := "rId1" ]} None []]];
     "xl/_rels/workbook.xml.rels" :=
       Element "Relationships" ∅ None
         [Element "Relationship"
            {[ "Id" := "rId1"; "Target" := "worksheets/sheet1.xml" ]} None []];
     "xl/worksheets/sheet1.xml" := sheet_bad_index ]}.

(** A data row with nothing in it, and one without its first value. *)
Definition all_blank (row : list (option string)) : bool :=
  forallb is_blank row.

Definition first_blank (row : list (option string)) : bool :=
  match row with
  | [] => true
  | v :: _ => is_blank v
  end.

(** The error raised for a matrix without rows. *)
Definition EmptyWorkbook (info : run_info) : exn :=
  RuntimeError ("Sem dados em " +:+ path_name info).

(** A cell that holds, once trimmed, more digits than [int] converts. *)
Definition long_number (v : option string) : Prop :=
  exists s, v = Some s /\ decimal_text (PyStr.strip s) /\ long_text (PyStr.strip s).

(** A header row and one draw whose number is 4301 digits long. *)
Definition matrix_long_number : list (list (option string)) :=
  [[Some "Concurso"; Some "Bola1"]; [Some "1"; Some long_digits]].

(* ================================================================== *)
(** ** [slugify] *)

(** [[a-z0-9]] *)
Definition slug_char (c : ascii) : bool :=
  PyStr.is_lower c || PyStr.is_digit c.

Definition is_dash (c : ascii) : bool := Ascii.eqb c "-".

(** [s.lower()] *)
Fixpoint lower (s : string) : string :=
  match s with
  | EmptyString => EmptyString
  | String c r => String (PyStr.lower_char c) (lower r)
  end.

(** [re.sub] of every longest run of characters satisfying [p] by one
    dash; [in_run] tells whether the previous character was in a run. *)
Fixpoint sub_runs (p : ascii -> bool) (in_run : bool) (s : string) : string :=
  match s with
  | EmptyString => EmptyString
  | String c r =>
      if p c then
        if in_run then sub_runs p true r else String "-" (sub_runs p true r)
      else String c (sub_runs p false r)
  end.

(** [slugify] on ASCII text, where the NFKD normal form is the text itself
    and no character is a combining one. Replacing the runs of two dashes
    or more by one dash leaves single dashes as they are, which is
    [sub_runs is_dash]. *)
Definition slugify (text : string) : string :=
  let text := lower text in
  let text := sub_runs (fun c => negb (slug_char c)) false text in
  let text :=
    PyStr.rstrip_by is_dash (PyStr.lstrip_by is_dash (sub_runs is_dash false text)) in
  if PyStr.is_empty text then "dataset" else text.

(** A slug: not empty, made of small letters, digits and dashes, with no
    dash first or last and no two dashes in a row. *)
Fixpoint slug_body (prev_dash : bool) (s : string) : bool :=
  match s with
  | EmptyString => negb prev_dash
  | String c r =>
      if is_dash c then negb prev_dash && slug_body true r
      else slug_char c && slug_body false r
  end.

Definition is_slug (s : string) : bool :=
  negb (PyStr.is_empty s) && slug_body true s.

(** The characters of [s] that satisfy [p], in order. *)
Fixpoint keep (p : ascii -> bool) (s : string) : string :=
  match s with
  | EmptyString => EmptyString
  | String c r => if p c then String c (keep p r) else keep p r
  end.

(** Dashes between runs of slug characters, none doubled: a slug but for
    its two ends. *)
Fixpoint dashed (prev_dash : bool) (s : string) : bool :=
  match s with
  | EmptyString => true
  | String c r =>
      if is_dash c then negb prev_dash && dashed true r
      else slug_char c && dashed false r
  end.

(* ================================================================== *)
(** ** Number columns *)

(** The three families of number columns. *)
Definition families : list string := ["Bola"; "Trevo"; "Coluna"].

(** The name of a number column: a family name in any letter case, then
    possibly spaces, then decimal digits, and nothing else. *)
Definition number_column_name (x : string) : Prop :=
  exists fam pre ws ds : string,
    fam ∈ families /\ x = pre +:+ ws +:+ ds /\
    lower pre = lower fam /\
    PyStr.forallb_str PyStr.is_space ws = true /\
    decimal_text ds.

(* ================================================================== *)
(** ** Outcomes of the reader *)

(** A cell tagged as a shared string whose value [int] rejects. *)
Definition bad_index_cell (c : element) : Prop :=
  ET.attrib c !! "t" = Some "s" /\
  exists v raw, ET.find_child "v" c = Some v /\ ET.text v = Some raw /\
                PyStr.int_of_str raw = None.

(** A sheet whose cells hold ASCII text, in their references and in
    their values. *)
Definition ascii_sheet (root : element) : Prop :=
  forall el c, el ∈ row_elements root -> c ∈ row_cells el ->
    ascii_cell (ET.attrib c !! "r") /\
    forall v, ET.find_child "v" c = Some v -> ascii_cell (ET.text v).

(** The column of the label ZZZ, the last one with three letters. *)
Definition last_column : Z := 18277.

(* ================================================================== *)
(** ** The content of a row *)

(** The text of a cell, absent when it cannot be read. *)
Definition value_of (shared : list string) (c : element) : option string :=
  match cell_value shared c with
  | Ok v => v
  | Raise _ => None
  end.

(** What the cells [cs] leave at column [k], the cursor being [cur]
    before the first of them and [acc] standing at [k] so far: the value
    of the last cell stored there. *)
Fixpoint placed (shared : list string) (cur : Z) (cs : list element) (k : Z)
    (acc : option (option string)) : option (option string) :=
  match cs with
  | [] => acc
  | c :: cs' =>
      let col := resolve_column cur c in
      placed shared (col + 1) cs' k
             (if decide (col = k) then Some (value_of shared c) else acc)
  end.

(** The text the row element [el] puts at column [k] of its row. *)
Definition row_entry (shared : list string) (el : element) (k : nat)
  : option string :=
  default None (placed shared 0 (row_cells el) (Z.of_nat k) None).

(* ================================================================== *)
(** ** The dataset *)

(** The cleaned headers [parse_xlsx_dataset] works with (lines 213-221). *)
Definition headers_of (header_raw : list (option string))
  : list (option string) :=
  clean_headers (take (S (last_nonblank 0 0 header_raw)) header_raw).

(** The cell of [row] at column [k], absent past the end of the row. *)
Definition cell_at (row : list (option string)) (k : nat) : option string :=
  default None (row !! k).

(** [row] cut or filled with absent cells to the width [n]. *)
Fixpoint pad_to (n : nat) (row : list (option string))
  : list (option string) :=
  match n with
  | O => []
  | S n' =>
      match row with
      | [] => None :: pad_to n' []
      | v :: row' => v :: pad_to n' row'
      end
  end.

(** Two rows alike on the first [n] columns. *)
Definition same_cells (n : nat) (row row' : list (option string)) : Prop :=
  forall k : nat, (k < n)%nat -> cell_at row k = cell_at row' k.

(** A small matrix: two headers, and three data rows of which the second
    has no first cell and the third is short. *)
Definition sample_info : run_info :=
  {| path_stem := "Mega Sena"; path_name := "Mega Sena.xlsx"; utc_now := "t" |}.

Definition sample_header : list (option string) :=
  [Some "Concurso"; Some "Bola1"].

Definition sample_rows : list (list (option string)) :=
  [[Some "1"; Some "5"]; [None; Some "9"]; [Some "2"]].



(** A record as [parse_xlsx_dataset] builds them from the headers [hs],
    the number columns [num_cols] and the cells of [row]: no key twice;
    under a header a text of the row, trimmed and not empty; under
    [__numbers] at most as many numbers as number columns, at least one,
    none negative and none of more digits than [int] converts. *)
Definition well_formed_draw (hs : list (option string))
    (num_cols : list string) (row : list (option string)) (d : record) : Prop :=
  NoDup d.*1 /\
  (forall k s, (k, FText s) ∈ d ->
     Some k ∈ hs /\ s <> "" /\ PyStr.strip s = s /\
     exists v, Some v ∈ row /\ s = PyStr.strip v) /\
  (forall k l, (k, FNumbers l) ∈ d ->
     k = "__numbers" /\ l <> [] /\ Forall (fun n => 0 <= n < str_limit) l /\
     (length l <= length num_cols)%nat).

(* ================================================================== *)
(** ** [build_all]

    The listing [sorted(raw_dir.glob("*.xlsx"))] is the input [files]:
    for each file its stem, its name, the reading of the clock during its
    conversion and its opened archive. The output directory is a log of
    the [write_text] calls in the order they are made, each with its path
    and the value handed to [json.dumps]; a later write to a path
    replaces an earlier one. [mkdir] and [print] leave no trace here. *)

Record manifest_entry : Type := ManifestEntry {
  entry_id : string;
  entry_name : string;
  entry_path : string;
  entry_rows : Z;
  entry_number_columns : list string;
  entry_generated_at_utc : string
}.

Inductive json_doc : Type :=
| DatasetDoc (ds : dataset)
| ManifestDoc (generated_at_utc : string) (datasets : list manifest_entry).

(** [out_dir / name] *)
Definition path_join (dir name : string) : string := dir +:+ "/" +:+ name.

(** [out_dir / f"{ds_id}.json"] for a file of stem [stem]. *)
Definition dataset_path (out_dir stem : string) : string :=
  path_join out_dir (slugify stem +:+ ".json").

(** Lines 305-314. *)
Definition manifest_entry_of (stem : string) (ds : dataset) : manifest_entry :=
  {| entry_id := slugify stem;
     entry_name := stem;
     entry_path := "data/json/" +:+ slugify stem +:+ ".json";
     entry_rows := rows (meta ds);
     entry_number_columns := number_columns (meta ds);
     entry_generated_at_utc := generated_at_utc (meta ds) |}.

Definition no_input_error : exn :=
  RuntimeError "Nenhum .xlsx encontrado em data/raw".

Section BuildAll.

Variable bytes : Type.
Variable fromstring : bytes -> option element.

Record xlsx_file : Type := XlsxFile {
  xlsx_info : run_info;
  xlsx_zip : ZipFile bytes
}.

(** The loop of lines 299-316: [written] is the log of the writes so far
    and [datasets_manifest] the list being built; an exception leaves the
    log as it stands. *)
Fixpoint build_loop (out_dir : string) (xlsx_files : list xlsx_file)
    (written : list (string * json_doc))
    (datasets_manifest : list manifest_entry)
  : list (string * json_doc) * result (list manifest_entry) :=
  match xlsx_files with
  | [] => (written, Ok datasets_manifest)
  | xlsx :: rest =>
      match parse_xlsx_dataset bytes fromstring (xlsx_info xlsx) (xlsx_zip xlsx) with
      | Raise e => (written, Raise e)
      | Ok ds =>
          let stem := path_stem (xlsx_info xlsx) in
          build_loop out_dir rest
            (written ++ [(dataset_path out_dir stem, DatasetDoc ds)])
            (datasets_manifest ++ [manifest_entry_of stem ds])
      end
  end.

(** [build_all]: the log of the writes and the outcome; [manifest_time]
    is the reading of the clock for the manifest. *)
Definition build_all (out_dir manifest_time : string)
    (xlsx_files : list xlsx_file)
  : list (string * json_doc) * result unit :=
  match xlsx_files with
  | [] => ([], Raise no_input_error)
  | _ =>
      match build_loop out_dir xlsx_files [] [] with
      | (written, Raise e) => (written, Raise e)
      | (written, Ok datasets_manifest) =>
          (written ++ [(path_join out_dir "manifest.json",
                        ManifestDoc manifest_time datasets_manifest)],
           Ok tt)
      end
  end.

(** The conversion of [xlsx] gives [ds]. *)
Definition converts (xlsx : xlsx_file) (ds : dataset) : Prop :=
  parse_xlsx_dataset bytes fromstring (xlsx_info xlsx) (xlsx_zip xlsx) = Ok ds.

(** The write and the manifest entry of a converted file. *)
Definition dataset_write (out_dir : string) (xlsx : xlsx_file) (ds : dataset)
  : string * json_doc :=
  (dataset_path out_dir (path_stem (xlsx_info xlsx)), DatasetDoc ds).

Definition entry_of (xlsx : xlsx_file) (ds : dataset) : manifest_entry :=
  manifest_entry_of (path_stem (xlsx_info xlsx)) ds.

End BuildAll.

Definition is_manifest (w : string * json_doc) : Prop :=
  match w.2 with
  | ManifestDoc _ _ => True
  | DatasetDoc _ => False
  end.

(** An archive made of a workbook with one sheet, its relationship and
    the worksheet [sheet], its members already parsed. *)
Definition archive_of_sheet (sheet : element) : ZipFile element :=
  {[ "xl/workbook.xml" :=
       Element "workbook" ∅ None
         [Element "sheets" ∅ None
            [Element "sheet" {[ rel_id_attr := "rId1" ]} None []]];
     "xl/_rels/workbook.xml.rels" :=
       Element "Relationships" ∅ None
         [Element "Relationship"
            {[ "Id" := "rId1"; "Target" := "worksheets/sheet1.xml" ]} None []];
     "xl/worksheets/sheet1.xml" := sheet ]}.

(** A file that converts and one that does not. *)
Definition sample_sheet : element :=
  worksheet [[c_elem (Some "A1") None "Concurso"; c_elem (Some "B1") None "Bola1"];
             [c_elem (Some "A2") None "1"; c_elem (Some "B2") None "5"]].

Definition good_file : xlsx_file element :=
  {| xlsx_info := sample_info; xlsx_zip := archive_of_sheet sample_sheet |}.

Definition bad_file : xlsx_file element :=
  {| xlsx_info := sample_info; xlsx_zip := archive_bad_index |}.

(** The first of three keys present in a record, with its value. *)
Definition first_present (k1 k2 k3 : string) (d : record) : option field :=
  match dict_get k1 d with
  | Some f => Some f
  | None =>
      match dict_get k2 d with
      | Some f => Some f
      | None => dict_get k3 d
      end
  end.

(* ================================================================== *)
(** * Properties *)

(** ** Text helpers *)

Lemma is_empty_true (s : string) : PyStr.is_empty s = true <-> s = "".
Proof. destruct s; simpl; split; congruence. Qed.

Lemma is_empty_false (s : string) : PyStr.is_empty s = false <-> s <> "".
Proof. destruct s; simpl; split; congruence. Qed.

Lemma digit_not_space (c : ascii) :
  PyStr.is_digit c = true -> PyStr.is_space c = false.
Proof.
  unfold PyStr.is_digit, PyStr.is_space, PyStr.in_range. lia.
Qed.

Lemma digit_not_int_space (c : ascii) :
  PyStr.is_digit c = true -> PyStr.is_int_space c = false.
Proof.
  unfold PyStr.is_digit, PyStr.is_int_space, PyStr.in_range. lia.
Qed.

Section StripDigits.

Variable p : ascii -> bool.
Hypothesis p_digit : forall c, PyStr.is_digit c = true -> p c = false.

Lemma lstrip_by_digits (s : string) :
  PyStr.forallb_str PyStr.is_digit s = true -> PyStr.lstrip_by p s = s.
Proof.
  destruct s as [|c r]; simpl; [done|].
  intros [Hc _]%andb_prop. by rewrite (p_digit c Hc).
Qed.

Lemma rstrip_by_digits (s : string) :
  PyStr.forallb_str PyStr.is_digit s = true -> PyStr.rstrip_by p s = s.
Proof.
  induction s as [|c r IH]; simpl; [done|].
  intros [Hc Hr]%andb_prop.
  rewrite (IH Hr), (p_digit c Hc). done.
Qed.

End StripDigits.

Lemma strip_digits (s : string) :
  PyStr.forallb_str PyStr.is_digit s = true -> PyStr.strip s = s.
Proof.
  intros H. unfold PyStr.strip.
  rewrite (lstrip_by_digits _ digit_not_space s H).
  by apply (rstrip_by_digits _ digit_not_space).
Qed.

Lemma count_digits_all (s : string) :
  PyStr.forallb_str PyStr.is_digit s = true ->
  PyStr.count_digits s = Z.of_nat (String.length s).
Proof.
  induction s as [|c r IH]; simpl PyStr.forallb_str; [done|].
  intros [Hc Hr]%andb_prop. cbn [PyStr.count_digits String.length].
  rewrite Hc, (IH Hr). lia.
Qed.

Lemma int_body_digits (s : string) (prev : bool) (acc : Z) :
  PyStr.forallb_str PyStr.is_digit s = true ->
  (prev = true \/ s <> "") ->
  PyStr.int_body prev acc s = Some (PyStr.digits_val acc s).
Proof.
  revert prev acc. induction s as [|c r IH]; simpl; intros prev acc Hd Hne.
  - destruct Hne as [-> | ?]; done.
  - apply andb_prop in Hd as [Hc Hr]. rewrite Hc. apply IH; auto.
Qed.

Lemma short_or_long (s : string) : short_text s \/ long_text s.
Proof. unfold short_text, long_text. lia. Qed.

(** On a run of digits [int] reads the number the digits spell, up to
    its limit on their number. *)
Lemma int_of_str_digits (s : string) :
  decimal_text s -> short_text s ->
  PyStr.int_of_str s = Some (PyStr.digits_val 0 s).
Proof.
  intros [Hne Hd] Hs. unfold PyStr.int_of_str. cbv zeta.
  rewrite (lstrip_by_digits _ digit_not_int_space s Hd).
  rewrite (rstrip_by_digits _ digit_not_int_space s Hd).
  rewrite (count_digits_all s Hd).
  destruct (Z.ltb_spec PyStr.max_str_digits (Z.of_nat (String.length s)))
    as [Hlt | _]; [unfold short_text in Hs; lia|].
  destruct s as [|c r]; [done|].
  assert (Hb : PyStr.int_body false 0 (String c r)
               = Some (PyStr.digits_val 0 (String c r)))
    by (apply int_body_digits; auto).
  simpl in Hd. apply andb_prop in Hd as [Hc _].
  destruct (Ascii.eqb_spec c "+") as [-> | _]; [done|].
  destruct (Ascii.eqb_spec c "-") as [-> | _]; [done|].
  destruct c as [[] [] [] [] [] [] [] []]; done.
Qed.

(** Beyond the limit [int] raises. *)
Lemma int_of_str_long (s : string) :
  decimal_text s -> long_text s -> PyStr.int_of_str s = None.
Proof.
  intros [Hne Hd] Hs. unfold PyStr.int_of_str. cbv zeta.
  rewrite (lstrip_by_digits _ digit_not_int_space s Hd).
  rewrite (rstrip_by_digits _ digit_not_int_space s Hd).
  rewrite (count_digits_all s Hd).
  destruct (Z.ltb_spec PyStr.max_str_digits (Z.of_nat (String.length s)))
    as [_ | Hge]; [done | unfold long_text in Hs; lia].
Qed.

(** ** Loops that may raise *)

Section ForEach.

Context {S X : Type} (body : S -> X -> result S).

Lemma for_each_app (st : S) (xs ys : list X) :
  for_each body st (xs ++ ys)
  = bind (for_each body st xs) (fun st' => for_each body st' ys).
Proof.
  revert st. induction xs as [|x xs IH]; intros st; simpl; [done|].
  destruct (body st x); simpl; [apply IH | done].
Qed.

Lemma for_each_snoc_ok (st st' : S) (xs : list X) (x : X) :
  for_each body st (xs ++ [x]) = Ok st' ->
  exists mid, for_each body st xs = Ok mid /\ body mid x = Ok st'.
Proof.
  rewrite for_each_app. destruct (for_each body st xs) as [mid|]; simpl; [|done].
  destruct (body mid x) eqn:E; simpl; [|done]. intros [= <-]. eauto.
Qed.

(** A loop raises only what one run of its body raises. *)
Lemma for_each_raise (st : S) (xs : list X) (e : exn) :
  for_each body st xs = Raise e ->
  exists st' x, x ∈ xs /\ body st' x = Raise e.
Proof.
  revert st. induction xs as [|x xs IH]; intros st; simpl; [done|].
  destruct (body st x) as [st1|e1] eqn:E; simpl.
  - intros H. destruct (IH _ H) as (st' & y & Hy & Hb).
    exists st', y. split; [by right | done].
  - intros [= <-]. exists st, x. split; [by left | done].
Qed.

(** A property kept by the body is kept by the loop. *)
Lemma for_each_invariant (P : S -> Prop) (st st' : S) (xs : list X) :
  (forall s x s', P s -> body s x = Ok s' -> P s') ->
  P st -> for_each body st xs = Ok st' -> P st'.
Proof.
  intros Hstep. revert st. induction xs as [|x xs IH]; intros st HP; simpl.
  - by intros [= <-].
  - destruct (body st x) as [st1|] eqn:E; simpl; [|done].
    apply IH. by eapply Hstep.
Qed.

End ForEach.

(** ** [to_int] *)

Lemma fullmatch_digits_spec (s : string) :
  PyStr.fullmatch_digits s = true <-> decimal_text s.
Proof.
  unfold PyStr.fullmatch_digits, decimal_text.
  rewrite andb_true_iff, negb_true_iff, is_empty_false. done.
Qed.

Lemma to_int_rejects (v : pyval) : ~ coercible v -> to_int v = Ok None.
Proof.
  destruct v as [| b | n | f | s |]; unfold to_int; cbv zeta; simpl coercible;
    intros H; try done.
  - destruct (PyFloat.is_integer f); [by destruct H | done].
  - destruct (PyStr.fullmatch_digits (PyStr.strip s)) eqn:E; [|done].
    apply fullmatch_digits_spec in E. by destruct H.
Qed.

(** A float coerces to [n] exactly when its value is the integer [n]. *)
Lemma to_int_float (f : spec_float) (n : Z) :
  to_int (VFloat f) = Ok (Some n) <-> float_integer f n.
Proof.
  unfold to_int. destruct f as [s | s | | s m e]; simpl.
  - split; [by intros [= <-] | by intros ->].
  - done.
  - done.
  - destruct (Z.leb_spec 0 e) as [He | He]; simpl.
    + split; [intros [= <-] | intros ->; do 2 f_equal]; destruct s; lia.
    + assert (Hk : 0 < 2 ^ (- e)) by (apply Z.pow_pos_nonneg; lia).
      set (k := 2 ^ (- e)) in *.
      destruct (Z.eqb_spec (Z.pos m mod k) 0) as [Hm | Hm].
      * assert (Hd : Z.pos m = k * (Z.pos m / k))
          by (apply Z_div_exact_full_2; lia).
        set (q := Z.pos m / k) in *.
        split; [intros [= <-] | intros Hn; do 2 f_equal]; destruct s; nia.
      * split; [done|]. intros Hn. destruct Hm.
        destruct s.
        -- replace (Z.pos m) with ((- n) * k) by lia. apply Z.mod_mul. lia.
        -- rewrite <- Hn. apply Z.mod_mul. lia.
Qed.

Lemma to_int_digits (s : string) :
  decimal_text (PyStr.strip s) -> short_text (PyStr.strip s) ->
  to_int (VStr s) = Ok (Some (PyStr.digits_val 0 (PyStr.strip s))).
Proof.
  intros Hd Hs. unfold to_int. cbv zeta.
  rewrite (proj2 (fullmatch_digits_spec _) Hd).
  by rewrite (int_of_str_digits _ Hd Hs).
Qed.

Lemma to_int_long (s : string) :
  decimal_text (PyStr.strip s) -> long_text (PyStr.strip s) ->
  to_int (VStr s) = Raise ValueError.
Proof.
  intros Hd Hs. unfold to_int. cbv zeta.
  rewrite (proj2 (fullmatch_digits_spec _) Hd).
  by rewrite (int_of_str_long _ Hd Hs).
Qed.

Lemma to_int_text (s : string) (n : Z) :
  to_int (VStr s) = Ok (Some n) ->
  decimal_text (PyStr.strip s) /\ short_text (PyStr.strip s) /\
  n = PyStr.digits_val 0 (PyStr.strip s).
Proof.
  intros H. destruct (PyStr.fullmatch_digits (PyStr.strip s)) eqn:E.
  - apply fullmatch_digits_spec in E.
    destruct (short_or_long (PyStr.strip s)) as [Hs | Hl].
    + rewrite (to_int_digits s E Hs) in H. by injection H as <-.
    + by rewrite (to_int_long s E Hl) in H.
  - unfold to_int in H. cbv zeta in H. by rewrite E in H.
Qed.

(** [to_int] raises nothing but the [ValueError] of a run of digits
    beyond the limit. *)
Lemma to_int_raise (v : pyval) (e : exn) :
  to_int v = Raise e ->
  e = ValueError /\
  exists s, v = VStr s /\ decimal_text (PyStr.strip s) /\ long_text (PyStr.strip s).
Proof.
  destruct v as [| b | n | f | s |]; try done.
  - unfold to_int. by destruct (PyFloat.is_integer f).
  - intros H. destruct (PyStr.fullmatch_digits (PyStr.strip s)) eqn:E.
    + apply fullmatch_digits_spec in E.
      destruct (short_or_long (PyStr.strip s)) as [Hs | Hl].
      * by rewrite (to_int_digits s E Hs) in H.
      * rewrite (to_int_long s E Hl) in H. injection H as <-. eauto.
    + unfold to_int in H. cbv zeta in H. by rewrite E in H.
Qed.

Lemma long_digits_text :
  decimal_text (PyStr.strip long_digits) /\ long_text (PyStr.strip long_digits).
Proof.
  split; [split|].
  - vm_compute. discriminate.
  - vm_compute. reflexivity.
  - vm_compute. reflexivity.
Qed.

(** C4, on the code. [to_int] returns an integer as it is, a float
    without fractional part as its truncation, which is the integer the
    float is worth, a text whose trimmed form is a run of at most 4300
    decimal digits as the number they spell, and nothing for any other
    value that is not a text or is an ASCII text: "7" gives 7, "07a"
    gives nothing, 7.0 gives 7 and 7.5 gives nothing. On a text whose
    trimmed form is a longer run of digits it returns neither a number
    nor nothing: [int] raises [ValueError], [to_int] lets it through, and
    the conversion of a matrix with such a cell under a number column
    ends with it. *)
Theorem to_int_cases :
  (forall n : Z, to_int (VInt n) = Ok (Some n)) /\
  (forall f : spec_float,
      PyFloat.is_integer f = true ->
      to_int (VFloat f) = Ok (Some (PyFloat.trunc f))) /\
  (forall (f : spec_float) (n : Z),
      to_int (VFloat f) = Ok (Some n) <-> float_integer f n) /\
  (forall s : string,
      decimal_text (PyStr.strip s) -> short_text (PyStr.strip s) ->
      to_int (VStr s) = Ok (Some (PyStr.digits_val 0 (PyStr.strip s)))) /\
  (forall v : pyval, ascii_value v -> ~ coercible v -> to_int v = Ok None) /\
  to_int (VStr "7") = Ok (Some 7) /\
  to_int (VStr "07a") = Ok None /\
  to_int (VFloat float_7_0) = Ok (Some 7) /\
  to_int (VFloat float_7_5) = Ok None /\
  (forall s : string,
      decimal_text (PyStr.strip s) -> long_text (PyStr.strip s) ->
      to_int (VStr s) = Raise ValueError) /\
  to_int (VStr long_digits) = Raise ValueError /\
  (forall info : run_info,
      dataset_of_matrix info matrix_long_number = Raise ValueError).
Proof.
  split; [done|]. split.
  { intros f Hf. unfold to_int. by rewrite Hf. }
  split; [exact to_int_float|].
  split; [exact to_int_digits|].
  split; [intros v _; apply to_int_rejects|].
  do 4 (split; [vm_compute; reflexivity|]).
  split; [exact to_int_long|].
  split; [apply to_int_long; apply long_digits_text|].
  intros info. vm_compute. reflexivity.
Qed.

Lemma to_int_cases_witness :
  PyFloat.is_integer float_7_0 = true /\
  decimal_text (PyStr.strip " 42 ") /\ short_text (PyStr.strip " 42 ") /\
  ascii_value (VStr "4 2") /\ ~ coercible (VStr "4 2") /\
  decimal_text (PyStr.strip long_digits) /\ long_text (PyStr.strip long_digits) /\
  to_int (VFloat float_7_0) = Ok (Some (PyFloat.trunc float_7_0)) /\
  to_int (VStr " 42 ") = Ok (Some (PyStr.digits_val 0 (PyStr.strip " 42 "))) /\
  to_int (VStr "4 2") = Ok None /\
  to_int (VStr long_digits) = Raise ValueError.
Proof.
  assert (H1 : PyFloat.is_integer float_7_0 = true) by reflexivity.
  assert (H2 : decimal_text (PyStr.strip " 42 ")) by (split; [discriminate | reflexivity]).
  assert (H3 : short_text (PyStr.strip " 42 ")) by (vm_compute; discriminate).
  assert (H4 : ascii_value (VStr "4 2")) by reflexivity.
  assert (H5 : ~ coercible (VStr "4 2")) by (intros [_ H]; discriminate H).
  pose proof (proj1 long_digits_text) as H6.
  pose proof (proj2 long_digits_text) as H7.
  split; [exact H1|]. split; [exact H2|]. split; [exact H3|].
  split; [exact H4|]. split; [exact H5|]. split; [exact H6|]. split; [exact H7|].
  split; [exact (proj1 (proj2 to_int_cases) float_7_0 H1)|].
  split; [exact (proj1 (proj2 (proj2 (proj2 to_int_cases))) " 42 " H2 H3)|].
  split; [exact (proj1 (proj2 (proj2 (proj2 (proj2 to_int_cases)))) (VStr "4 2") H4 H5)|].
  exact (proj1 (proj2 (proj2 (proj2 (proj2 (proj2 (proj2 (proj2 (proj2 (proj2 to_int_cases)))))))))
               long_digits H6 H7).
Defined.

(** ** [clean_headers] *)

Section CleanHeaders.

Implicit Types (hs : list (option string)) (s : string).

Let run hs := fold_left clean_headers_step hs (∅, []).

Lemma occurrences_snoc s hs (h : option string) :
  occurrences s (hs ++ [h])
  = (occurrences s hs + (if decide (header_name h = Some s) then 1 else 0))%nat.
Proof.
  unfold occurrences. rewrite filter_app, length_app. f_equal.
  rewrite filter_cons, filter_nil. by case_decide.
Qed.

Lemma header_name_Some (h : option string) s :
  header_name h = Some s ->
  exists h0, h = Some h0 /\ PyStr.strip h0 = s /\ PyStr.is_empty s = false.
Proof.
  destruct h as [h0|]; simpl; [|done].
  destruct (PyStr.is_empty (PyStr.strip h0)) eqn:E; [done|].
  intros [= <-]. eauto.
Qed.

(** [seen] holds, for every name, how many headers carried it so far. *)
Lemma seen_counts hs s :
  (run hs).1 !! s
  = match occurrences s hs with
    | O => None
    | n => Some (Z.of_nat n)
    end.
Proof.
  induction hs as [|h hs IH] using rev_ind; [done|].
  unfold run in *. rewrite fold_left_app. simpl.
  rewrite occurrences_snoc.
  destruct (fold_left clean_headers_step hs (∅, [])) as [seen out].
  simpl in IH. unfold clean_headers_step.
  destruct h as [h0|]; simpl.
  2:{ rewrite Nat.add_0_r. exact IH. }
  destruct (PyStr.is_empty (PyStr.strip h0)) eqn:E; simpl.
  { rewrite Nat.add_0_r. exact IH. }
  destruct (decide (PyStr.strip h0 = s)) as [-> | Hne].
  - rewrite decide_True by done. rewrite IH.
    rewrite Nat.add_1_r.
    destruct (occurrences s hs) as [|n]; cbn [fst];
      rewrite lookup_insert_eq; f_equal; lia.
  - rewrite decide_False by congruence. rewrite Nat.add_0_r.
    destruct (seen !! PyStr.strip h0); cbn [fst];
      by rewrite lookup_insert_ne.
Qed.

Lemma clean_headers_snoc hs (h : option string) :
  clean_headers (hs ++ [h])
  = clean_headers hs ++ [cleaned_entry (hs ++ [h]) (length hs) h].
Proof.
  unfold clean_headers, cleaned_entry.
  rewrite fold_left_app. simpl.
  rewrite firstn_all2 by (rewrite length_app; simpl; lia).
  pose proof (seen_counts hs) as Hseen. unfold run in Hseen.
  destruct (fold_left clean_headers_step hs (∅, [])) as [seen out].
  simpl in *. destruct h as [h0|]; simpl; [|done].
  destruct (PyStr.is_empty (PyStr.strip h0)) eqn:E; simpl; [done|].
  rewrite occurrences_snoc. simpl. rewrite E.
  rewrite decide_True by done. rewrite Hseen.
  destruct (occurrences (PyStr.strip h0) hs) as [|n]; simpl; [done|].
  replace (Z.of_nat (S n) + 1) with (Z.of_nat (S n + 1)) by lia.
  destruct (n + 1)%nat eqn:En; [lia|]. simpl.
  repeat f_equal. rewrite <- En. done.
Qed.

Lemma clean_headers_length hs : length (clean_headers hs) = length hs.
Proof.
  induction hs as [|h hs IH] using rev_ind; [done|].
  rewrite clean_headers_snoc, !length_app, IH. done.
Qed.

Lemma cleaned_entry_prefix hs (h' : option string) i (h : option string) :
  (i < length hs)%nat ->
  cleaned_entry (hs ++ [h']) i h = cleaned_entry hs i h.
Proof.
  intros Hi. unfold cleaned_entry.
  by rewrite take_app_le by lia.
Qed.

Lemma clean_headers_lookup hs i :
  clean_headers hs !! i = cleaned_entry hs i <$> hs !! i.
Proof.
  revert i. induction hs as [|h hs IH] using rev_ind; intros i; [done|].
  rewrite clean_headers_snoc.
  destruct (decide (i < length hs)%nat) as [Hi | Hi].
  - rewrite !lookup_app_l by (rewrite ?clean_headers_length; lia).
    rewrite IH. destruct (hs !! i); simpl; [|done].
    by rewrite cleaned_entry_prefix.
  - rewrite !lookup_app_r by (rewrite ?clean_headers_length; lia).
    rewrite clean_headers_length.
    destruct (i - length hs)%nat as [|k] eqn:Ek; simpl; [|done].
    by replace i with (length hs) by lia.
Qed.

End CleanHeaders.



(** ** [_col_to_index] *)

Section ColumnLabels.

Implicit Types (s : string) (c : ascii) (idx : Z).

Lemma col_loop_fold idx s :
  fold_left (fun idx ch => idx * 26 + (PyStr.ord ch - PyStr.ord "A" + 1))
            (list_ascii_of_string s) idx
  = col_loop idx s.
Proof. revert idx. induction s as [|c r IH]; intros idx; simpl; auto. Qed.

Lemma col_to_index_loop s :
  _col_to_index s = col_loop 0 (PyStr.upper s) - 1.
Proof. unfold _col_to_index. by rewrite col_loop_fold. Qed.

Lemma col_loop_snoc idx s c :
  col_loop idx (s +:+ String c "") = col_loop idx s * 26 + (PyStr.ord c - 64).
Proof.
  revert idx. induction s as [|c' r IH]; intros idx; simpl.
  - change (PyStr.ord "A") with 65. lia.
  - apply IH.
Qed.

Lemma upper_app s1 s2 :
  PyStr.upper (s1 +:+ s2) = PyStr.upper s1 +:+ PyStr.upper s2.
Proof. induction s1 as [|c r IH]; simpl; [done | by rewrite IH]. Qed.

(** Appending a character shifts the index by one base-26 place. *)
Lemma col_to_index_snoc s c :
  _col_to_index (s +:+ String c "")
  = 26 * (_col_to_index s + 1) + letter_value c - 1.
Proof.
  rewrite !col_to_index_loop, upper_app. simpl PyStr.upper.
  rewrite col_loop_snoc. unfold letter_value. lia.
Qed.

Lemma upper_char_upper c : PyStr.is_upper c = true -> PyStr.upper_char c = c.
Proof.
  unfold PyStr.upper_char, PyStr.is_upper, PyStr.is_lower, PyStr.in_range.
  intros H. destruct ((97 <=? PyStr.ord c) && _) eqn:E; [exfalso; lia | done].
Qed.

Lemma upper_label s : label s -> PyStr.upper s = s.
Proof.
  unfold label. induction s as [|c r IH]; simpl; [done|].
  intros [Hc Hr]%andb_prop. by rewrite (upper_char_upper c Hc), (IH Hr).
Qed.

Lemma upper_digit c :
  PyStr.is_upper c = true -> 1 <= PyStr.ord c - PyStr.ord "A" + 1 <= 26.
Proof.
  change (PyStr.ord "A") with 65.
  unfold PyStr.is_upper, PyStr.in_range. lia.
Qed.

Lemma pow26_ones n : pow26 n = 25 * ones26 n + 1.
Proof. induction n as [|n IH]; simpl pow26; simpl ones26; lia. Qed.

Lemma ones26_nonneg n : 0 <= ones26 n.
Proof. induction n as [|n IH]; simpl ones26; lia. Qed.

Lemma ones26_mono n m : (n <= m)%nat -> ones26 n <= ones26 m.
Proof.
  induction 1 as [|m _ IH]; [lia|].
  simpl ones26. pose proof (ones26_nonneg m). lia.
Qed.

(** The loop over a label of [n] letters ends between its values on [n]
    times A and [n] times Z. *)
Lemma col_loop_bounds s idx :
  label s ->
  idx * pow26 (String.length s) + ones26 (String.length s)
    <= col_loop idx s
    <= idx * pow26 (String.length s) + 26 * ones26 (String.length s).
Proof.
  unfold label. revert idx.
  induction s as [|c r IH]; intros idx; simpl String.length.
  - simpl. lia.
  - simpl PyStr.forallb_str. intros [Hc Hr]%andb_prop.
    simpl col_loop. specialize (IH (idx * 26 + (PyStr.ord c - PyStr.ord "A" + 1)) Hr).
    pose proof (upper_digit c Hc) as Hd.
    set (d := PyStr.ord c - PyStr.ord "A" + 1) in *.
    simpl pow26. simpl ones26.
    pose proof (pow26_ones (String.length r)) as Hp.
    pose proof (ones26_nonneg (String.length r)) as Hg.
    set (p := pow26 (String.length r)) in *.
    set (g := ones26 (String.length r)) in *.
    nia.
Qed.

Lemma col_loop_lex s1 s2 idx :
  label s1 -> label s2 ->
  String.length s1 = String.length s2 ->
  lex_lt s1 s2 ->
  col_loop idx s1 < col_loop idx s2.
Proof.
  unfold label. revert s2 idx.
  induction s1 as [|c1 r1 IH]; intros [|c2 r2] idx; simpl lex_lt; try done.
  simpl PyStr.forallb_str. simpl String.length.
  intros [Hc1 Hr1]%andb_prop [Hc2 Hr2]%andb_prop [= Hlen] Hlt.
  simpl col_loop. destruct Hlt as [Hlt | [-> Hlt]].
  - pose proof (col_loop_bounds r1 (idx * 26 + (PyStr.ord c1 - PyStr.ord "A" + 1)) Hr1) as [_ H1].
    pose proof (col_loop_bounds r2 (idx * 26 + (PyStr.ord c2 - PyStr.ord "A" + 1)) Hr2) as [H2 _].
    rewrite <- Hlen in H2.
    pose proof (pow26_ones (String.length r1)) as Hp.
    pose proof (ones26_nonneg (String.length r1)) as Hg.
    set (p := pow26 (String.length r1)) in *.
    set (g := ones26 (String.length r1)) in *.
    nia.
  - by apply IH.
Qed.

Lemma col_to_index_increasing s1 s2 :
  label s1 -> label s2 -> label_lt s1 s2 ->
  _col_to_index s1 < _col_to_index s2.
Proof.
  intros L1 L2 Hlt. rewrite !col_to_index_loop.
  rewrite (upper_label s1 L1), (upper_label s2 L2).
  destruct Hlt as [Hlen | [Hlen Hlex]].
  - pose proof (col_loop_bounds s1 0 L1) as [_ H1].
    pose proof (col_loop_bounds s2 0 L2) as [H2 _].
    assert (Hm : ones26 (S (String.length s1)) <= ones26 (String.length s2))
      by (apply ones26_mono; lia).
    simpl ones26 in Hm.
    pose proof (ones26_nonneg (String.length s1)). lia.
  - pose proof (col_loop_lex s1 s2 0 L1 L2 Hlen Hlex). lia.
Qed.

Lemma label_index_nonneg s : label s -> s <> "" -> 0 <= _col_to_index s.
Proof.
  intros L Hne. rewrite col_to_index_loop, (upper_label s L).
  pose proof (col_loop_bounds s 0 L) as [H _].
  destruct s as [|c r]; [done|]. simpl String.length in H.
  simpl ones26 in H. pose proof (ones26_nonneg (String.length r)). lia.
Qed.

End ColumnLabels.

(** C7. [_col_to_index] reads a label as a base-26 numeral whose digits,
    the letters, are worth 1 to 26, and counts from zero: "A" is 0, "Z" is
    25, "AA" is 26; and it is strictly increasing along the order of
    spreadsheet columns, shorter labels first and alphabetical within one
    length. *)
Theorem col_to_index_positional :
  (forall c : ascii, PyStr.is_upper c = true -> 1 <= letter_value c <= 26) /\
  (forall (s : string) (c : ascii),
      _col_to_index (s +:+ String c "")
      = 26 * (_col_to_index s + 1) + letter_value c - 1) /\
  _col_to_index "A" = 0 /\ _col_to_index "Z" = 25 /\ _col_to_index "AA" = 26 /\
  (forall s1 s2 : string,
      label s1 -> label s2 -> label_lt s1 s2 ->
      _col_to_index s1 < _col_to_index s2).
Proof.
  split.
  { intros c Hc. unfold letter_value. rewrite (upper_char_upper c Hc).
    pose proof (upper_digit c Hc) as H. change (PyStr.ord "A") with 65 in H. lia. }
  split; [exact col_to_index_snoc|].
  repeat (split; [reflexivity|]).
  exact col_to_index_increasing.
Qed.

Lemma col_to_index_positional_witness :
  PyStr.is_upper "Q"%char = true /\ 1 <= letter_value "Q"%char <= 26 /\
  label "ZZ" /\ label "AAA" /\ label_lt "ZZ" "AAA" /\
  _col_to_index "ZZ" < _col_to_index "AAA".
Proof.
  assert (HQ : PyStr.is_upper "Q"%char = true) by reflexivity.
  assert (L1 : label "ZZ") by reflexivity.
  assert (L2 : label "AAA") by reflexivity.
  assert (Hlt : label_lt "ZZ" "AAA") by (left; simpl; lia).
  split; [exact HQ|].
  split; [exact (proj1 col_to_index_positional "Q"%char HQ)|].
  split; [exact L1|]. split; [exact L2|]. split; [exact Hlt|].
  exact (proj2 (proj2 (proj2 (proj2 (proj2 col_to_index_positional))))
               "ZZ" "AAA" L1 L2 Hlt).
Defined.

Lemma span_spec (p : ascii -> bool) (s a b : string) :
  PyStr.span p s = (a, b) ->
  PyStr.forallb_str p a = true /\ s = a +:+ b.
Proof.
  revert a b. induction s as [|c r IH]; simpl; intros a b.
  - by intros [= <- <-].
  - destruct (p c) eqn:Hc.
    + destruct (PyStr.span p r) as [a' b'] eqn:E. intros [= <- <-].
      destruct (IH a' b' eq_refl) as [Ha ->]. simpl. by rewrite Hc, Ha.
    + by intros [= <- <-].
Qed.

(** What the reader hands to [_col_to_index] is a label. *)
Lemma match_ref_label (ref letters digits : string) :
  match_ref ref = Some (letters, digits) -> label letters /\ letters <> "".
Proof.
  unfold match_ref.
  destruct (PyStr.span PyStr.is_upper ref) as [l rest] eqn:E1.
  destruct (PyStr.span PyStr.is_digit rest) as [d rest'] eqn:E2.
  destruct (PyStr.is_empty l) eqn:El; simpl; [done|].
  destruct (PyStr.is_empty d); [done|]. intros [= <- <-].
  split; [by apply (span_spec _ _ _ _ E1) | by apply is_empty_false].
Qed.




(** ** [_parse_shared_strings] *)

(** C10. When the archive has no shared-string part,
    [_parse_shared_strings] returns the empty list; it does not fail,
    whatever the XML parser does on the other parts. *)
Theorem parse_shared_strings_absent
    (bytes : Type) (fromstring : bytes -> option element)
    (zf : ZipFile bytes) :
  zf !! "xl/sharedStrings.xml" = None ->
  _parse_shared_strings bytes fromstring zf = Ok [].
Proof.
  intros H. unfold _parse_shared_strings, zf_read. by rewrite H.
Qed.

Lemma parse_shared_strings_absent_witness :
  _parse_shared_strings string (fun _ => None)
    {[ "xl/workbook.xml" := "<workbook/>" ]} = Ok [].
Proof.
  apply (parse_shared_strings_absent string (fun _ => None)
           {[ "xl/workbook.xml" := "<workbook/>" ]}).
  vm_compute. reflexivity.
Defined.

(** ** [parse_xlsx_dataset]: rows and the empty matrix *)

Section Transform.

Implicit Types (row : list (option string)) (info : run_info).

Lemma forallb_take {A} (p : A -> bool) (n : nat) (l : list A) :
  forallb p l = true -> forallb p (take n l) = true.
Proof.
  revert n. induction l as [|x l IH]; intros [|n]; simpl; try done.
  intros [Hx Hl]%andb_prop. by rewrite Hx, IH.
Qed.

Lemma all_blank_first_blank row : all_blank row = true -> first_blank row = true.
Proof. destruct row; simpl; [done|]. by intros [? _]%andb_prop. Qed.

Lemma row_record_skipped headers num_cols row :
  all_blank row = true \/ first_blank row = true ->
  row_record headers num_cols row = Ok None.
Proof.
  intros H. unfold row_record.
  destruct (take (length headers) row) as [|first rest] eqn:E; [done|].
  destruct row as [|v row']; [by destruct (length headers)|].
  destruct (length headers) as [|n]; [done|].
  simpl in E. injection E as <- <-.
  destruct H as [H | H].
  - unfold all_blank in H.
    change (v :: take n row') with (take (S n) (v :: row')).
    by rewrite (forallb_take _ _ _ H).
  - simpl in H. rewrite H. by destruct (forallb _ _).
Qed.

Lemma draws_step_skipped headers num_cols (draws : list record) row :
  all_blank row = true \/ first_blank row = true ->
  draws_step headers num_cols draws row = Ok draws.
Proof.
  intros H. unfold draws_step. by rewrite (row_record_skipped _ _ _ H).
Qed.

Lemma draws_skipped headers num_cols (draws : list record)
    (data_rows : list (list (option string))) :
  Forall (fun row => all_blank row = true \/ first_blank row = true) data_rows ->
  for_each (draws_step headers num_cols) draws data_rows = Ok draws.
Proof.
  induction 1 as [|row rest Hrow _ IH]; [done|].
  cbn [for_each]. rewrite (draws_step_skipped _ _ _ _ Hrow). exact IH.
Qed.

(** The loops of the transform raise nothing but the [ValueError] of
    [to_int]. *)
Lemma numbers_loop_raise (rec : record) (nums : list Z) (cols : list string) e :
  for_each (numbers_step rec) nums cols = Raise e -> e = ValueError.
Proof.
  intros (st & col & _ & H)%for_each_raise. unfold numbers_step in H.
  destruct (to_int _) as [n|e'] eqn:E; cbn [bind] in H; [done|].
  injection H as <-. by apply to_int_raise in E as [-> _].
Qed.

Lemma row_record_raise headers num_cols row e :
  row_record headers num_cols row = Raise e -> e = ValueError.
Proof.
  unfold row_record.
  destruct (take (length headers) row) as [|first rest]; [done|].
  destruct (forallb is_blank (first :: rest)); [done|].
  destruct (is_blank first); [done|]. cbv zeta.
  destruct (for_each _ _ _) as [nums|e'] eqn:E; cbn [bind]; [done|].
  intros [= <-]. by eapply numbers_loop_raise.
Qed.

Lemma draws_loop_raise headers num_cols (draws : list record)
    (data_rows : list (list (option string))) e :
  for_each (draws_step headers num_cols) draws data_rows = Raise e ->
  e = ValueError.
Proof.
  intros (st & row & _ & H)%for_each_raise. unfold draws_step in H.
  destruct (row_record _ _ _) as [r|e'] eqn:E; cbn [bind] in H; [done|].
  injection H as <-. by eapply row_record_raise.
Qed.

Lemma dataset_of_matrix_skip info header pre row post :
  all_blank row = true \/ first_blank row = true ->
  dataset_of_matrix info (header :: pre ++ row :: post)
  = dataset_of_matrix info (header :: pre ++ post).
Proof.
  intros H. unfold dataset_of_matrix. cbv zeta.
  rewrite !for_each_app.
  destruct (for_each _ [] pre) as [draws|e]; cbn [bind]; [|done].
  cbn [for_each]. by rewrite (draws_step_skipped _ _ _ _ H).
Qed.

Lemma dataset_of_matrix_raise info matrix e :
  dataset_of_matrix info matrix = Raise e ->
  (matrix = [] /\ e = EmptyWorkbook info) \/ (matrix <> [] /\ e = ValueError).
Proof.
  destruct matrix as [|header data_rows].
  - intros [= <-]. by left.
  - unfold dataset_of_matrix. cbv zeta.
    destruct (for_each _ _ _) as [draws|e'] eqn:E; cbn [bind].
    + by destruct (fold_left count_step _ _).
    + intros [= <-]. right. split; [done|]. by eapply draws_loop_raise.
Qed.

Lemma dataset_of_matrix_empty_iff info matrix :
  dataset_of_matrix info matrix = Raise (EmptyWorkbook info) <-> matrix = [].
Proof.
  split; [|by intros ->].
  intros [[-> _] | [_ [=]]]%dataset_of_matrix_raise. done.
Qed.

Lemma dataset_of_matrix_no_draws info header data_rows :
  Forall (fun row => all_blank row = true \/ first_blank row = true) data_rows ->
  exists ds,
    dataset_of_matrix info (header :: data_rows) = Ok ds /\
    rows (meta ds) = 0 /\ draws ds = [] /\
    total_numbers (stats ds) = 0 /\ number_counts (stats ds) = [] /\
    Concurso (last ds) = None /\ Data_do_Sorteio (last ds) = None.
Proof.
  intros H. unfold dataset_of_matrix. cbv zeta.
  rewrite (draws_skipped _ _ _ _ H). cbn [bind]. simpl.
  eexists. split; [reflexivity|]. simpl. done.
Qed.

End Transform.

(** C5. A data row in which every cell is blank or absent, or whose first
    cell is blank or absent, yields no record, whatever the headers and
    whatever its other cells hold: the dataset is the one built without
    that row. *)
Theorem blank_row_contributes_nothing
    (info : run_info) (header : list (option string))
    (pre post : list (list (option string))) (row : list (option string)) :
  all_blank row = true \/ first_blank row = true ->
  (forall headers num_cols, row_record headers num_cols row = Ok None) /\
  dataset_of_matrix info (header :: pre ++ row :: post)
  = dataset_of_matrix info (header :: pre ++ post).
Proof.
  intros H. split.
  - intros headers num_cols. by apply row_record_skipped.
  - by apply dataset_of_matrix_skip.
Qed.

Lemma blank_row_contributes_nothing_witness :
  let info := {| path_stem := "mega"; path_name := "mega.xlsx"; utc_now := "t" |} in
  let header := [Some "Concurso"; Some "Bola1"] in
  let row := [Some "  "; Some "17"] in
  (all_blank row = true \/ first_blank row = true) /\
  (forall headers num_cols, row_record headers num_cols row = Ok None) /\
  dataset_of_matrix info (header :: [[Some "1"; Some "5"]] ++ row :: [])
  = dataset_of_matrix info (header :: [[Some "1"; Some "5"]] ++ []).
Proof.
  intros info header row.
  assert (H : all_blank row = true \/ first_blank row = true)
    by (right; reflexivity).
  split; [exact H|].
  exact (blank_row_contributes_nothing info header [[Some "1"; Some "5"]] [] row H).
Defined.

(** ** The cells of a row *)

Section Cells.

Variable shared : list string.
Implicit Types (st : cell_state) (c : element) (cs : list element).

Lemma cell_step_ok st c st' :
  cell_step shared st c = Ok st' ->
  exists value,
    cell_value shared c = Ok value /\
    cells st' = <[resolve_column (cur_col st) c := value]> (cells st) /\
    cur_col st' = resolve_column (cur_col st) c + 1 /\
    global_max_col st' = Z.max (global_max_col st) (resolve_column (cur_col st) c).
Proof.
  unfold cell_step. destruct (cell_value shared c) as [value|]; simpl; [|done].
  intros [= <-]. exists value. simpl. done.
Qed.

Lemma cell_value_raise c e : cell_value shared c = Raise e -> e = ValueError.
Proof.
  unfold cell_value. repeat case_match; congruence.
Qed.

Lemma cell_step_raise st c e : cell_step shared st c = Raise e -> e = ValueError.
Proof.
  unfold cell_step. destruct (cell_value shared c) eqn:E; simpl; [done|].
  intros [= <-]. by eapply cell_value_raise.
Qed.

Lemma resolve_column_nonneg cur c : 0 <= cur -> 0 <= resolve_column cur c.
Proof.
  intros H. unfold resolve_column.
  destruct (ET.attrib c !! "r") as [ref|]; [|done].
  destruct (PyStr.is_empty ref); [done|].
  destruct (match_ref ref) as [[letters digits]|] eqn:E; [|done].
  destruct (match_ref_label _ _ _ E). by apply label_index_nonneg.
Qed.

Lemma columns_from_nonneg cur cs :
  0 <= cur -> Forall (fun k => 0 <= k) (columns_from cur cs).
Proof.
  revert cur. induction cs as [|c cs IH]; intros cur H; simpl; constructor.
  - by apply resolve_column_nonneg.
  - apply IH. pose proof (resolve_column_nonneg cur c H). lia.
Qed.

Lemma fold_max_ge (l : list Z) (g : Z) : g <= fold_left Z.max l g.
Proof.
  revert g. induction l as [|k l IH]; intros g; simpl; [lia|].
  specialize (IH (Z.max g k)). lia.
Qed.

Lemma fold_max_bound (l : list Z) (g k : Z) :
  k ∈ l -> k <= fold_left Z.max l g.
Proof.
  revert g. induction l as [|x l IH]; intros g; [by intros ?%elem_of_nil|].
  intros [-> | Hk]%elem_of_cons; simpl.
  - pose proof (fold_max_ge l (Z.max g x)). lia.
  - by apply IH.
Qed.

(** What the loop over the cells leaves in its variables. *)
Lemma scan_cells st cs st' :
  for_each (cell_step shared) st cs = Ok st' ->
  global_max_col st'
    = fold_left Z.max (columns_from (cur_col st) cs) (global_max_col st) /\
  (forall k, is_Some (cells st' !! k) ->
             is_Some (cells st !! k) \/ k ∈ columns_from (cur_col st) cs) /\
  (cs <> [] -> cells st' <> ∅) /\
  (cs = [] -> cells st' = cells st).
Proof.
  revert st. induction cs as [|c cs IH]; intros st; simpl.
  - intros [= <-]. split; [done|]. split; [auto|]. done.
  - destruct (cell_step shared st c) as [st1|] eqn:E; simpl; [|done].
    intros H. destruct (cell_step_ok _ _ _ E) as (value & _ & Hcells & Hcur & Hmax).
    destruct (IH _ H) as (Hg & Hkeys & Hne & Hnil).
    rewrite Hcur, Hmax in *. split; [done|]. split; [|split; [|done]].
    + intros k Hk. destruct (Hkeys k Hk) as [Hin | Hin].
      * rewrite Hcells in Hin.
        destruct (decide (resolve_column (cur_col st) c = k)) as [<- | Hne'].
        -- right. by left.
        -- rewrite lookup_insert_ne in Hin by done. by left.
      * right. by right.
    + intros _. destruct cs as [|c' cs'].
      * rewrite (Hnil eq_refl), Hcells. apply insert_non_empty.
      * by apply Hne.
Qed.

Lemma scan_row_ok gmax cs st' :
  0 <= gmax ->
  scan_row shared gmax cs = Ok st' ->
  global_max_col st' = fold_left Z.max (columns_from 0 cs) gmax /\
  gmax <= global_max_col st' /\
  (forall k, is_Some (cells st' !! k) -> 0 <= k <= global_max_col st') /\
  (cells st' = ∅ <-> cs = []).
Proof.
  intros Hg H. unfold scan_row in H.
  destruct (scan_cells _ _ _ H) as (Hmax & Hkeys & Hne & Hnil).
  simpl in *. split; [done|]. rewrite Hmax.
  split; [apply fold_max_ge|]. split.
  - intros k Hk. destruct (Hkeys k Hk) as [Hin | Hin].
    + rewrite lookup_empty in Hin. by destruct Hin.
    + split; [|by apply fold_max_bound].
      pose proof (columns_from_nonneg 0 cs ltac:(lia)) as Hnn.
      rewrite Forall_forall in Hnn. by apply Hnn.
  - split.
    + intros He. destruct cs; [done|]. by destruct Hne.
    + intros ->. by apply Hnil.
Qed.

Lemma scan_row_raise gmax cs e :
  scan_row shared gmax cs = Raise e -> e = ValueError.
Proof.
  intros (st & c & _ & H)%for_each_raise. by eapply cell_step_raise.
Qed.

End Cells.

(** ** Materializing a row *)

Section Materialize.

Implicit Types (row : list (option string)) (k : Z) (v : option string).

Lemma list_setitem_ok {A} (l : list A) (k : Z) (x : A) :
  0 <= k < Z.of_nat (length l) ->
  list_setitem l k x = Ok (<[Z.to_nat k := x]> l).
Proof.
  intros H. unfold list_setitem.
  destruct (k <? 0) eqn:E1; [lia|].
  destruct ((0 <=? k) && (k <? Z.of_nat (length l))) eqn:E2; [done | lia].
Qed.

Lemma list_setitem_length {A} (l l' : list A) (k : Z) (x : A) :
  list_setitem l k x = Ok l' -> length l' = length l.
Proof.
  unfold list_setitem. case_match; [|done].
  intros [= <-]. apply length_insert.
Qed.

Lemma list_setitem_raise {A} (l : list A) (k : Z) (x : A) e :
  list_setitem l k x = Raise e -> e = IndexError.
Proof. unfold list_setitem. case_match; congruence. Qed.

Let store row (kv : Z * option string) := list_setitem row kv.1 kv.2.

Lemma fill_length items row row' :
  for_each store row items = Ok row' -> length row' = length row.
Proof.
  apply (for_each_invariant store (fun r => length r = length row)); [|done].
  intros r kv r' Hr Hs. rewrite <- Hr. by eapply list_setitem_length.
Qed.

(** Valid, distinct keys: every assignment lands, and the row ends up
    holding, at each key, the value stored under it. *)
Lemma fill_spec (items : list (Z * option string)) row :
  NoDup items.*1 ->
  (forall k v, (k, v) ∈ items -> 0 <= k < Z.of_nat (length row)) ->
  exists row',
    for_each store row items = Ok row' /\
    forall j : nat,
      row' !! j
      = match (list_to_map items : gmap Z (option string)) !! Z.of_nat j with
        | Some v => if decide (j < length row)%nat then Some v else None
        | None => row !! j
        end.
Proof.
  revert row. induction items as [|[k v] items IH]; intros row Hnd Hin.
  - exists row. split; [done|]. intros j. by rewrite list_to_map_nil, lookup_empty.
  - rewrite fmap_cons in Hnd. apply NoDup_cons in Hnd as [Hk Hnd].
    cbn [fst] in Hk.
    assert (Hkr : 0 <= k < Z.of_nat (length row)) by (apply (Hin k v); by left).
    destruct (IH (<[Z.to_nat k := v]> row) Hnd) as (row' & Hrun & Hrow').
    { intros k' v' H'. rewrite length_insert. apply (Hin k' v'). by right. }
    exists row'. split.
    { cbn [for_each]. unfold store at 1. cbn [fst snd].
      by rewrite (list_setitem_ok row k v Hkr). }
    intros j. rewrite Hrow', length_insert, list_to_map_cons.
    destruct (decide (k = Z.of_nat j)) as [-> | Hne].
    + rewrite lookup_insert_eq, (not_elem_of_list_to_map_1 _ _ Hk).
      rewrite Nat2Z.id. rewrite list_lookup_insert_eq by lia.
      by rewrite decide_True by lia.
    + rewrite lookup_insert_ne by done.
      rewrite list_lookup_insert_ne by lia. done.
Qed.

Lemma materialize_length gmax (cells : gmap Z (option string)) row :
  materialize gmax cells = Ok row -> length row = Z.to_nat (gmax + 1).
Proof.
  unfold materialize. intros H%fill_length. by rewrite length_replicate in H.
Qed.

Lemma materialize_raise gmax (cells : gmap Z (option string)) e :
  materialize gmax cells = Raise e -> e = IndexError.
Proof.
  intros (r & kv & _ & H)%for_each_raise. by eapply list_setitem_raise.
Qed.

(** With every key between 0 and [gmax] the row is built, [gmax + 1]
    wide, and holds the cells at their columns and nothing elsewhere. *)
Lemma materialize_spec gmax (cells : gmap Z (option string)) :
  (forall k, is_Some (cells !! k) -> 0 <= k <= gmax) ->
  exists row,
    materialize gmax cells = Ok row /\
    forall k, 0 <= k <= gmax ->
              row !! Z.to_nat k = Some (default None (cells !! k)).
Proof.
  intros Hkeys. unfold materialize.
  destruct (fill_spec (map_to_list cells) (replicate (Z.to_nat (gmax + 1)) None))
    as (row & Hrun & Hrow).
  - apply NoDup_fst_map_to_list.
  - intros k v Hkv%elem_of_map_to_list. rewrite length_replicate.
    specialize (Hkeys k (ex_intro _ v Hkv)). lia.
  - exists row. split; [done|]. intros k Hk.
    rewrite Hrow, list_to_map_to_list, length_replicate.
    rewrite Z2Nat.id by lia.
    destruct (cells !! k) as [v|]; simpl.
    + by rewrite decide_True by lia.
    + apply lookup_replicate_2. lia.
Qed.

End Materialize.

(** ** The rows of the sheet *)

Section Rows.

Variable shared : list string.
Implicit Types (rows : list (list (option string))) (gmax : Z)
               (row_el : element) (els : list element).





(** One turn of the loop over the rows. *)
Lemma row_step_ok rows gmax row_el rows' gmax' :
  0 <= gmax ->
  row_step shared (rows, gmax) row_el = Ok (rows', gmax') ->
  gmax' = fold_left Z.max (row_columns row_el) gmax /\
  gmax <= gmax' /\
  if bool_decide (row_cells row_el = []) && bool_decide (rows = [])
  then rows' = rows
  else exists row, rows' = rows ++ [row] /\
                   Z.of_nat (length row) = gmax' + 1.
Proof.
  intros Hg. unfold row_step. fold (row_cells row_el).
  destruct (scan_row shared gmax (row_cells row_el)) as [cst|] eqn:E; simpl; [|done].
  destruct (scan_row_ok _ _ _ _ Hg E) as (Hmax & Hge & Hkeys & Hempty).
  assert (Hb : bool_decide (cells cst = ∅) = bool_decide (row_cells row_el = []))
    by (by apply bool_decide_ext).
  rewrite Hb.
  destruct (bool_decide (row_cells row_el = []) && bool_decide (rows = [])).
  - intros [= <- <-]. done.
  - destruct (materialize (global_max_col cst) (cells cst)) as [row|] eqn:Em;
      simpl; [|done].
    intros [= <- <-]. split; [done|]. split; [done|].
    exists row. split; [done|].
    rewrite (materialize_length _ _ _ Em). lia.
Qed.

Lemma row_step_raise rows gmax row_el e :
  0 <= gmax ->
  row_step shared (rows, gmax) row_el = Raise e -> e = ValueError.
Proof.
  intros Hg. unfold row_step. fold (row_cells row_el).
  destruct (scan_row shared gmax (row_cells row_el)) as [cst|] eqn:E; simpl.
  - destruct (scan_row_ok _ _ _ _ Hg E) as (_ & _ & Hkeys & _).
    case_match; [done|].
    destruct (materialize_spec _ _ Hkeys) as (row & -> & _). done.
  - intros [= <-]. by eapply scan_row_raise.
Qed.



Lemma rows_loop_raise els rows gmax e :
  0 <= gmax ->
  for_each (row_step shared) (rows, gmax) els = Raise e -> e = ValueError.
Proof.
  revert rows gmax.
  induction els as [|el els IH]; intros rows gmax Hg; cbn [for_each]; [done|].
  destruct (row_step shared (rows, gmax) el) as [[rows1 gmax1]|] eqn:E; cbn [bind].
  - destruct (row_step_ok _ _ _ _ _ Hg E) as (_ & Hge & _).
    apply IH. lia.
  - intros [= <-]. by eapply row_step_raise.
Qed.


(** The reader of the sheet raises nothing but the [ValueError] of
    [int]. *)
Lemma sheet_rows_raise root e :
  sheet_rows shared root = Raise e -> e = ValueError.
Proof.
  unfold sheet_rows.
  destruct (for_each _ _ _) as [[rows' gmax']|] eqn:E; simpl; [done|].
  intros [= <-]. by eapply rows_loop_raise.
Qed.

End Rows.

(** ** [read_first_sheet_rows]: widths *)


(** C1, on the code. The sheet with A1 in its first row and A2, B2 in its
    second has 1 as largest column index, so that each of its rows should
    be two cells wide. The reader returns its first row one cell wide and
    only its second two cells wide: a row is built as wide as the largest
    column met so far requires and is not widened when a later row
    reaches further. *)
Theorem sheet_rows_widths_differ :
  max_column (row_elements sheet_two_widths) = 1 /\
  sheet_rows [] sheet_two_widths = Ok [[Some "a"]; [Some "b"; Some "c"]] /\
  read_first_sheet_rows element Some (archive_of_sheet sheet_two_widths)
  = Ok [[Some "a"]; [Some "b"; Some "c"]].
Proof. repeat split; vm_compute; reflexivity. Qed.



(** ** [read_first_sheet_rows]: the cursor *)

Lemma span_app (p : ascii -> bool) (a b : string) :
  PyStr.forallb_str p a = true ->
  match b with String c _ => p c = false | EmptyString => True end ->
  PyStr.span p (a +:+ b) = (a, b).
Proof.
  intros Ha Hb. induction a as [|c a IH]; simpl in *.
  - destruct b as [|c b]; [done|]. simpl. by rewrite Hb.
  - apply andb_prop in Ha as [Hc Ha]. by rewrite Hc, (IH Ha).
Qed.

Lemma span_nonempty (p : ascii -> bool) (a b : string) :
  PyStr.forallb_str p a = true -> a <> "" ->
  PyStr.is_empty (PyStr.span p (a +:+ b)).1 = false.
Proof.
  destruct a as [|c a]; [done|]. simpl.
  intros [Hc _]%andb_prop _. rewrite Hc.
  by destruct (PyStr.span p (a +:+ b)).
Qed.

Lemma digit_not_upper (c : ascii) :
  PyStr.is_digit c = true -> PyStr.is_upper c = false.
Proof. unfold PyStr.is_digit, PyStr.is_upper, PyStr.in_range. lia. Qed.

(** On capital letters followed by digits the pattern matches and its
    first group is the letters, whatever follows. *)
Lemma match_ref_letters (letters digits rest : string) :
  label letters -> letters <> "" -> decimal_text digits ->
  exists d, match_ref (letters +:+ digits +:+ rest) = Some (letters, d).
Proof.
  intros Hl Hne [Hdne Hd]. unfold match_ref.
  rewrite (span_app PyStr.is_upper letters (digits +:+ rest) Hl).
  2:{ destruct digits as [|c ds]; [done|]. simpl in *.
      apply andb_prop in Hd as [Hc _]. by apply digit_not_upper. }
  pose proof (span_nonempty PyStr.is_digit digits rest Hd Hdne) as Hs.
  destruct (PyStr.span PyStr.is_digit (digits +:+ rest)) as [d r].
  simpl in Hs. rewrite Hs.
  rewrite (proj2 (is_empty_false letters) Hne). simpl. eauto.
Qed.

Lemma resolve_column_ref (cur : Z) (c : element) (letters digits rest : string) :
  ET.attrib c !! "r" = Some (letters +:+ digits +:+ rest) ->
  label letters -> letters <> "" -> decimal_text digits ->
  resolve_column cur c = _col_to_index letters.
Proof.
  intros Hr Hl Hne Hd. unfold resolve_column. rewrite Hr.
  destruct (match_ref_letters letters digits rest Hl Hne Hd) as [d ->].
  destruct letters; [done|]. done.
Qed.

Lemma resolve_column_none (cur : Z) (c : element) :
  ET.attrib c !! "r" = None -> resolve_column cur c = cur.
Proof. intros Hr. unfold resolve_column. by rewrite Hr. Qed.

Lemma append_assoc (s1 s2 s3 : string) : (s1 +:+ s2) +:+ s3 = s1 +:+ s2 +:+ s3.
Proof.
  induction s1 as [|c r IH]; [done|].
  change (String c ((r +:+ s2) +:+ s3) = String c (r +:+ s2 +:+ s3)).
  by rewrite IH.
Qed.

(** When the pattern matches, the reference is one the reader decodes. *)
Lemma match_ref_reference (ref letters digits : string) :
  match_ref ref = Some (letters, digits) -> cell_reference ref.
Proof.
  unfold match_ref.
  destruct (PyStr.span PyStr.is_upper ref) as [l rest] eqn:E1.
  destruct (PyStr.span PyStr.is_digit rest) as [d rest'] eqn:E2.
  destruct (PyStr.is_empty l) eqn:El; simpl; [done|].
  destruct (PyStr.is_empty d) eqn:Ed; [done|]. intros _.
  apply span_spec in E1 as [Hl ->]. apply span_spec in E2 as [Hd ->].
  exists l, d, rest'. split; [done|]. split; [done|].
  split; [by apply is_empty_false|]. split; [by apply is_empty_false | done].
Qed.

Lemma resolve_column_unmatched (cur : Z) (c : element) (ref : string) :
  ET.attrib c !! "r" = Some ref -> ~ cell_reference ref ->
  resolve_column cur c = cur.
Proof.
  intros Hr Hn. unfold resolve_column. rewrite Hr.
  destruct (PyStr.is_empty ref); [done|].
  destruct (match_ref ref) as [[letters digits]|] eqn:E; [|done].
  destruct Hn. by eapply match_ref_reference.
Qed.

(** C8 as stated fails: a reference is decoded only when it starts with
    capital letters followed by a digit. After a cell at "B1" a cell whose
    reference is "e1" is stored at the cursor, column 2, and not at the
    column 4 of the letter e; and a first cell whose reference is "$C$7"
    is stored at column 0, not at the column 2 of the letter C. *)
Lemma reference_not_decoded :
  scan_row [] 0 [c_elem (Some "B1") None "x"; c_elem (Some "e1") None "y"]
  = Ok {| cells := {[ 1 := Some "x"; 2 := Some "y" ]};
          cur_col := 3; global_max_col := 2 |} /\
  _col_to_index "e" = 4 /\
  scan_row [] 0 [c_elem (Some "$C$7") None "z"]
  = Ok {| cells := {[ 0 := Some "z" ]}; cur_col := 1; global_max_col := 0 |} /\
  _col_to_index "C" = 2.
Proof. repeat split; vm_compute; reflexivity. Qed.

(** C8, amended. In the loop over the cells of a row the cursor starts at
    0. A cell whose reference starts with capital letters followed by a
    digit is stored at the column the letters decode to, whatever comes
    after them; a cell without a reference is stored at the cursor, that
    is one past the column of the cell before it, and so is a cell whose
    reference, an ASCII text, is empty or does not start that way; and
    once a cell is stored the cursor is one past its column. *)
Theorem cursor_rule
    (shared : list string) (gmax : Z) (cs : list element) (c : element)
    (st' : cell_state) :
  scan_row shared gmax (cs ++ [c]) = Ok st' ->
  exists (st : cell_state) (value : option string),
    scan_row shared gmax cs = Ok st /\
    cell_value shared c = Ok value /\
    (cs = [] -> cur_col st = 0) /\
    (forall letters digits rest : string,
        ET.attrib c !! "r" = Some (letters +:+ digits +:+ rest) ->
        label letters -> letters <> "" -> decimal_text digits ->
        cells st' = <[_col_to_index letters := value]> (cells st) /\
        cur_col st' = _col_to_index letters + 1) /\
    (ET.attrib c !! "r" = None ->
        cells st' = <[cur_col st := value]> (cells st) /\
        cur_col st' = cur_col st + 1) /\
    (forall ref : string,
        ET.attrib c !! "r" = Some ref ->
        is_ascii ref = true -> ~ cell_reference ref ->
        cells st' = <[cur_col st := value]> (cells st) /\
        cur_col st' = cur_col st + 1).
Proof.
  unfold scan_row. intros (st & Hst & Hstep)%for_each_snoc_ok.
  destruct (cell_step_ok _ _ _ _ Hstep) as (value & Hv & Hcells & Hcur & _).
  exists st, value. split; [done|]. split; [done|]. split.
  { intros ->. simpl in Hst. by injection Hst as <-. }
  split; [|split].
  - intros letters digits rest Hr Hl Hne Hd.
    by rewrite (resolve_column_ref _ _ _ _ _ Hr Hl Hne Hd) in Hcells, Hcur.
  - intros Hr. by rewrite (resolve_column_none _ _ Hr) in Hcells, Hcur.
  - intros ref Hr _ Hn.
    by rewrite (resolve_column_unmatched _ _ _ Hr Hn) in Hcells, Hcur.
Qed.

Lemma cursor_rule_witness :
  let cs := [c_elem (Some "C7") None "x"] in
  let c := c_elem (Some "e7") None "y" in
  let st' := {| cells := {[ 2 := Some "x"; 3 := Some "y" ]};
                cur_col := 4; global_max_col := 3 |} in
  scan_row [] 0 (cs ++ [c]) = Ok st' /\
  exists (st : cell_state) (value : option string),
    scan_row [] 0 cs = Ok st /\
    cell_value [] c = Ok value /\
    (cs = [] -> cur_col st = 0) /\
    (forall letters digits rest : string,
        ET.attrib c !! "r" = Some (letters +:+ digits +:+ rest) ->
        label letters -> letters <> "" -> decimal_text digits ->
        cells st' = <[_col_to_index letters := value]> (cells st) /\
        cur_col st' = _col_to_index letters + 1) /\
    (ET.attrib c !! "r" = None ->
        cells st' = <[cur_col st := value]> (cells st) /\
        cur_col st' = cur_col st + 1) /\
    (forall ref : string,
        ET.attrib c !! "r" = Some ref ->
        is_ascii ref = true -> ~ cell_reference ref ->
        cells st' = <[cur_col st := value]> (cells st) /\
        cur_col st' = cur_col st + 1).
Proof.
  intros cs c st'.
  assert (H : scan_row [] 0 (cs ++ [c]) = Ok st') by (vm_compute; reflexivity).
  split; [exact H|].
  exact (cursor_rule [] 0 cs c st' H).
Defined.

(** ** [read_first_sheet_rows]: a value that is not a number *)

(** C2, on the code. A single cell tagged [t="s"] whose value is "abc":
    [int] raises [ValueError], which nothing catches, so the reader and
    with it the conversion of the archive end with that exception; the
    same cell with the out-of-range index "7" gives its raw text. *)
Theorem bad_shared_index_aborts :
  cell_value ["only"] (c_elem (Some "A1") (Some "s") "7") = Ok (Some "7") /\
  cell_value ["only"] (c_elem (Some "A1") (Some "s") "abc") = Raise ValueError /\
  sheet_rows ["only"] sheet_bad_index = Raise ValueError /\
  read_first_sheet_rows element Some archive_bad_index = Raise ValueError /\
  (forall info : run_info,
      parse_xlsx_dataset element Some info archive_bad_index = Raise ValueError).
Proof.
  split; [vm_compute; reflexivity|].
  split; [vm_compute; reflexivity|].
  split; [vm_compute; reflexivity|].
  assert (H : read_first_sheet_rows element Some archive_bad_index
              = Raise ValueError) by (vm_compute; reflexivity).
  split; [exact H|].
  intros info. unfold parse_xlsx_dataset. by rewrite H.
Qed.

(** ** [parse_xlsx_dataset]: the empty matrix *)

Section ReaderErrors.

Variable bytes : Type.
Variable fromstring : bytes -> option element.
Variable info : run_info.

Lemma zf_read_raise (zf : ZipFile bytes) name e :
  zf_read bytes zf name = Raise e -> e = KeyError name.
Proof. unfold zf_read. case_match; congruence. Qed.

Lemma ET_fromstring_raise b e :
  ET_fromstring bytes fromstring b = Raise e -> e = ParseError.
Proof. unfold ET_fromstring. case_match; congruence. Qed.

Lemma parse_shared_strings_raise (zf : ZipFile bytes) e :
  _parse_shared_strings bytes fromstring zf = Raise e -> e = ParseError.
Proof.
  unfold _parse_shared_strings.
  destruct (zf_read bytes zf "xl/sharedStrings.xml") as [b|e'] eqn:E.
  - destruct (ET_fromstring bytes fromstring b) eqn:E'; simpl; [done|].
    intros [= <-]. by eapply ET_fromstring_raise.
  - apply zf_read_raise in E as ->. done.
Qed.

Lemma first_sheet_path_raise (zf : ZipFile bytes) e :
  _first_sheet_path bytes fromstring zf = Raise e -> e <> EmptyWorkbook info.
Proof.
  unfold _first_sheet_path, EmptyWorkbook.
  repeat match goal with
  | |- context [bind ?m _] =>
      let E := fresh "E" in
      destruct m eqn:E; cbn [bind];
      [| intros [= <-];
         first [apply zf_read_raise in E as -> | apply ET_fromstring_raise in E as ->];
         done]
  end.
  repeat case_match; intros [= <-]; done.
Qed.

(** Nothing the reader raises is the error of the empty matrix. *)
Lemma read_first_sheet_rows_raise (zf : ZipFile bytes) e :
  read_first_sheet_rows bytes fromstring zf = Raise e -> e <> EmptyWorkbook info.
Proof.
  unfold read_first_sheet_rows.
  destruct (_parse_shared_strings bytes fromstring zf) as [shared|e1] eqn:E1;
    cbn [bind]; [| intros [= <-]; by apply parse_shared_strings_raise in E1 as ->].
  destruct (_first_sheet_path bytes fromstring zf) as [path|e2] eqn:E2;
    cbn [bind]; [| intros [= <-]; by eapply first_sheet_path_raise].
  destruct (zf_read bytes zf path) as [data|e3] eqn:E3;
    cbn [bind]; [| intros [= <-]; by apply zf_read_raise in E3 as ->].
  destruct (ET_fromstring bytes fromstring data) as [root|e4] eqn:E4;
    cbn [bind]; [| intros [= <-]; by apply ET_fromstring_raise in E4 as ->].
  by intros ->%sheet_rows_raise.
Qed.

Lemma first_sheet_path_not_index (zf : ZipFile bytes) e :
  _first_sheet_path bytes fromstring zf = Raise e -> e <> IndexError.
Proof.
  unfold _first_sheet_path.
  repeat match goal with
  | |- context [bind ?m _] =>
      let E := fresh "E" in
      destruct m eqn:E; cbn [bind];
      [| intros [= <-];
         first [apply zf_read_raise in E as -> | apply ET_fromstring_raise in E as ->];
         done]
  end.
  repeat case_match; intros [= <-]; done.
Qed.

(** The reader never raises [IndexError]: an assignment [row[idx] = val]
    always falls inside the row. *)
Lemma read_first_sheet_rows_not_index (zf : ZipFile bytes) e :
  read_first_sheet_rows bytes fromstring zf = Raise e -> e <> IndexError.
Proof.
  unfold read_first_sheet_rows.
  destruct (_parse_shared_strings bytes fromstring zf) as [shared|e1] eqn:E1;
    cbn [bind]; [| intros [= <-]; by apply parse_shared_strings_raise in E1 as ->].
  destruct (_first_sheet_path bytes fromstring zf) as [path|e2] eqn:E2;
    cbn [bind]; [| intros [= <-]; by eapply first_sheet_path_not_index].
  destruct (zf_read bytes zf path) as [data|e3] eqn:E3;
    cbn [bind]; [| intros [= <-]; by apply zf_read_raise in E3 as ->].
  destruct (ET_fromstring bytes fromstring data) as [root|e4] eqn:E4;
    cbn [bind]; [| intros [= <-]; by apply ET_fromstring_raise in E4 as ->].
  by intros ->%sheet_rows_raise.
Qed.

Lemma parse_xlsx_dataset_empty_iff (zf : ZipFile bytes) :
  parse_xlsx_dataset bytes fromstring info zf = Raise (EmptyWorkbook info)
  <-> read_first_sheet_rows bytes fromstring zf = Ok [].
Proof.
  unfold parse_xlsx_dataset.
  destruct (read_first_sheet_rows bytes fromstring zf) as [matrix|e] eqn:E;
    cbn [bind].
  - rewrite dataset_of_matrix_empty_iff. split; congruence.
  - split; [|done]. intros [= ->].
    by destruct (read_first_sheet_rows_raise zf _ E).
Qed.

End ReaderErrors.

(** ** [slugify] *)

Section Slugify.

Implicit Types (s t : string) (c : ascii) (b : bool).

Local Abbreviation nonslug := (fun c : ascii => negb (slug_char c)).

Lemma is_dash_eq c : is_dash c = true -> c = "-"%char.
Proof. unfold is_dash. by intros ?%Ascii.eqb_eq. Qed.

Lemma slug_char_not_dash c : slug_char c = true -> is_dash c = false.
Proof.
  intros H. destruct (is_dash c) eqn:E; [|done].
  apply is_dash_eq in E as ->. done.
Qed.

Lemma sub_nonslug_dashed s b : dashed b (sub_runs nonslug b s) = true.
Proof.
  revert b. induction s as [|c r IH]; intros b; simpl; [done|].
  destruct (slug_char c) eqn:Hc; simpl.
  - by rewrite (slug_char_not_dash c Hc), Hc, IH.
  - destruct b; simpl; by rewrite IH.
Qed.

Lemma sub_dash_dashed t b : dashed b t = true -> sub_runs is_dash b t = t.
Proof.
  revert b. induction t as [|c r IH]; intros b; simpl; [done|].
  destruct (is_dash c) eqn:Hc.
  - intros [Hb Hr]%andb_prop. apply negb_true_iff in Hb as ->.
    by rewrite (IH true Hr), (is_dash_eq c Hc).
  - intros [_ Hr]%andb_prop. by rewrite (IH false Hr).
Qed.

Lemma sub_nonslug_fixed t b : dashed b t = true -> sub_runs nonslug b t = t.
Proof.
  revert b. induction t as [|c r IH]; intros b; simpl; [done|].
  destruct (is_dash c) eqn:Hc.
  - intros [Hb Hr]%andb_prop. apply negb_true_iff in Hb as ->.
    pose proof (is_dash_eq c Hc) as ->. simpl. by rewrite (IH true Hr).
  - intros [Hs Hr]%andb_prop. rewrite Hs. simpl. by rewrite (IH false Hr).
Qed.

Lemma lstrip_dashed t b :
  dashed b t = true -> dashed true (PyStr.lstrip_by is_dash t) = true.
Proof.
  revert b. induction t as [|c r IH]; intros b; simpl; [done|].
  destruct (is_dash c) eqn:Hc.
  - intros [_ Hr]%andb_prop. by apply (IH true).
  - intros H. simpl. by rewrite Hc.
Qed.

Lemma rstrip_slug_body t b :
  dashed b t = true ->
  PyStr.is_empty (PyStr.rstrip_by is_dash t) = false ->
  slug_body b (PyStr.rstrip_by is_dash t) = true.
Proof.
  revert b. induction t as [|c r IH]; intros b; simpl; [done|].
  destruct (is_dash c) eqn:Hc; simpl.
  - intros [Hb Hr]%andb_prop.
    destruct (PyStr.is_empty (PyStr.rstrip_by is_dash r)) eqn:E; [done|].
    intros _. simpl. rewrite Hc, Hb. simpl. by apply IH.
  - intros [Hs Hr]%andb_prop _. simpl. rewrite Hc, Hs. simpl.
    destruct (PyStr.is_empty (PyStr.rstrip_by is_dash r)) eqn:E.
    + by apply is_empty_true in E as ->.
    + by apply IH.
Qed.

Lemma slugify_slug s : is_slug (slugify s) = true.
Proof.
  unfold slugify.
  set (t1 := sub_runs (fun c => negb (slug_char c)) false (lower s)).
  assert (H1 : dashed false t1 = true) by apply sub_nonslug_dashed.
  rewrite (sub_dash_dashed t1 false H1).
  pose proof (lstrip_dashed t1 false H1) as H2.
  destruct (PyStr.is_empty (PyStr.rstrip_by is_dash (PyStr.lstrip_by is_dash t1))) eqn:E.
  - reflexivity.
  - unfold is_slug. rewrite E. simpl. by apply rstrip_slug_body.
Qed.

Lemma slug_body_dashed t b : slug_body b t = true -> dashed b t = true.
Proof.
  revert b. induction t as [|c r IH]; intros b; simpl; [done|].
  destruct (is_dash c).
  - intros [-> Hr]%andb_prop. by rewrite (IH true Hr).
  - intros [-> Hr]%andb_prop. by rewrite (IH false Hr).
Qed.

Lemma slug_body_lower t b : slug_body b t = true -> lower t = t.
Proof.
  revert b. induction t as [|c r IH]; intros b; simpl; [done|].
  assert (Hl : (is_dash c = true \/ slug_char c = true) -> PyStr.lower_char c = c).
  { unfold PyStr.lower_char. destruct (PyStr.is_upper c) eqn:Hu; [|done].
    intros [Hd | Hs]; exfalso.
    - apply is_dash_eq in Hd. by subst c.
    - revert Hu Hs. unfold slug_char, PyStr.is_upper, PyStr.is_lower,
        PyStr.is_digit, PyStr.in_range. lia. }
  destruct (is_dash c) eqn:Hc.
  - intros [_ Hr]%andb_prop. by rewrite Hl, (IH true Hr) by auto.
  - intros [Hs Hr]%andb_prop. by rewrite Hl, (IH false Hr) by auto.
Qed.

Lemma slug_body_rstrip t b :
  slug_body b t = true -> PyStr.rstrip_by is_dash t = t.
Proof.
  revert b. induction t as [|c r IH]; intros b; simpl; [done|].
  destruct (is_dash c) eqn:Hc; simpl.
  - intros [_ Hr]%andb_prop. rewrite (IH true Hr). by destruct r.
  - intros [_ Hr]%andb_prop. by rewrite (IH false Hr).
Qed.

Lemma slugify_fixes_slug t : is_slug t = true -> slugify t = t.
Proof.
  unfold is_slug. intros [Hne Hb]%andb_prop. unfold slugify.
  rewrite (slug_body_lower t true Hb).
  pose proof (slug_body_dashed t true Hb) as Hd.
  assert (Hd' : dashed false t = true).
  { destruct t as [|c r]; [done|]. simpl in *. by destruct (is_dash c). }
  rewrite (sub_nonslug_fixed t false Hd'), (sub_dash_dashed t false Hd').
  assert (Hl : PyStr.lstrip_by is_dash t = t).
  { destruct t as [|c r]; [done|]. simpl in *. by destruct (is_dash c). }
  rewrite Hl, (slug_body_rstrip t true Hb).
  by apply negb_true_iff in Hne as ->.
Qed.

Lemma keep_sub_runs p s b :
  (forall c, p c = true -> slug_char c = false) ->
  keep slug_char (sub_runs p b s) = keep slug_char s.
Proof.
  intros Hp. revert b. induction s as [|c r IH]; intros b; simpl; [done|].
  destruct (p c) eqn:Hc.
  - rewrite (Hp c Hc). destruct b; simpl; by rewrite IH.
  - simpl. by rewrite IH.
Qed.

Lemma keep_lstrip s : keep slug_char (PyStr.lstrip_by is_dash s) = keep slug_char s.
Proof.
  induction s as [|c r IH]; simpl; [done|].
  destruct (is_dash c) eqn:Hc; [|done].
  rewrite IH. by rewrite (is_dash_eq c Hc).
Qed.

Lemma keep_rstrip s : keep slug_char (PyStr.rstrip_by is_dash s) = keep slug_char s.
Proof.
  induction s as [|c r IH]; simpl; [done|].
  destruct (is_dash c && _) eqn:E; simpl.
  - apply andb_prop in E as [Hc Hr]. rewrite (is_dash_eq c Hc). simpl.
    rewrite <- IH. by apply is_empty_true in Hr as ->.
  - by rewrite IH.
Qed.

Lemma keep_slugify_raw s :
  keep slug_char
    (PyStr.rstrip_by is_dash
       (PyStr.lstrip_by is_dash
          (sub_runs is_dash false
             (sub_runs (fun c => negb (slug_char c)) false (lower s)))))
  = keep slug_char (lower s).
Proof.
  rewrite keep_rstrip, keep_lstrip.
  rewrite keep_sub_runs by (intros c Hc; destruct (slug_char c) eqn:E; [|done];
                            by rewrite (slug_char_not_dash c E) in Hc).
  apply keep_sub_runs. intros c. by destruct (slug_char c).
Qed.

Lemma keep_empty_slug t b :
  dashed b t = true -> keep slug_char t = "" ->
  PyStr.rstrip_by is_dash (PyStr.lstrip_by is_dash t) = "".
Proof.
  revert b. induction t as [|c r IH]; intros b; simpl; [done|].
  destruct (is_dash c) eqn:Hc.
  - intros [_ Hr]%andb_prop. rewrite (is_dash_eq c Hc). simpl. by apply (IH true).
  - intros [-> _]%andb_prop. done.
Qed.

End Slugify.

(** X1. On ASCII text [slugify] returns a slug: a text that is not empty,
    made of small letters, digits and dashes only, that neither starts nor
    ends with a dash and has no two dashes in a row. *)
Theorem slugify_yields_slug (s : string) :
  is_ascii s = true -> is_slug (slugify s) = true.
Proof. intros _. apply slugify_slug. Qed.

Lemma slugify_yields_slug_witness :
  is_ascii "Mega-Sena  2024!" = true /\
  slugify "Mega-Sena  2024!" = "mega-sena-2024" /\
  is_slug (slugify "Mega-Sena  2024!") = true.
Proof.
  assert (H : is_ascii "Mega-Sena  2024!" = true) by reflexivity.
  split; [exact H|]. split; [reflexivity|].
  exact (slugify_yields_slug "Mega-Sena  2024!" H).
Defined.

(** X2. [slugify] leaves a slug as it is, so that applying it twice is
    applying it once. *)
Theorem slugify_idempotent :
  (forall t : string, is_slug t = true -> slugify t = t) /\
  (forall s : string, is_ascii s = true -> slugify (slugify s) = slugify s).
Proof.
  split; [exact slugify_fixes_slug|].
  intros s _. apply slugify_fixes_slug, slugify_slug.
Qed.

Lemma slugify_idempotent_witness :
  is_slug "dia-de-sorte" = true /\ slugify "dia-de-sorte" = "dia-de-sorte" /\
  is_ascii " Dia de Sorte " = true /\
  slugify (slugify " Dia de Sorte ") = slugify " Dia de Sorte ".
Proof.
  assert (H1 : is_slug "dia-de-sorte" = true) by reflexivity.
  assert (H2 : is_ascii " Dia de Sorte " = true) by reflexivity.
  split; [exact H1|].
  split; [exact (proj1 slugify_idempotent "dia-de-sorte" H1)|].
  split; [exact H2|].
  exact (proj2 slugify_idempotent " Dia de Sorte " H2).
Defined.

(** X3. A text without any letter or digit gets the slug "dataset"; any
    other ASCII text keeps in its slug exactly its letters and digits, in
    small letters and in their order. *)
Theorem slugify_keeps_alnum (s : string) :
  is_ascii s = true ->
  (keep slug_char (lower s) = "" -> slugify s = "dataset") /\
  (keep slug_char (lower s) <> "" ->
   keep slug_char (slugify s) = keep slug_char (lower s)).
Proof.
  intros _. pose proof (keep_slugify_raw s) as Hk. unfold slugify.
  set (t1 := sub_runs (fun c => negb (slug_char c)) false (lower s)) in *.
  assert (H1 : dashed false t1 = true) by apply sub_nonslug_dashed.
  rewrite (sub_dash_dashed t1 false H1) in *.
  split.
  - intros He. rewrite <- (keep_sub_runs (fun c => negb (slug_char c)) (lower s) false) in He
      by (intros c; by destruct (slug_char c)).
    fold t1 in He. by rewrite (keep_empty_slug t1 false H1 He).
  - intros Hne.
    destruct (PyStr.is_empty (PyStr.rstrip_by is_dash (PyStr.lstrip_by is_dash t1))) eqn:E;
      [|done].
    apply is_empty_true in E. rewrite E in Hk. by destruct Hne.
Qed.

Lemma slugify_keeps_alnum_witness :
  is_ascii "Mega-Sena 2024" = true /\
  keep slug_char (lower "Mega-Sena 2024") <> "" /\
  keep slug_char (slugify "Mega-Sena 2024") = keep slug_char (lower "Mega-Sena 2024") /\
  is_ascii "--__--" = true /\ keep slug_char (lower "--__--") = "" /\
  slugify "--__--" = "dataset".
Proof.
  assert (H1 : is_ascii "Mega-Sena 2024" = true) by reflexivity.
  assert (H2 : keep slug_char (lower "Mega-Sena 2024") <> "") by discriminate.
  assert (H3 : is_ascii "--__--" = true) by reflexivity.
  assert (H4 : keep slug_char (lower "--__--") = "") by reflexivity.
  split; [exact H1|]. split; [exact H2|].
  split; [exact (proj2 (slugify_keeps_alnum "Mega-Sena 2024" H1) H2)|].
  split; [exact H3|]. split; [exact H4|].
  exact (proj1 (slugify_keeps_alnum "--__--" H3) H4).
Defined.

(** ** [to_int] and [str] *)

Section DecimalText.

Implicit Types (d : Decimal.uint) (p : positive) (s : string).

Lemma string_of_uint_digits d :
  PyStr.forallb_str PyStr.is_digit (NilEmpty.string_of_uint d) = true.
Proof. induction d; simpl; auto. Qed.

Lemma digits_val_acc d p :
  PyStr.digits_val (Z.pos p) (NilEmpty.string_of_uint d)
  = Z.pos (Pos.of_uint_acc d p).
Proof.
  revert p. induction d; intros p; simpl; [done|..];
    unfold PyStr.digit_val, PyStr.ord; simpl;
    match goal with
    | |- PyStr.digits_val ?a _ = Z.pos (Pos.of_uint_acc _ ?q) =>
        replace a with (Z.pos q) by lia
    end; apply IHd.
Qed.

Lemma digits_val_of_uint d :
  PyStr.digits_val 0 (NilEmpty.string_of_uint d) = Z.of_N (Pos.of_uint d).
Proof.
  induction d; simpl; [done | done | ..];
    unfold PyStr.digit_val, PyStr.ord; simpl; apply digits_val_acc.
Qed.

Lemma string_of_uint_nonempty d :
  d <> Decimal.Nil -> NilEmpty.string_of_uint d <> "".
Proof. by destruct d. Qed.

Lemma str_of_int_pos p :
  PyStr.str_of_int (Z.pos p) = NilEmpty.string_of_uint (Pos.to_uint p).
Proof.
  unfold PyStr.str_of_int. simpl.
  pose proof (DecimalPos.Unsigned.to_uint_nonnil p) as H.
  by destruct (Pos.to_uint p).
Qed.

Lemma str_of_int_decimal (n : Z) :
  0 <= n ->
  decimal_text (PyStr.str_of_int n) /\
  PyStr.digits_val 0 (PyStr.str_of_int n) = n.
Proof.
  intros Hn. destruct n as [|p|p]; [by repeat split | | lia].
  rewrite str_of_int_pos. split; [split|].
  - apply string_of_uint_nonempty, DecimalPos.Unsigned.to_uint_nonnil.
  - apply string_of_uint_digits.
  - by rewrite digits_val_of_uint, DecimalPos.Unsigned.of_to.
Qed.

Lemma digits_val_nonneg s (acc : Z) :
  PyStr.forallb_str PyStr.is_digit s = true -> 0 <= acc ->
  0 <= PyStr.digits_val acc s.
Proof.
  revert acc. induction s as [|c r IH]; intros acc; simpl; [done|].
  intros [Hc Hr]%andb_prop Hacc. apply IH; [done|].
  revert Hc. unfold PyStr.is_digit, PyStr.in_range, PyStr.digit_val. lia.
Qed.

Lemma pow10_succ (k : nat) : 10 ^ Z.of_nat (S k) = 10 * 10 ^ Z.of_nat k.
Proof. rewrite Nat2Z.inj_succ, Z.pow_succ_r by lia. done. Qed.

Lemma digits_val_shift s (acc : Z) :
  PyStr.digits_val acc s
  = acc * 10 ^ Z.of_nat (String.length s) + PyStr.digits_val 0 s.
Proof.
  revert acc. induction s as [|c r IH]; intros acc.
  - simpl. lia.
  - cbn [PyStr.digits_val String.length].
    rewrite (IH (acc * 10 + _)), (IH (0 * 10 + _)), pow10_succ. ring.
Qed.

Lemma digit_val_range (c : ascii) :
  PyStr.is_digit c = true -> 0 <= PyStr.digit_val c <= 9.
Proof. unfold PyStr.is_digit, PyStr.in_range, PyStr.digit_val. lia. Qed.

(** A run of [k] digits spells a number below [10^k]. *)
Lemma digits_val_bound s :
  PyStr.forallb_str PyStr.is_digit s = true ->
  0 <= PyStr.digits_val 0 s < 10 ^ Z.of_nat (String.length s).
Proof.
  induction s as [|c r IH]; [simpl; lia|].
  simpl PyStr.forallb_str. intros [Hc Hr]%andb_prop.
  cbn [PyStr.digits_val String.length]. rewrite digits_val_shift, pow10_succ.
  specialize (IH Hr). pose proof (digit_val_range c Hc).
  set (P := 10 ^ Z.of_nat (String.length r)) in *. nia.
Qed.

(** With a first digit that is not 0, it spells at least [10^(k-1)]. *)
Lemma digits_val_lead (c : ascii) (r : string) :
  PyStr.forallb_str PyStr.is_digit r = true -> 1 <= PyStr.digit_val c ->
  10 ^ Z.of_nat (String.length r) <= PyStr.digits_val 0 (String c r).
Proof.
  intros Hr Hc. cbn [PyStr.digits_val]. rewrite digits_val_shift.
  pose proof (digits_val_bound r Hr).
  set (P := 10 ^ Z.of_nat (String.length r)) in *. nia.
Qed.

Lemma to_uint_head p d : Pos.to_uint p <> Decimal.D0 d.
Proof.
  pose proof (DecimalPos.Unsigned.to_of (Pos.to_uint p)) as H.
  rewrite DecimalPos.Unsigned.of_to in H. simpl in H.
  assert (Hn : Decimal.nzhead (Pos.to_uint p) <> Decimal.Nil).
  { intros Hnil%DecimalFacts.unorm_0. rewrite <- H in Hnil.
    by apply (DecimalPos.Unsigned.to_uint_nonzero p). }
  rewrite (DecimalFacts.unorm_nzhead _ Hn) in H. rewrite H.
  apply DecimalFacts.nzhead_nonzero.
Qed.

(** [str] of a positive integer does not start with 0. *)
Lemma str_of_int_lead p :
  exists c r, PyStr.str_of_int (Z.pos p) = String c r /\ 1 <= PyStr.digit_val c.
Proof.
  rewrite str_of_int_pos.
  pose proof (to_uint_head p) as Hh.
  pose proof (DecimalPos.Unsigned.to_uint_nonnil p) as Hn.
  destruct (Pos.to_uint p) as [|d|d|d|d|d|d|d|d|d|d]; [done | by destruct (Hh d) |..];
    eexists _, _; (split; [reflexivity|]);
    unfold PyStr.digit_val, PyStr.ord; simpl; lia.
Qed.

(** Below the limit [str] gives a text that [int] converts. *)
Lemma str_of_int_short (n : Z) :
  0 <= n < str_limit -> short_text (PyStr.str_of_int n).
Proof.
  intros [H0 Hlt]. destruct n as [|p|p]; [vm_compute; discriminate | | lia].
  destruct (str_of_int_lead p) as (c & r & Hs & Hc).
  destruct (str_of_int_decimal (Z.pos p) H0) as [[_ Hd] Hv].
  rewrite Hs in Hd, Hv |- *. simpl in Hd. apply andb_prop in Hd as [_ Hd].
  pose proof (digits_val_lead c r Hd Hc) as Hlow. rewrite Hv in Hlow.
  unfold short_text, str_limit in *. cbn [String.length].
  destruct (decide (Z.of_nat (S (String.length r)) <= PyStr.max_str_digits))
    as [|Hgt]; [done|]. exfalso.
  assert (Hp : 10 ^ PyStr.max_str_digits <= 10 ^ Z.of_nat (String.length r))
    by (apply Z.pow_le_mono_r; [lia|]; lia).
  lia.
Qed.

Lemma digits_val_short s :
  PyStr.forallb_str PyStr.is_digit s = true -> short_text s ->
  0 <= PyStr.digits_val 0 s < str_limit.
Proof.
  intros Hd Hs. pose proof (digits_val_bound s Hd) as Hb.
  unfold short_text, str_limit in *.
  assert (Hp : 10 ^ Z.of_nat (String.length s) <= 10 ^ PyStr.max_str_digits)
    by (apply Z.pow_le_mono_r; [lia|]; lia).
  lia.
Qed.

Lemma to_int_bounds s (n : Z) :
  to_int (VStr s) = Ok (Some n) -> 0 <= n < str_limit.
Proof.
  intros ([_ Hd] & Hs & ->)%to_int_text. by apply digits_val_short.
Qed.

Lemma to_int_of_str (n : Z) :
  0 <= n < str_limit -> to_int (VStr (PyStr.str_of_int n)) = Ok (Some n).
Proof.
  intros Hn. destruct (str_of_int_decimal n (proj1 Hn)) as [Hd Hv].
  pose proof (str_of_int_short n Hn) as Hs.
  pose proof (strip_digits _ (proj2 Hd)) as Hst.
  rewrite <- Hst in Hd, Hs. rewrite (to_int_digits _ Hd Hs), Hst, Hv. done.
Qed.

Lemma to_int_str_neg p : to_int (VStr (PyStr.str_of_int (Z.neg p))) = Ok None.
Proof.
  apply to_int_rejects. unfold PyStr.str_of_int. simpl.
  intros [_ H]. revert H.
  unfold PyStr.strip. simpl. discriminate.
Qed.

End DecimalText.

(** X4. A text never coerces to a negative number, nor to one of more
    than 4300 digits; the decimal text [str(n)] of an integer [n >= 0] of
    at most 4300 digits coerces back to [n], and that of a negative
    integer to nothing. *)
Theorem to_int_str_round_trip :
  (forall (s : string) (n : Z),
      to_int (VStr s) = Ok (Some n) -> 0 <= n < str_limit) /\
  (forall n : Z,
      0 <= n < str_limit -> to_int (VStr (PyStr.str_of_int n)) = Ok (Some n)) /\
  (forall n : Z,
      - str_limit < n < 0 -> to_int (VStr (PyStr.str_of_int n)) = Ok None).
Proof.
  split; [exact to_int_bounds|]. split; [exact to_int_of_str|].
  intros [|p|p] Hn; [lia | lia | apply to_int_str_neg].
Qed.

Lemma to_int_str_round_trip_witness :
  to_int (VStr " 0042 ") = Ok (Some 42) /\ 0 <= 42 < str_limit /\
  0 <= 2024 < str_limit /\
  to_int (VStr (PyStr.str_of_int 2024)) = Ok (Some 2024) /\
  - str_limit < -5 < 0 /\ to_int (VStr (PyStr.str_of_int (-5))) = Ok None.
Proof.
  assert (H1 : to_int (VStr " 0042 ") = Ok (Some 42)) by (vm_compute; reflexivity).
  assert (H2 : 0 <= 2024 < str_limit) by (split; vm_compute; [discriminate | reflexivity]).
  assert (H3 : - str_limit < -5 < 0) by (split; vm_compute; reflexivity).
  split; [exact H1|].
  split; [exact (proj1 to_int_str_round_trip " 0042 " 42 H1)|].
  split; [exact H2|].
  split; [exact (proj1 (proj2 to_int_str_round_trip) 2024 H2)|].
  split; [exact H3|].
  exact (proj2 (proj2 to_int_str_round_trip) (-5) H3).
Defined.

(** ** [str.strip] *)

Section Strip.

Variable p : ascii -> bool.
Implicit Types (s a r : string) (c : ascii).

Lemma lstrip_head s :
  match PyStr.lstrip_by p s with
  | EmptyString => True
  | String c _ => p c = false
  end.
Proof.
  induction s as [|c r IH]; simpl; [done|].
  destruct (p c) eqn:E; [done|]. simpl. done.
Qed.

Lemma rstrip_cons c r :
  p c = false -> PyStr.rstrip_by p (String c r) = String c (PyStr.rstrip_by p r).
Proof. intros H. simpl. by rewrite H. Qed.

Lemma rstrip_idem s : PyStr.rstrip_by p (PyStr.rstrip_by p s) = PyStr.rstrip_by p s.
Proof.
  induction s as [|c r IH]; simpl; [done|].
  destruct (p c && PyStr.is_empty (PyStr.rstrip_by p r)) eqn:E; [done|].
  simpl. by rewrite IH, E.
Qed.

(** A text stripped on the right does not end with a stripped character. *)
Lemma rstrip_last s a c :
  PyStr.rstrip_by p s = a +:+ String c "" -> p c = false.
Proof.
  revert a. induction s as [|x r IH]; intros a; simpl.
  - by destruct a.
  - destruct (p x && PyStr.is_empty (PyStr.rstrip_by p r)) eqn:E.
    + by destruct a.
    + destruct a as [|y a']; simpl.
      * intros [= -> Hr]. rewrite Hr in E. simpl in E. by rewrite andb_true_r in E.
      * intros [= _ Hr]. by apply (IH a').
Qed.

Lemma lstrip_of_rstrip_lstrip s :
  PyStr.lstrip_by p (PyStr.rstrip_by p (PyStr.lstrip_by p s))
  = PyStr.rstrip_by p (PyStr.lstrip_by p s).
Proof.
  pose proof (lstrip_head s) as H.
  destruct (PyStr.lstrip_by p s) as [|c r]; [done|].
  rewrite (rstrip_cons c r H). simpl. by rewrite H.
Qed.

(** A predicate that no stripped character satisfies is met as often
    after stripping as before. *)
Lemma existsb_lstrip (q : ascii -> bool) s :
  (forall c, q c = true -> p c = false) ->
  PyStr.existsb_str q (PyStr.lstrip_by p s) = PyStr.existsb_str q s.
Proof.
  intros Hq. induction s as [|c r IH]; simpl; [done|].
  destruct (p c) eqn:E; [|done]. rewrite IH.
  destruct (q c) eqn:E'; [|done]. by rewrite (Hq c E') in E.
Qed.

Lemma existsb_rstrip (q : ascii -> bool) s :
  (forall c, q c = true -> p c = false) ->
  PyStr.existsb_str q (PyStr.rstrip_by p s) = PyStr.existsb_str q s.
Proof.
  intros Hq. induction s as [|c r IH]; simpl; [done|].
  destruct (p c && PyStr.is_empty (PyStr.rstrip_by p r)) eqn:E; simpl.
  - apply andb_prop in E as [Hc Hr]. apply is_empty_true in Hr.
    rewrite Hr in IH. simpl in IH. rewrite <- IH.
    destruct (q c) eqn:E'; [|done]. by rewrite (Hq c E') in Hc.
  - by rewrite IH.
Qed.

End Strip.

Lemma strip_idem (s : string) : PyStr.strip (PyStr.strip s) = PyStr.strip s.
Proof.
  unfold PyStr.strip. by rewrite lstrip_of_rstrip_lstrip, rstrip_idem.
Qed.

Lemma strip_last (s a : string) (c : ascii) :
  PyStr.strip s = a +:+ String c "" -> PyStr.is_space c = false.
Proof. unfold PyStr.strip. apply rstrip_last. Qed.

Lemma existsb_strip (q : ascii -> bool) (s : string) :
  (forall c, q c = true -> PyStr.is_space c = false) ->
  PyStr.existsb_str q (PyStr.strip s) = PyStr.existsb_str q s.
Proof.
  intros Hq. unfold PyStr.strip.
  by rewrite existsb_rstrip, existsb_lstrip.
Qed.

(** ** [extract_number_columns] *)

Section NumberColumns.

Implicit Types (s x r pre fam : string) (c : ascii).

Lemma append_nil_r s : s +:+ "" = s.
Proof.
  induction s as [|c r IH]; [done|].
  change (String c (r +:+ "") = String c r). by rewrite IH.
Qed.

Lemma strip_prefix_ci_spec fam s r :
  strip_prefix_ci fam s = Some r ->
  exists pre, s = pre +:+ r /\ lower pre = lower fam.
Proof.
  revert s. induction fam as [|a fam IH]; intros s; simpl.
  - intros [= <-]. by exists "".
  - destruct s as [|b s']; [done|].
    destruct (Ascii.eqb_spec (PyStr.lower_char a) (PyStr.lower_char b)) as [E|]; [|done].
    intros (pre & -> & Hl)%IH. exists (String b pre). simpl. by rewrite Hl, E.
Qed.

Lemma strip_prefix_ci_app fam pre r :
  lower pre = lower fam -> strip_prefix_ci fam (pre +:+ r) = Some r.
Proof.
  revert pre. induction fam as [|a fam IH]; intros [|b pre]; simpl; try done.
  intros [= Hb Hl]. rewrite Hb, Ascii.eqb_refl. by apply IH.
Qed.

Lemma span_all (q : ascii -> bool) s :
  PyStr.forallb_str q s = true -> PyStr.span q s = (s, "").
Proof.
  intros H. rewrite <- (append_nil_r s) at 1. by apply span_app.
Qed.

Lemma pattern_match_shape fam ws x :
  fam ∈ families -> (exists h, x = PyStr.strip h) ->
  pattern_match fam ws x = true -> number_column_name x.
Proof.
  intros Hfam [h Hx]. unfold pattern_match.
  destruct (strip_prefix_ci fam x) as [r|] eqn:E; [|done].
  apply strip_prefix_ci_spec in E as (pre & Hxr & Hpre).
  assert (Hw : exists w r1,
             r = w +:+ r1 /\ PyStr.forallb_str PyStr.is_space w = true /\
             (if ws then (PyStr.span PyStr.is_space r).2 else r) = r1).
  { destruct ws; [|by exists "", r].
    destruct (PyStr.span PyStr.is_space r) as [w r1] eqn:Es.
    apply span_spec in Es as [Hw Hr]. by exists w, r1. }
  destruct Hw as (w & r1 & Hr & Hw & ->).
  destruct (PyStr.span PyStr.is_digit r1) as [d r2] eqn:Ed.
  apply span_spec in Ed as [Hd Hr1].
  intros [Hne Hend]%andb_prop. apply negb_true_iff, is_empty_false in Hne.
  unfold at_dollar in Hend. apply orb_prop in Hend as [Hend | Hend].
  - apply is_empty_true in Hend. subst r2 r1 r. rewrite append_nil_r in Hxr.
    exists fam, pre, w, d. done.
  - apply String.eqb_eq in Hend. subst r2 r1 r. exfalso.
    assert (Hsp : PyStr.is_space "010" = false); [|done].
    apply (strip_last h (pre +:+ w +:+ d)). rewrite <- Hx, Hxr.
    by rewrite !append_assoc.
Qed.

Lemma shape_pattern_match x :
  number_column_name x ->
  existsb (fun p => pattern_match p.1 p.2 x) patterns = true.
Proof.
  intros (fam & pre & w & d & Hfam & -> & Hpre & Hw & [Hne Hd]).
  assert (Hm : pattern_match fam true (pre +:+ w +:+ d) = true).
  { unfold pattern_match. rewrite (strip_prefix_ci_app _ _ _ Hpre).
    rewrite (span_app PyStr.is_space w d Hw).
    2:{ destruct d as [|c d']; [done|]. simpl in Hd.
        apply andb_prop in Hd as [Hc _]. by apply digit_not_space. }
    simpl. rewrite (span_all _ _ Hd).
    by rewrite (proj2 (is_empty_false d) Hne). }
  unfold families in Hfam. unfold patterns. simpl.
  repeat (apply elem_of_cons in Hfam as [-> | Hfam]; [rewrite Hm; simpl; by rewrite ?orb_true_r|]).
  by apply elem_of_nil in Hfam.
Qed.

Lemma extract_number_columns_elem (headers : list (option string)) x :
  x ∈ extract_number_columns headers <->
  exists h, Some h ∈ headers /\ x = PyStr.strip h /\ number_column_name x.
Proof.
  induction headers as [|h0 rest IH].
  - simpl. split; [by intros ?%elem_of_nil | by intros (h & ?%elem_of_nil & _)].
  - assert (Hskip :
      ~ (exists h, h0 = Some h /\ number_column_name (PyStr.strip h)) ->
      (x ∈ extract_number_columns rest <->
       exists h, Some h ∈ h0 :: rest /\ x = PyStr.strip h /\ number_column_name x)).
    { intros Hno. rewrite IH. split.
      - intros (h & Hin & Hx & Hs). exists h. split; [by right | done].
      - intros (h & [Heq | Hin]%elem_of_cons & Hx & Hs); [|by exists h].
        destruct Hno. exists h. by subst. }
    cbn [extract_number_columns].
    destruct h0 as [h1|]; [|apply Hskip; by intros (h & [=] & _)].
    destruct (PyStr.is_empty h1) eqn:He.
    { apply Hskip. intros (h & [= <-] & Hs). apply is_empty_true in He as ->.
      destruct Hs as (fam & pre & w & d & _ & Hx & _ & _ & [Hne _]).
      destruct pre, w, d; done. }
    cbv zeta.
    destruct (existsb (fun p => pattern_match p.1 p.2 (PyStr.strip h1)) patterns) eqn:Em.
    + assert (Hs : number_column_name (PyStr.strip h1)).
      { apply existsb_exists in Em as ([fam ws] & Hin & Hm). simpl in Hm.
        apply (pattern_match_shape fam ws); [|by eexists|done].
        unfold patterns in Hin. simpl in Hin. unfold families.
        repeat (destruct Hin as [[= <- <-] | Hin];
                [apply list_elem_of_In; simpl; tauto|]).
        done. }
      rewrite elem_of_cons, IH. split.
      * intros [-> | (h & Hin & Hx & Hsh)].
        -- exists h1. split; [by left | done].
        -- exists h. split; [by right | done].
      * intros (h & [[= <-] | Hin]%elem_of_cons & Hx & Hsh); [by left|].
        right. by exists h.
    + apply Hskip. intros (h & [= <-] & Hs).
      by rewrite (shape_pattern_match _ Hs) in Em.
Qed.

Lemma extract_number_columns_app (l1 l2 : list (option string)) :
  extract_number_columns (l1 ++ l2)
  = extract_number_columns l1 ++ extract_number_columns l2.
Proof.
  induction l1 as [|h l1 IH]; [done|]. cbn [app extract_number_columns].
  destruct h as [h|]; [|done]. destruct (PyStr.is_empty h); [done|].
  cbv zeta. destruct (existsb _ patterns); [|done]. by rewrite IH.
Qed.

Lemma extract_number_columns_one (h : string) :
  extract_number_columns [Some h] = [] \/
  extract_number_columns [Some h] = [PyStr.strip h].
Proof.
  cbn [extract_number_columns]. destruct (PyStr.is_empty h); [by left|].
  cbv zeta. destruct (existsb _ patterns); [by right | by left].
Qed.

Lemma extract_number_columns_yes (h : string) :
  number_column_name (PyStr.strip h) ->
  extract_number_columns [Some h] = [PyStr.strip h].
Proof.
  intros Hs. destruct (extract_number_columns_one h) as [E | E]; [|done].
  assert (Hin : PyStr.strip h ∈ extract_number_columns [Some h]).
  { apply extract_number_columns_elem. exists h. split; [by left | done]. }
  rewrite E in Hin. by apply elem_of_nil in Hin.
Qed.

Lemma extract_number_columns_no (h : string) :
  ~ number_column_name (PyStr.strip h) ->
  extract_number_columns [Some h] = [].
Proof.
  intros Hs. destruct (extract_number_columns_one h) as [E | E]; [done|].
  destruct Hs.
  assert (Hin : PyStr.strip h ∈ extract_number_columns [Some h])
    by (rewrite E; by left).
  by apply extract_number_columns_elem in Hin as (h' & _ & _ & Hsh).
Qed.

End NumberColumns.

(** X5. [extract_number_columns] goes through the headers in order and
    keeps, trimmed, each header of ASCII text whose trimmed form is the
    name of a number column, as often as it occurs: Bola, Trevo or Coluna
    in any letter case, possibly spaces, then digits and nothing after
    them. An absent header and any other ASCII header give nothing. *)
Theorem extract_number_columns_spec :
  (forall l1 l2 : list (option string),
      extract_number_columns (l1 ++ l2)
      = extract_number_columns l1 ++ extract_number_columns l2) /\
  extract_number_columns [None] = [] /\
  (forall h : string,
      is_ascii h = true -> number_column_name (PyStr.strip h) ->
      extract_number_columns [Some h] = [PyStr.strip h]) /\
  (forall h : string,
      is_ascii h = true -> ~ number_column_name (PyStr.strip h) ->
      extract_number_columns [Some h] = []) /\
  (forall (headers : list (option string)) (x : string),
      Forall ascii_cell headers ->
      (x ∈ extract_number_columns headers <->
       exists h, Some h ∈ headers /\ x = PyStr.strip h /\ number_column_name x)).
Proof.
  split; [exact extract_number_columns_app|]. split; [done|].
  split; [intros h _; apply extract_number_columns_yes|].
  split; [intros h _; apply extract_number_columns_no|].
  intros headers x _. apply extract_number_columns_elem.
Qed.

Lemma extract_number_columns_spec_witness :
  let headers := [Some "Concurso"; Some " bola  07 "; None; Some "Bola 7b"] in
  is_ascii " bola  07 " = true /\ number_column_name (PyStr.strip " bola  07 ") /\
  extract_number_columns [Some " bola  07 "] = [PyStr.strip " bola  07 "] /\
  is_ascii "Bola 7b" = true /\ ~ number_column_name (PyStr.strip "Bola 7b") /\
  extract_number_columns [Some "Bola 7b"] = [] /\
  Forall ascii_cell headers /\
  ("bola  07" ∈ extract_number_columns headers <->
   exists h, Some h ∈ headers /\ "bola  07" = PyStr.strip h /\
             number_column_name "bola  07").
Proof.
  intros headers.
  assert (H1 : is_ascii " bola  07 " = true) by reflexivity.
  assert (H2 : number_column_name (PyStr.strip " bola  07 ")).
  { exists "Bola", "bola", "  ", "07". split; [by left|].
    split; [reflexivity|]. split; [reflexivity|]. split; [reflexivity|].
    split; [discriminate | reflexivity]. }
  assert (H3 : is_ascii "Bola 7b" = true) by reflexivity.
  assert (H4 : ~ number_column_name (PyStr.strip "Bola 7b")).
  { intros Hs%shape_pattern_match. vm_compute in Hs. discriminate Hs. }
  assert (H5 : Forall ascii_cell headers) by (repeat constructor).
  split; [exact H1|]. split; [exact H2|].
  split; [exact (proj1 (proj2 (proj2 extract_number_columns_spec)) _ H1 H2)|].
  split; [exact H3|]. split; [exact H4|].
  split; [exact (proj1 (proj2 (proj2 (proj2 extract_number_columns_spec))) _ H3 H4)|].
  split; [exact H5|].
  exact (proj2 (proj2 (proj2 (proj2 extract_number_columns_spec))) headers _ H5).
Defined.

(** ** Number columns of cleaned headers *)

Section CleanedColumns.

Implicit Types (hs : list (option string)) (s x y : string) (c : ascii).

Let is_us c := Ascii.eqb c "_".

(** What [extract_number_columns] does with one header. *)
Let pick (h : option string) : option string :=
  match extract_number_columns [h] with
  | [] => None
  | x :: _ => Some x
  end.

Lemma extract_omap hs : extract_number_columns hs = omap pick hs.
Proof.
  induction hs as [|h rest IH]; [done|].
  cbn [omap list_omap]. rewrite <- IH. unfold pick.
  cbn [extract_number_columns].
  destruct h as [h1|]; [|done]. destruct (PyStr.is_empty h1); [done|].
  cbv zeta. by destruct (existsb _ patterns).
Qed.

Lemma pick_spec (h : option string) x :
  pick h = Some x ->
  exists h1, h = Some h1 /\ x = PyStr.strip h1 /\ number_column_name x.
Proof.
  unfold pick. destruct (extract_number_columns [h]) as [|x' l] eqn:E; [done|].
  intros [= ->].
  assert (Hin : x ∈ extract_number_columns [h]) by (rewrite E; by left).
  apply extract_number_columns_elem in Hin as (h1 & Hh & Hx & Hs).
  apply list_elem_of_singleton in Hh. by exists h1.
Qed.

Lemma existsb_append (q : ascii -> bool) s1 s2 :
  PyStr.existsb_str q (s1 +:+ s2) = PyStr.existsb_str q s1 || PyStr.existsb_str q s2.
Proof.
  induction s1 as [|c r IH]; [done|].
  change (q c || PyStr.existsb_str q (r +:+ s2)
          = q c || PyStr.existsb_str q r || PyStr.existsb_str q s2).
  rewrite IH. by destruct (q c).
Qed.

Lemma existsb_none (q p : ascii -> bool) s :
  (forall c, p c = true -> q c = false) ->
  PyStr.forallb_str p s = true -> PyStr.existsb_str q s = false.
Proof.
  intros Hpq. induction s as [|c r IH]; simpl; [done|].
  intros [Hc Hr]%andb_prop. by rewrite (Hpq c Hc), IH.
Qed.

Lemma existsb_lower s : PyStr.existsb_str is_us (lower s) = PyStr.existsb_str is_us s.
Proof.
  induction s as [|c r IH]; simpl; [done|]. rewrite IH. f_equal.
  unfold PyStr.lower_char. destruct (PyStr.is_upper c) eqn:E; [|done].
  unfold is_us. destruct (Ascii.eqb_spec c "_") as [-> | _]; [done|].
  apply Ascii.eqb_neq. intros H.
  assert (Hn : N_of_ascii (ascii_of_N (N_of_ascii c + 32)) = N_of_ascii "_")
    by (by rewrite H).
  revert E. unfold PyStr.is_upper, PyStr.in_range, PyStr.ord. intros E.
  rewrite N_ascii_embedding in Hn by lia. simpl in Hn. lia.
Qed.

(** The name of a number column has no underscore. *)
Lemma number_column_no_underscore x :
  number_column_name x -> PyStr.existsb_str is_us x = false.
Proof.
  intros (fam & pre & w & d & Hfam & -> & Hpre & Hw & [_ Hd]).
  rewrite !existsb_append.
  rewrite <- (existsb_lower pre), Hpre, existsb_lower.
  rewrite (existsb_none is_us PyStr.is_space w), (existsb_none is_us PyStr.is_digit d);
    try done.
  - rewrite !orb_false_r. unfold families in Hfam.
    repeat (apply elem_of_cons in Hfam as [-> | Hfam]; [done|]).
    by apply elem_of_nil in Hfam.
  - intros c Hc. unfold is_us. apply Ascii.eqb_neq. by intros ->.
  - intros c Hc. unfold is_us. apply Ascii.eqb_neq. by intros ->.
Qed.

Lemma occurrences_take_S hs i (h : option string) s :
  hs !! i = Some h -> header_name h = Some s ->
  occurrences s (take (S i) hs) = S (occurrences s (take i hs)).
Proof.
  intros Hi Hn. rewrite (take_S_r _ _ _ Hi), occurrences_snoc.
  rewrite decide_True by done. lia.
Qed.

Lemma occurrences_take_mono hs i j s :
  (i <= j)%nat -> (occurrences s (take i hs) <= occurrences s (take j hs))%nat.
Proof.
  intros Hij. replace j with (i + (j - i))%nat by lia.
  rewrite <- take_take_drop. unfold occurrences.
  rewrite filter_app, length_app. lia.
Qed.

(** A cleaned header that names a number column is the first header of
    that name. *)
Lemma cleaned_number_column hs i (h : option string) x :
  clean_headers hs !! i = Some h -> pick h = Some x ->
  exists h0, hs !! i = Some h0 /\ header_name h0 = Some x /\
             occurrences x (take i hs) = 0%nat.
Proof.
  rewrite clean_headers_lookup.
  destruct (hs !! i) as [h0|] eqn:Hi; simpl; [|done].
  intros [= <-] (y & Hy & -> & Hs)%pick_spec.
  apply number_column_no_underscore in Hs.
  unfold cleaned_entry in Hy.
  destruct (header_name h0) as [s|] eqn:Hn; [|done].
  pose proof (occurrences_take_S hs i h0 s Hi Hn) as Hocc.
  assert (Hss : PyStr.strip s = s).
  { destruct (header_name_Some _ _ Hn) as (raw & _ & <- & _). apply strip_idem. }
  cbv zeta in Hy. rewrite Hocc in Hy.
  destruct (occurrences s (take i hs)) as [|n] eqn:E.
  - simpl in Hy. injection Hy as <-. rewrite Hss. by exists h0.
  - exfalso. simpl in Hy. injection Hy as <-.
    rewrite existsb_strip in Hs.
    + rewrite !existsb_append in Hs. simpl in Hs. by rewrite orb_true_r in Hs.
    + intros c Hc. apply Ascii.eqb_eq in Hc as ->. done.
Qed.

Lemma NoDup_omap_positions {A B} (g : A -> option B) (l : list A) :
  (forall (i j : nat) (a b : A) (v : B),
      l !! i = Some a -> l !! j = Some b ->
      g a = Some v -> g b = Some v -> i = j) ->
  NoDup (omap g l).
Proof.
  induction l as [|a l IH]; intros H; [constructor|].
  cbn [omap list_omap].
  assert (Hl : NoDup (omap g l)).
  { apply IH. intros i j a' b' v Hi Hj Ha Hb.
    by injection (H (S i) (S j) a' b' v Hi Hj Ha Hb). }
  destruct (g a) as [v|] eqn:Ea; [|done].
  apply NoDup_cons. split; [|done].
  intros (b & Hb & Hg)%list_elem_of_omap.
  apply list_elem_of_lookup in Hb as [j Hj].
  by specialize (H 0%nat (S j) a b v eq_refl Hj Ea Hg).
Qed.

Lemma cleaned_columns_NoDup hs :
  NoDup (extract_number_columns (clean_headers hs)).
Proof.
  rewrite extract_omap. apply NoDup_omap_positions.
  intros i j a b x Hi Hj Ha Hb.
  destruct (cleaned_number_column hs i a x Hi Ha) as (hi & Hhi & Hni & Hoi).
  destruct (cleaned_number_column hs j b x Hj Hb) as (hj & Hhj & Hnj & Hoj).
  pose proof (occurrences_take_S hs i hi x Hhi Hni) as Si.
  pose proof (occurrences_take_S hs j hj x Hhj Hnj) as Sj.
  destruct (decide (i = j)) as [|Hne]; [done|]. exfalso.
  destruct (decide (i < j)%nat).
  - pose proof (occurrences_take_mono hs (S i) j x ltac:(lia)). lia.
  - pose proof (occurrences_take_mono hs (S j) i x ltac:(lia)). lia.
Qed.

End CleanedColumns.

(** X6. The number columns found among cleaned headers are pairwise
    distinct: a header renamed by [clean_headers] carries an underscore
    and is no longer the name of a number column, so each name is listed
    once, for the first header that bears it. *)
Theorem number_columns_distinct (headers : list (option string)) :
  NoDup (extract_number_columns (clean_headers headers)).
Proof. apply cleaned_columns_NoDup. Qed.

(** ** [clean_headers] on distinct names *)

Section DistinctHeaders.

Implicit Types (hs : list (option string)) (s : string).

Lemma occurrences_cons s (h : option string) hs :
  occurrences s (h :: hs)
  = ((if decide (header_name h = Some s) then 1 else 0) + occurrences s hs)%nat.
Proof. unfold occurrences. rewrite filter_cons. by case_decide. Qed.

Lemma occurrences_pos_elem s hs :
  (0 < occurrences s hs)%nat -> s ∈ omap header_name hs.
Proof.
  induction hs as [|h hs IH]; [by unfold occurrences; simpl; lia|].
  rewrite occurrences_cons. cbn [omap list_omap].
  case_decide as Hn.
  - rewrite Hn. intros _. by left.
  - intros H. destruct (header_name h); [right|]; apply IH; lia.
Qed.

Lemma occurrences_NoDup s hs :
  NoDup (omap header_name hs) -> (occurrences s hs <= 1)%nat.
Proof.
  induction hs as [|h hs IH]; [by unfold occurrences; simpl; lia|].
  rewrite occurrences_cons. cbn [omap list_omap].
  destruct (header_name h) as [s'|] eqn:Hn.
  - intros [Hnot Hnd]%NoDup_cons. case_decide as Hs; [|by apply IH].
    injection Hs as ->.
    destruct (occurrences s hs) as [|n] eqn:E; [lia|].
    destruct Hnot. apply occurrences_pos_elem. lia.
  - intros Hnd. rewrite decide_False by done. by apply IH.
Qed.

Lemma clean_headers_distinct hs :
  NoDup (omap header_name hs) -> clean_headers hs = header_name <$> hs.
Proof.
  intros Hnd. apply list_eq. intros i.
  rewrite clean_headers_lookup, list_lookup_fmap.
  destruct (hs !! i) as [h|] eqn:Hi; simpl; [|done]. f_equal.
  unfold cleaned_entry. destruct (header_name h) as [s|] eqn:Hn; [|done].
  cbv zeta.
  pose proof (occurrences_take_S hs i h s Hi Hn) as HS.
  pose proof (occurrences_take_mono hs (S i) (length hs) s) as Hm.
  rewrite (take_ge hs (length hs)) in Hm by lia.
  pose proof (occurrences_NoDup s hs Hnd).
  apply lookup_lt_Some in Hi.
  replace (occurrences s (take (S i) hs)) with 1%nat by lia. done.
Qed.

End DistinctHeaders.

(** X7. When the headers are of ASCII text and their trimmed names are
    pairwise distinct, [clean_headers] renames nothing: each header comes
    out as its trimmed name, and as absent when it is blank. *)
Theorem clean_headers_distinct_names (headers : list (option string)) :
  Forall ascii_cell headers ->
  NoDup (omap header_name headers) ->
  clean_headers headers = header_name <$> headers.
Proof. intros _. apply clean_headers_distinct. Qed.

Lemma clean_headers_distinct_names_witness :
  let headers := [Some " Concurso "; None; Some "Bola1"; Some "  "; Some "Bola2"] in
  Forall ascii_cell headers /\ NoDup (omap header_name headers) /\
  clean_headers headers = header_name <$> headers.
Proof.
  intros headers.
  assert (Ha : Forall ascii_cell headers) by (repeat constructor).
  assert (H : NoDup (omap header_name headers)).
  { apply (bool_decide_unpack (NoDup (omap header_name headers))).
    vm_compute. exact I. }
  split; [exact Ha|]. split; [exact H|].
  exact (clean_headers_distinct_names headers Ha H).
Defined.

(** ** [_col_to_index]: labels and columns *)

Section LabelOrder.

Implicit Types (s : string) (c : ascii).

Lemma ord_inj (x y : ascii) : PyStr.ord x = PyStr.ord y -> x = y.
Proof.
  unfold PyStr.ord. intros H%N2Z.inj.
  by rewrite <- (ascii_N_embedding x), <- (ascii_N_embedding y), H.
Qed.

Lemma lex_trichotomy s1 s2 :
  String.length s1 = String.length s2 ->
  s1 = s2 \/ lex_lt s1 s2 \/ lex_lt s2 s1.
Proof.
  revert s2. induction s1 as [|x r IH]; intros [|y r2]; simpl; try done; [by left|].
  intros [= Hlen].
  destruct (Z.lt_trichotomy (PyStr.ord x) (PyStr.ord y)) as [H | [H | H]]; [by auto| |by auto].
  apply ord_inj in H as ->.
  destruct (IH r2 Hlen) as [-> | [H | H]]; auto.
Qed.

Lemma label_trichotomy s1 s2 : s1 = s2 \/ label_lt s1 s2 \/ label_lt s2 s1.
Proof.
  unfold label_lt.
  destruct (Nat.lt_trichotomy (String.length s1) (String.length s2)) as [H | [H | H]];
    [by auto| |by auto].
  destruct (lex_trichotomy s1 s2 H) as [-> | [H' | H']]; auto.
Qed.

Lemma col_to_index_inj s1 s2 :
  label s1 -> label s2 -> _col_to_index s1 = _col_to_index s2 -> s1 = s2.
Proof.
  intros L1 L2 Heq.
  destruct (label_trichotomy s1 s2) as [-> | [H | H]]; [done|..].
  - pose proof (col_to_index_increasing s1 s2 L1 L2 H). lia.
  - pose proof (col_to_index_increasing s2 s1 L2 L1 H). lia.
Qed.

Lemma upper_char_idem c : PyStr.upper_char (PyStr.upper_char c) = PyStr.upper_char c.
Proof.
  destruct (PyStr.is_lower c) eqn:E.
  - assert (H : PyStr.upper_char c = ascii_of_N (N_of_ascii c - 32))
      by (unfold PyStr.upper_char; by rewrite E).
    rewrite H. apply upper_char_upper.
    revert E. unfold PyStr.is_lower, PyStr.is_upper, PyStr.in_range, PyStr.ord.
    intros [E1 E2]%andb_prop. apply Z.leb_le in E1, E2.
    rewrite N_ascii_embedding by lia. rewrite N2Z.inj_sub by lia.
    apply andb_true_intro. split; apply Z.leb_le; lia.
  - assert (H : PyStr.upper_char c = c)
      by (unfold PyStr.upper_char; by rewrite E).
    by rewrite !H.
Qed.

Lemma upper_idem s : PyStr.upper (PyStr.upper s) = PyStr.upper s.
Proof. induction s as [|c r IH]; simpl; [done|]. by rewrite upper_char_idem, IH. Qed.

Lemma col_to_index_range s :
  label s -> s <> "" ->
  ones26 (String.length s) - 1 <= _col_to_index s
    <= 26 * ones26 (String.length s) - 1.
Proof.
  intros L _. rewrite col_to_index_loop, (upper_label s L).
  pose proof (col_loop_bounds s 0 L). lia.
Qed.

End LabelOrder.

(** X8. Two different labels never decode to the same column, and small
    letters decode as the capital ones do. *)
Theorem col_to_index_injective :
  (forall s1 s2 : string,
      label s1 -> label s2 -> _col_to_index s1 = _col_to_index s2 -> s1 = s2) /\
  (forall s : string, _col_to_index (PyStr.upper s) = _col_to_index s).
Proof.
  split; [exact col_to_index_inj|].
  intros s. unfold _col_to_index. by rewrite upper_idem.
Qed.

Lemma col_to_index_injective_witness :
  label "AB" /\ label "AB" /\ _col_to_index "AB" = _col_to_index "AB" /\
  "AB" = "AB" /\ _col_to_index (PyStr.upper "ab") = _col_to_index "ab".
Proof.
  assert (L : label "AB") by reflexivity.
  assert (E : _col_to_index "AB" = _col_to_index "AB") by reflexivity.
  split; [exact L|]. split; [exact L|]. split; [exact E|].
  split; [exact (proj1 col_to_index_injective "AB" "AB" L L E)|].
  exact (proj2 col_to_index_injective "ab").
Defined.

(** X9. The labels of one length fill a range of their own: one letter
    gives a column from 0 to 25, two letters from 26 to 701, three from
    702 to 18277, and [n] letters from [1 + 26 + ... + 26^(n-1) - 1] to
    [26 + ... + 26^n - 1]. *)
Theorem col_to_index_by_length (s : string) :
  label s -> s <> "" ->
  ones26 (String.length s) - 1 <= _col_to_index s
    <= 26 * ones26 (String.length s) - 1 /\
  (String.length s = 1%nat -> 0 <= _col_to_index s <= 25) /\
  (String.length s = 2%nat -> 26 <= _col_to_index s <= 701) /\
  (String.length s = 3%nat -> 702 <= _col_to_index s <= 18277).
Proof.
  intros L Hne. pose proof (col_to_index_range s L Hne) as H.
  split; [done|].
  split; [|split]; intros Hl; rewrite Hl in H; simpl in H; lia.
Qed.

Lemma col_to_index_by_length_witness :
  label "XFD" /\ "XFD" <> "" /\ _col_to_index "XFD" = 16383 /\
  702 <= _col_to_index "XFD" <= 18277.
Proof.
  assert (L : label "XFD") by reflexivity.
  assert (Hne : "XFD" <> "") by discriminate.
  split; [exact L|]. split; [exact Hne|]. split; [reflexivity|].
  exact (proj2 (proj2 (proj2 (col_to_index_by_length "XFD" L Hne))) eq_refl).
Defined.

(** ** The archive: the path of the sheet *)

Section ArchiveOutcomes.

Variable bytes : Type.
Variable fromstring : bytes -> option element.
Implicit Types (zf : ZipFile bytes) (e : exn).

Lemma first_sheet_path_ok zf path :
  _first_sheet_path bytes fromstring zf = Ok path ->
  PyStr.startswith "xl/" path = true.
Proof.
  unfold _first_sheet_path.
  repeat match goal with
  | |- context [bind ?m _] => destruct m; cbn [bind]; [|done]
  end.
  destruct (ET.find_desc_child "sheets" "sheet" _) as [sheet|]; [|done].
  cbv zeta. destruct (PyStr.is_empty _); [done|].
  destruct (PyStr.startswith "xl/" _) eqn:E; intros [= <-]; done.
Qed.

End ArchiveOutcomes.

(** X11. The path [_first_sheet_path] returns always starts with "xl/". *)
Theorem first_sheet_path_prefix
    (bytes : Type) (fromstring : bytes -> option element)
    (zf : ZipFile bytes) (path : string) :
  _first_sheet_path bytes fromstring zf = Ok path ->
  PyStr.startswith "xl/" path = true.
Proof. apply first_sheet_path_ok. Qed.

Lemma first_sheet_path_prefix_witness :
  _first_sheet_path element Some archive_bad_index = Ok "xl/worksheets/sheet1.xml" /\
  PyStr.startswith "xl/" "xl/worksheets/sheet1.xml" = true.
Proof.
  assert (H : _first_sheet_path element Some archive_bad_index
              = Ok "xl/worksheets/sheet1.xml") by (vm_compute; reflexivity).
  split; [exact H|].
  exact (first_sheet_path_prefix element Some archive_bad_index _ H).
Defined.

(** X13. Whatever the archive, [read_first_sheet_rows] never raises
    [IndexError]: every cell of a row is stored inside the row built for
    it. *)
Theorem read_first_sheet_rows_failures
    (bytes : Type) (fromstring : bytes -> option element)
    (zf : ZipFile bytes) (e : exn) :
  read_first_sheet_rows bytes fromstring zf = Raise e -> e <> IndexError.
Proof. apply read_first_sheet_rows_not_index. Qed.

Lemma read_first_sheet_rows_failures_witness :
  read_first_sheet_rows element Some archive_bad_index = Raise ValueError /\
  ValueError <> IndexError.
Proof.
  assert (H : read_first_sheet_rows element Some archive_bad_index = Raise ValueError)
    by (vm_compute; reflexivity).
  split; [exact H|].
  exact (read_first_sheet_rows_failures element Some archive_bad_index ValueError H).
Defined.

(** ** When the reader of the sheet fails *)

Section SheetOutcome.

Variable shared : list string.
Implicit Types (c el : element) (e : exn).

Lemma cell_value_raise_iff c :
  cell_value shared c = Raise ValueError <-> bad_index_cell c.
Proof.
  unfold cell_value, bad_index_cell. split.
  - case_bool_decide as Ht.
    + destruct (ET.find_child "v" c) as [v|]; [|done].
      destruct (ET.text v) as [raw|] eqn:Hraw; [|done].
      destruct (PyStr.int_of_str raw) eqn:Hint; [done|].
      intros _. split; [done|]. by exists v, raw.
    + repeat case_match; done.
  - intros [Ht (v & raw & -> & Hraw & Hint)].
    rewrite bool_decide_eq_true_2 by done. by rewrite Hraw, Hint.
Qed.

Lemma for_each_raises {S X} (body : S -> X -> result S) (xs : list X) (x : X) :
  x ∈ xs -> (forall st, exists e, body st x = Raise e) ->
  forall st, exists e, for_each body st xs = Raise e.
Proof.
  intros Hx Hbad. induction xs as [|y xs IH]; [by apply elem_of_nil in Hx|].
  intros st. cbn [for_each].
  destruct (body st y) as [st'|e] eqn:E; cbn [bind]; [|by eauto].
  apply elem_of_cons in Hx as [<- | Hx].
  - destruct (Hbad st) as [e He]. congruence.
  - by apply IH.
Qed.

Lemma scan_row_bad gmax (cs : list element) c :
  c ∈ cs -> bad_index_cell c -> scan_row shared gmax cs = Raise ValueError.
Proof.
  intros Hc Hbad%cell_value_raise_iff.
  destruct (for_each_raises (cell_step shared) cs c Hc) with
    (st := {| cells := ∅; cur_col := 0; global_max_col := gmax |}) as [e He].
  - intros st. exists ValueError. unfold cell_step. by rewrite Hbad.
  - unfold scan_row. rewrite He. f_equal. by eapply scan_row_raise.
Qed.

Lemma row_step_value_error st el :
  row_step shared st el = Raise ValueError ->
  exists c, c ∈ row_cells el /\ bad_index_cell c.
Proof.
  destruct st as [rows gmax]. unfold row_step. fold (row_cells el).
  destruct (scan_row shared gmax (row_cells el)) as [cst|e] eqn:E; cbn [bind].
  - case_match; [done|].
    destruct (materialize _ _) as [row|e] eqn:Em; cbn [bind]; [done|].
    apply materialize_raise in Em as ->. done.
  - intros [= ->]. apply for_each_raise in E as (st & c & Hc & Hstep).
    exists c. split; [done|]. apply cell_value_raise_iff.
    unfold cell_step in Hstep.
    destruct (cell_value shared c) as [v|e] eqn:Ev; cbn [bind] in Hstep; [done|].
    by injection Hstep as ->.
Qed.

Lemma sheet_rows_value_error_iff root :
  sheet_rows shared root = Raise ValueError <->
  exists el c, el ∈ row_elements root /\ c ∈ row_cells el /\ bad_index_cell c.
Proof.
  unfold sheet_rows. split.
  - destruct (for_each _ _ _) as [st|e] eqn:E; cbn [bind]; [done|].
    intros [= ->]. apply for_each_raise in E as (st & el & Hel & Hstep).
    destruct (row_step_value_error st el Hstep) as (c & Hc & Hbad).
    by exists el, c.
  - intros (el & c & Hel & Hc & Hbad).
    destruct (for_each_raises (row_step shared) (row_elements root) el Hel)
      with (st := ([] : list (list (option string)), 0)) as [e He].
    + intros [rows gmax]. exists ValueError. unfold row_step.
      fold (row_cells el). by rewrite (scan_row_bad gmax _ c Hc Hbad).
    + rewrite He. cbn [bind]. f_equal.
      apply (sheet_rows_raise shared root). unfold sheet_rows. by rewrite He.
Qed.

End SheetOutcome.

Lemma sheet_bad_index_ascii : ascii_sheet sheet_bad_index.
Proof.
  intros el c Hel Hc.
  assert (Hels : row_elements sheet_bad_index
                 = [Element "row" ∅ None [c_elem (Some "A1") (Some "s") "abc"]])
    by (vm_compute; reflexivity).
  rewrite Hels in Hel. apply list_elem_of_singleton in Hel as ->.
  assert (Hcs : row_cells (Element "row" ∅ None [c_elem (Some "A1") (Some "s") "abc"])
                = [c_elem (Some "A1") (Some "s") "abc"])
    by (vm_compute; reflexivity).
  rewrite Hcs in Hc. apply list_elem_of_singleton in Hc as ->.
  split; [vm_compute; reflexivity|].
  intros v Hv. vm_compute in Hv. injection Hv as <-. vm_compute. reflexivity.
Qed.

(** X14. On a sheet whose cells hold ASCII text and that has no column
    past the three-letter ones, the reader of the sheet either returns a
    matrix or raises [ValueError], and it raises exactly when some cell of
    some row is tagged as a shared string and has a value that [int]
    rejects. *)
Theorem sheet_rows_outcome (shared : list string) (root : element) :
  ascii_sheet root -> max_column (row_elements root) <= last_column ->
  ((exists rows, sheet_rows shared root = Ok rows) \/
   sheet_rows shared root = Raise ValueError) /\
  (sheet_rows shared root = Raise ValueError <->
   exists el c, el ∈ row_elements root /\ c ∈ row_cells el /\ bad_index_cell c).
Proof.
  intros _ _. split; [|apply sheet_rows_value_error_iff].
  destruct (sheet_rows shared root) as [rows|e] eqn:E; [by eauto|].
  right. f_equal. by eapply sheet_rows_raise.
Qed.

Lemma sheet_rows_outcome_witness :
  ascii_sheet sheet_bad_index /\
  max_column (row_elements sheet_bad_index) <= last_column /\
  ((exists rows, sheet_rows ["only"] sheet_bad_index = Ok rows) \/
   sheet_rows ["only"] sheet_bad_index = Raise ValueError) /\
  (sheet_rows ["only"] sheet_bad_index = Raise ValueError <->
   exists el c, el ∈ row_elements sheet_bad_index /\ c ∈ row_cells el /\
                bad_index_cell c).
Proof.
  assert (H1 : ascii_sheet sheet_bad_index) by exact sheet_bad_index_ascii.
  assert (H2 : max_column (row_elements sheet_bad_index) <= last_column)
    by (vm_compute; discriminate).
  split; [exact H1|]. split; [exact H2|].
  exact (sheet_rows_outcome ["only"] sheet_bad_index H1 H2).
Defined.

(** ** The content of the matrix *)

Section Content.

Variable shared : list string.
Implicit Types (el c : element) (row : list (option string)) (gmax : Z).

(** [row] is what the loop builds from [el], whatever the running
    maximum was. *)
Let row_from el row : Prop :=
  exists gmax cst,
    0 <= gmax /\ scan_row shared gmax (row_cells el) = Ok cst /\
    materialize (global_max_col cst) (cells cst) = Ok row.

Lemma scan_cells_content (st st' : cell_state) (cs : list element) :
  for_each (cell_step shared) st cs = Ok st' ->
  forall k, cells st' !! k = placed shared (cur_col st) cs k (cells st !! k).
Proof.
  revert st. induction cs as [|c cs IH]; intros st; cbn [for_each placed].
  - by intros [= <-].
  - destruct (cell_step shared st c) as [st1|] eqn:E; cbn [bind]; [|done].
    intros H k. destruct (cell_step_ok _ _ _ _ E) as (value & Hv & Hcells & Hcur & _).
    rewrite (IH st1 H k), Hcur, Hcells. cbv zeta. f_equal.
    unfold value_of. rewrite Hv.
    case_decide as Hk.
    + by rewrite Hk, lookup_insert_eq.
    + by rewrite lookup_insert_ne.
Qed.

Lemma row_from_content el row (k : nat) :
  row_from el row -> (k < length row)%nat ->
  row !! k = Some (row_entry shared el k).
Proof.
  intros (gmax & cst & Hg & Hscan & Hmat) Hk.
  destruct (scan_row_ok _ _ _ _ Hg Hscan) as (_ & Hge & Hkeys & _).
  destruct (materialize_spec _ _ Hkeys) as (row' & Hmat' & Hrow).
  rewrite Hmat in Hmat'. injection Hmat' as <-.
  pose proof (materialize_length _ _ _ Hmat) as Hlen.
  specialize (Hrow (Z.of_nat k) ltac:(lia)). rewrite Nat2Z.id in Hrow.
  rewrite Hrow. unfold row_entry. f_equal. f_equal.
  unfold scan_row in Hscan.
  by rewrite (scan_cells_content _ _ _ Hscan).
Qed.

Lemma row_from_stored el row (k : nat) :
  row_from el row ->
  is_Some (placed shared 0 (row_cells el) (Z.of_nat k) None) ->
  (k < length row)%nat.
Proof.
  intros (gmax & cst & Hg & Hscan & Hmat) Hk.
  destruct (scan_row_ok _ _ _ _ Hg Hscan) as (_ & Hge & Hkeys & _).
  pose proof (materialize_length _ _ _ Hmat) as Hlen.
  unfold scan_row in Hscan.
  rewrite <- (scan_cells_content _ _ _ Hscan) in Hk.
  specialize (Hkeys _ Hk). lia.
Qed.

Lemma placed_dense (cs : list element) (cur : Z) (k : nat)
    (acc : option (option string)) c :
  (forall c', c' ∈ cs -> ET.attrib c' !! "r" = None) ->
  cs !! k = Some c ->
  placed shared cur cs (cur + Z.of_nat k) acc = Some (value_of shared c).
Proof.
  revert cur k acc. induction cs as [|c0 cs IH]; intros cur k acc Hno Hk; [done|].
  assert (Hcol : resolve_column cur c0 = cur)
    by (apply resolve_column_none, Hno; by left).
  assert (Hstay : forall l cur' (a : option (option string)),
             (forall c', c' ∈ l -> ET.attrib c' !! "r" = None) ->
             forall j, j < cur' -> placed shared cur' l j a = a).
  { clear. induction l as [|x l IHl]; intros cur' a Hl j Hj; [done|].
    cbn [placed]. cbv zeta.
    rewrite (resolve_column_none cur' x) by (apply Hl; by left).
    rewrite decide_False by lia. apply IHl; [|lia].
    intros c' Hc'. apply Hl. by right. }
  cbn [placed]. cbv zeta. rewrite Hcol. destruct k as [|k].
  - injection Hk as ->. rewrite Z.add_0_r, decide_True by done.
    apply Hstay; [|lia]. intros c' Hc'. apply Hno. by right.
  - rewrite decide_False by lia.
    replace (cur + Z.of_nat (S k)) with ((cur + 1) + Z.of_nat k) by lia.
    apply IH; [|done]. intros c' Hc'. apply Hno. by right.
Qed.

Lemma row_step_source (rows rows' : list (list (option string))) gmax gmax' el :
  0 <= gmax ->
  row_step shared (rows, gmax) el = Ok (rows', gmax') ->
  rows' = rows \/ exists row, rows' = rows ++ [row] /\ row_from el row.
Proof.
  intros Hg. unfold row_step. fold (row_cells el).
  destruct (scan_row shared gmax (row_cells el)) as [cst|] eqn:E; cbn [bind]; [|done].
  case_match.
  - intros [= <- <-]. by left.
  - destruct (materialize _ _) as [row|] eqn:Em; cbn [bind]; [|done].
    intros [= <- <-]. right. exists row. split; [done|]. by exists gmax, cst.
Qed.

Lemma rows_loop_started_source (els : list element)
    (rows rows' : list (list (option string))) gmax gmax' :
  rows <> [] -> 0 <= gmax ->
  for_each (row_step shared) (rows, gmax) els = Ok (rows', gmax') ->
  exists new, rows' = rows ++ new /\ Forall2 row_from els new.
Proof.
  revert rows gmax.
  induction els as [|el els IH]; intros rows gmax Hne Hg; cbn [for_each].
  - intros [= <- <-]. exists []. by rewrite app_nil_r.
  - destruct (row_step shared (rows, gmax) el) as [[rows1 gmax1]|] eqn:E;
      cbn [bind]; [|done].
    destruct (row_step_ok _ _ _ _ _ _ Hg E) as (_ & Hge & Hrow).
    rewrite (bool_decide_eq_false_2 (rows = [])), andb_false_r in Hrow by done.
    destruct Hrow as (row & -> & _).
    destruct (row_step_source _ _ _ _ _ Hg E) as [Heq | (row' & Heq & Hsrc)].
    { apply (f_equal length) in Heq. rewrite length_app in Heq. simpl in Heq. lia. }
    apply app_inj_tail in Heq as [_ <-].
    intros H. destruct (IH (rows ++ [row]) gmax1) as (new & -> & Hall);
      [by destruct rows | lia | done |].
    exists (row :: new). split; [by rewrite <- app_assoc|]. by constructor.
Qed.

Lemma rows_loop_fresh_source (els : list element)
    (rows' : list (list (option string))) gmax gmax' :
  0 <= gmax ->
  for_each (row_step shared) ([], gmax) els = Ok (rows', gmax') ->
  Forall2 row_from (drop_leading_empty els) rows'.
Proof.
  revert gmax. induction els as [|el els IH]; intros gmax Hg.
  - cbn [for_each]. intros [= <- <-]. constructor.
  - intros H. cbn [for_each] in H.
    destruct (row_step shared ([], gmax) el) as [[rows1 gmax1]|] eqn:E;
      cbn [bind] in H; [|done].
    destruct (row_step_ok _ _ _ _ _ _ Hg E) as (Hmax & Hge & Hrow).
    rewrite (bool_decide_eq_true_2 ([] = [])), andb_true_r in Hrow by done.
    simpl drop_leading_empty.
    destruct (row_cells el) as [|c cs] eqn:Ec.
    + rewrite bool_decide_eq_true_2 in Hrow by done. subst rows1.
      apply (IH gmax1); [lia | done].
    + rewrite bool_decide_eq_false_2 in Hrow by done.
      destruct Hrow as (row & -> & _). rewrite app_nil_l in H, E.
      destruct (row_step_source _ _ _ _ _ Hg E) as [[=] | (row' & Heq & Hsrc)].
      rewrite app_nil_l in Heq. injection Heq as <-.
      destruct (rows_loop_started_source els [row] rows' gmax1 gmax')
        as (new & -> & Hall); [done | lia | done |].
      by constructor.
Qed.

Lemma sheet_rows_source root (rows : list (list (option string))) :
  sheet_rows shared root = Ok rows ->
  Forall2 row_from (drop_leading_empty (row_elements root)) rows.
Proof.
  unfold sheet_rows.
  destruct (for_each _ _ _) as [[rows' gmax']|] eqn:E; cbn [bind]; [|done].
  intros [= <-]. by eapply rows_loop_fresh_source.
Qed.


Lemma sheet_rows_dense root (rows : list (list (option string)))
    (i k : nat) el row c :
  sheet_rows shared root = Ok rows ->
  drop_leading_empty (row_elements root) !! i = Some el ->
  rows !! i = Some row ->
  (forall c', c' ∈ row_cells el -> ET.attrib c' !! "r" = None) ->
  row_cells el !! k = Some c ->
  row !! k = Some (value_of shared c).
Proof.
  intros H Hel Hrow Hno Hk.
  assert (Hfrom : row_from el row)
    by (by eapply (Forall2_lookup_lr _ _ _ _ _ _ (sheet_rows_source root rows H))).
  pose proof (placed_dense (row_cells el) 0 k None c Hno Hk) as Hp.
  rewrite Z.add_0_l in Hp.
  assert (Hlt : (k < length row)%nat)
    by (apply (row_from_stored el); [done | by rewrite Hp]).
  rewrite (row_from_content el row k Hfrom Hlt). unfold row_entry. by rewrite Hp.
Qed.

End Content.



(** ** The value of a shared-string cell *)

(** X16. A cell tagged as a shared string whose value is a run of at most
    4300 digits gets the shared string of that index, and its own text
    when the index is past the end of the table; on a longer run of digits
    [int] raises [ValueError]; and a negative index, written in ASCII
    text, is never counted from the end: it gives the cell's own text as
    well. *)
Theorem shared_cell_value
    (shared : list string) (c v : element) (raw : string) :
  ET.attrib c !! "t" = Some "s" ->
  ET.find_child "v" c = Some v -> ET.text v = Some raw ->
  (decimal_text raw -> short_text raw ->
   cell_value shared c
   = Ok (Some (default raw (shared !! Z.to_nat (PyStr.digits_val 0 raw))))) /\
  (decimal_text raw -> long_text raw ->
   cell_value shared c = Raise ValueError) /\
  (forall si, is_ascii raw = true -> PyStr.int_of_str raw = Some si -> si < 0 ->
              cell_value shared c = Ok (Some raw)).
Proof.
  intros Ht Hv Hraw. unfold cell_value.
  rewrite bool_decide_eq_true_2 by done. rewrite Hv, Hraw.
  split; [|split].
  - intros Hd Hs. rewrite (int_of_str_digits raw Hd Hs). do 2 f_equal.
    unfold shared_lookup.
    pose proof (digits_val_nonneg raw 0 (proj2 Hd) ltac:(lia)) as Hn.
    destruct ((0 <=? _) && (_ <? _)) eqn:E; [done|].
    rewrite lookup_ge_None_2; [done | lia].
  - intros Hd Hl. by rewrite (int_of_str_long raw Hd Hl).
  - intros si _ -> Hneg. do 2 f_equal. unfold shared_lookup.
    destruct ((0 <=? si) && (si <? _)) eqn:E; [lia | done].
Qed.

Lemma shared_cell_value_witness :
  let c := c_elem (Some "A1") (Some "s") "1" in
  let c' := c_elem (Some "A1") (Some "s") "-1" in
  ET.attrib c !! "t" = Some "s" /\ ET.find_child "v" c = Some (v_elem "1") /\
  decimal_text "1" /\ short_text "1" /\
  cell_value ["zero"; "one"] c = Ok (Some "one") /\
  is_ascii "-1" = true /\ PyStr.int_of_str "-1" = Some (-1) /\
  cell_value ["zero"; "one"] c' = Ok (Some "-1").
Proof.
  intros c c'.
  assert (Ht : ET.attrib c !! "t" = Some "s") by (vm_compute; reflexivity).
  assert (Hv : ET.find_child "v" c = Some (v_elem "1")) by (vm_compute; reflexivity).
  assert (Hd : decimal_text "1") by (split; [discriminate | reflexivity]).
  assert (Hs : short_text "1") by (vm_compute; discriminate).
  assert (Ht' : ET.attrib c' !! "t" = Some "s") by (vm_compute; reflexivity).
  assert (Hv' : ET.find_child "v" c' = Some (v_elem "-1")) by (vm_compute; reflexivity).
  assert (Ha : is_ascii "-1" = true) by reflexivity.
  assert (Hi : PyStr.int_of_str "-1" = Some (-1)) by (vm_compute; reflexivity).
  split; [exact Ht|]. split; [exact Hv|]. split; [exact Hd|]. split; [exact Hs|].
  split; [exact (proj1 (shared_cell_value ["zero"; "one"] c (v_elem "1") "1" Ht Hv eq_refl) Hd Hs)|].
  split; [exact Ha|]. split; [exact Hi|].
  exact (proj2 (proj2 (shared_cell_value ["zero"; "one"] c' (v_elem "-1") "-1" Ht' Hv' eq_refl))
               (-1) Ha Hi ltac:(lia)).
Defined.

(** ** [parse_xlsx_dataset]: which cells matter *)

Section RowCells.

Implicit Types (hs : list (option string)) (row r : list (option string))
               (rec : record) (n k : nat).

Lemma pad_to_length n r : length (pad_to n r) = n.
Proof. revert r. induction n as [|n IH]; intros [|v r]; simpl; auto. Qed.

Lemma pad_to_lookup n r k :
  (k < n)%nat -> pad_to n r !! k = Some (cell_at r k).
Proof.
  revert r k. induction n as [|n IH]; intros r k Hk; [lia|].
  destruct r as [|v r], k as [|k]; simpl; try done.
  - rewrite (IH [] k) by lia. done.
  - rewrite (IH r k) by lia. done.
Qed.

Lemma pad_to_same n r r' : same_cells n r r' -> pad_to n r = pad_to n r'.
Proof.
  intros H. apply list_eq. intros k.
  destruct (decide (k < n)%nat) as [Hk | Hk].
  - by rewrite !pad_to_lookup, (H k Hk) by done.
  - by rewrite !lookup_ge_None_2 by (rewrite pad_to_length; lia).
Qed.

Lemma record_step_absent rec (h : option string) : record_step rec (h, None) = rec.
Proof. unfold record_step. simpl. destruct h as [h|]; [|done]. by destruct (PyStr.is_empty h). Qed.

Lemma fold_record_absent hs n rec :
  fold_left record_step (zip hs (pad_to n [])) rec = rec.
Proof.
  revert n rec. induction hs as [|h hs IH]; intros [|n] rec; simpl; try done.
  rewrite record_step_absent. apply IH.
Qed.

Lemma fold_record_pad hs r rec :
  fold_left record_step (zip hs r) rec
  = fold_left record_step (zip hs (pad_to (length hs) r)) rec.
Proof.
  revert r rec. induction hs as [|h hs IH]; intros r rec; [done|].
  destruct r as [|v r]; simpl.
  - by rewrite record_step_absent, fold_record_absent.
  - apply IH.
Qed.

Lemma fold_record_take hs r rec :
  fold_left record_step (zip hs (take (length hs) r)) rec
  = fold_left record_step (zip hs r) rec.
Proof.
  revert r rec. induction hs as [|h hs IH]; intros [|v r] rec; simpl; done.
Qed.

Lemma forallb_pad n r :
  forallb is_blank (take n r) = forallb is_blank (pad_to n r).
Proof.
  revert r. induction n as [|n IH]; intros [|v r]; simpl; try done.
  - by rewrite <- (IH []), take_nil.
  - by rewrite IH.
Qed.

Lemma row_record_pad hs num_cols r :
  row_record hs num_cols r = row_record hs num_cols (pad_to (length hs) r).
Proof.
  unfold row_record.
  rewrite (take_ge (pad_to _ _)) by (by rewrite pad_to_length).
  destruct hs as [|h hs]; [done|].
  destruct r as [|v r]; cbn [length take pad_to].
  - destruct (forallb is_blank (None :: pad_to (length hs) [])); done.
  - change (v :: take (length hs) r) with (take (length (h :: hs)) (v :: r)).
    change (v :: pad_to (length hs) r) with (pad_to (length (h :: hs)) (v :: r)).
    rewrite forallb_pad.
    destruct (forallb is_blank (pad_to (length (h :: hs)) (v :: r))); [done|].
    destruct (is_blank v); [done|].
    by rewrite fold_record_take, fold_record_pad.
Qed.

Lemma row_record_same hs num_cols r r' :
  same_cells (length hs) r r' ->
  row_record hs num_cols r = row_record hs num_cols r'.
Proof.
  intros H. rewrite (row_record_pad hs num_cols r), (row_record_pad hs num_cols r').
  by rewrite (pad_to_same _ _ _ H).
Qed.

Lemma for_each_ext_Forall2 {S X} (f : S -> X -> result S) (l l' : list X) :
  Forall2 (fun a a' => forall st, f st a = f st a') l l' ->
  forall st, for_each f st l = for_each f st l'.
Proof.
  induction 1 as [|a a' l l' Ha _ IH]; intros st; [done|].
  cbn [for_each]. rewrite Ha. destruct (f st a'); cbn [bind]; [apply IH | done].
Qed.

Lemma last_nonblank_bound (l : list (option string)) (i last : nat) :
  (last_nonblank i last l < i + length l)%nat \/ last_nonblank i last l = last.
Proof.
  revert i last. induction l as [|v l IH]; intros i last; simpl; [by right|].
  destruct (IH (S i) (if is_blank v then last else i)) as [H | H].
  - left. lia.
  - rewrite H. destruct (is_blank v); [by right | left; lia].
Qed.

Lemma last_nonblank_blank (l : list (option string)) (i last : nat) :
  Forall (fun v => is_blank v = true) l -> last_nonblank i last l = last.
Proof.
  intros H. revert i. induction H as [|v l Hv _ IH]; intros i; simpl; [done|].
  by rewrite Hv, IH.
Qed.

Lemma last_nonblank_app (l l' : list (option string)) (i last : nat) :
  last_nonblank i last (l ++ l')
  = last_nonblank (i + length l) (last_nonblank i last l) l'.
Proof.
  revert i last. induction l as [|v l IH]; intros i last; simpl.
  - by rewrite Nat.add_0_r.
  - rewrite IH. f_equal. lia.
Qed.

Lemma headers_of_length (header : list (option string)) :
  (length (headers_of header) <= length header)%nat /\
  (header <> [] -> headers_of header <> []).
Proof.
  unfold headers_of. split.
  - rewrite clean_headers_length, length_take. lia.
  - intros Hne Hnil. apply (f_equal length) in Hnil.
    rewrite clean_headers_length, length_take in Hnil.
    destruct header; [done|]. simpl in Hnil. lia.
Qed.

Lemma headers_of_blank_tail (header extra : list (option string)) :
  header <> [] -> Forall (fun v => is_blank v = true) extra ->
  headers_of (header ++ extra) = headers_of header.
Proof.
  intros Hne Hblank. unfold headers_of.
  rewrite last_nonblank_app, (last_nonblank_blank extra _ _ Hblank).
  rewrite take_app_le; [done|].
  destruct (last_nonblank_bound header 0 0) as [H | H]; [lia|].
  rewrite H. destruct header; [done | simpl; lia].
Qed.

Lemma row_record_none_iff hs num_cols r :
  hs <> [] -> (row_record hs num_cols r = Ok None <-> first_blank r = true).
Proof.
  intros Hne. destruct hs as [|h hs]; [done|]. unfold row_record.
  destruct r as [|v r]; [done|]. cbn [length take first_blank forallb].
  destruct (is_blank v) eqn:Hv; simpl.
  - by destruct (forallb is_blank (take (length hs) r)).
  - split; [|done]. by destruct (for_each _ _ num_cols).
Qed.

(** What the loop over the data rows returns: the records of the rows,
    in order. *)
Lemma draws_loop_ok hs num_cols (acc draws : list record)
    (data_rows : list (list (option string))) :
  for_each (draws_step hs num_cols) acc data_rows = Ok draws ->
  exists rs : list (option record),
    Forall2 (fun row (o : option record) => row_record hs num_cols row = Ok o)
            data_rows rs /\
    draws = acc ++ omap id rs.
Proof.
  revert acc. induction data_rows as [|row rest IH]; intros acc; cbn [for_each].
  - intros [= <-]. exists []. split; [constructor | by rewrite app_nil_r].
  - unfold draws_step at 1.
    destruct (row_record hs num_cols row) as [o|e] eqn:E; cbn [bind]; [|done].
    intros H. destruct (IH _ H) as (rs & HF & ->).
    exists (o :: rs). split; [by constructor|].
    destruct o as [rec|]; cbn [omap list_omap id]; [by rewrite <- app_assoc | done].
Qed.

Lemma draws_loop_elem hs num_cols (draws : list record)
    (data_rows : list (list (option string))) (d : record) :
  for_each (draws_step hs num_cols) [] data_rows = Ok draws -> d ∈ draws ->
  exists row, row ∈ data_rows /\ row_record hs num_cols row = Ok (Some d).
Proof.
  intros (rs & HF & ->)%draws_loop_ok. rewrite app_nil_l.
  intros (o & Hr & Hd)%list_elem_of_omap. simpl in Hd. subst o.
  apply list_elem_of_lookup in Hr as [i Hi].
  destruct (Forall2_lookup_r _ _ _ _ _ HF Hi) as (row & Hrow & Hrec).
  exists row. split; [by eapply list_elem_of_lookup_2 | done].
Qed.

Lemma draws_loop_length hs num_cols (draws : list record)
    (data_rows : list (list (option string))) :
  hs <> [] ->
  for_each (draws_step hs num_cols) [] data_rows = Ok draws ->
  length draws = length (filter (fun r => first_blank r = false) data_rows).
Proof.
  intros Hne (rs & HF & ->)%draws_loop_ok. rewrite app_nil_l.
  induction HF as [|row o rows rs Hrow _ IH]; [done|].
  cbn [omap list_omap id]. rewrite filter_cons.
  pose proof (row_record_none_iff hs num_cols row Hne) as Hiff.
  destruct o as [rec|].
  - rewrite decide_True.
    + simpl. by rewrite IH.
    + destruct (first_blank row); [|done].
      rewrite (proj2 Hiff eq_refl) in Hrow. discriminate Hrow.
  - rewrite decide_False; [done|]. by rewrite (proj1 Hiff Hrow).
Qed.

(** The fields of the dataset, read off [dataset_of_matrix]. *)
Lemma dataset_fields info (header : list (option string))
    (data_rows : list (list (option string))) ds :
  dataset_of_matrix info (header :: data_rows) = Ok ds ->
  let headers := headers_of header in
  let num_cols := extract_number_columns headers in
  for_each (draws_step headers num_cols) [] data_rows = Ok (draws ds) /\
  rows (meta ds) = Z.of_nat (length (draws ds)) /\
  number_columns (meta ds) = num_cols /\
  fold_left count_step (flat_map number_keys (draws ds)) ([], 0)
  = (number_counts (stats ds), total_numbers (stats ds)).
Proof.
  unfold dataset_of_matrix. cbv zeta. fold (headers_of header).
  destruct (for_each _ _ _) as [draws|e]; cbn [bind]; [|done].
  destruct (fold_left count_step _ _) as [counts total] eqn:E.
  intros [= <-]. simpl. by rewrite E.
Qed.

Lemma sample_dataset :
  exists ds, dataset_of_matrix sample_info (sample_header :: sample_rows) = Ok ds.
Proof. eexists. vm_compute. reflexivity. Qed.

End RowCells.

(** X17. With a header row that is not empty, and headers and data rows
    of ASCII text, the dataset has one draw for each data row whose first
    cell is not blank, and [meta.rows] is their number. *)
Theorem rows_count
    (info : run_info) (header : list (option string))
    (data_rows : list (list (option string))) (ds : dataset) :
  header <> [] ->
  Forall ascii_cell header ->
  Forall (Forall ascii_cell) data_rows ->
  dataset_of_matrix info (header :: data_rows) = Ok ds ->
  length (draws ds)
  = length (filter (fun row => first_blank row = false) data_rows) /\
  rows (meta ds) = Z.of_nat (length (draws ds)).
Proof.
  intros Hne _ _ H.
  destruct (dataset_fields info header data_rows ds H) as (Hd & Hr & _).
  split; [|done]. eapply draws_loop_length; [|exact Hd].
  by apply headers_of_length.
Qed.

(** X18. The dataset depends on a data row only through its cells under
    the header row: rows that agree there, one being longer or filled
    with absent cells, give the same dataset. *)
Theorem dataset_same_cells
    (info : run_info) (header : list (option string))
    (data_rows data_rows' : list (list (option string))) :
  Forall2 (same_cells (length header)) data_rows data_rows' ->
  dataset_of_matrix info (header :: data_rows)
  = dataset_of_matrix info (header :: data_rows').
Proof.
  intros H. unfold dataset_of_matrix. cbv zeta. fold (headers_of header).
  rewrite (for_each_ext_Forall2 _ data_rows data_rows'); [done|].
  eapply Forall2_impl; [exact H|]. intros r r' Hrr st. simpl in Hrr.
  unfold draws_step. rewrite (row_record_same _ _ r r'); [done|].
  intros k Hk. apply Hrr.
  pose proof (headers_of_length header). lia.
Qed.

(** X19. Blank cells after the last header do not count: a header row
    followed by blank or absent cells gives the same dataset as the
    header row alone. *)
Theorem dataset_blank_header_tail
    (info : run_info) (header extra : list (option string))
    (data_rows : list (list (option string))) :
  header <> [] -> Forall (fun v => is_blank v = true) extra ->
  dataset_of_matrix info ((header ++ extra) :: data_rows)
  = dataset_of_matrix info (header :: data_rows).
Proof.
  intros Hne Hblank. unfold dataset_of_matrix. cbv zeta.
  fold (headers_of (header ++ extra)). fold (headers_of header).
  by rewrite (headers_of_blank_tail header extra Hne Hblank).
Qed.

Lemma rows_count_witness :
  sample_header <> [] /\ Forall ascii_cell sample_header /\
  Forall (Forall ascii_cell) sample_rows /\
  exists ds,
    dataset_of_matrix sample_info (sample_header :: sample_rows) = Ok ds /\
    length (draws ds)
    = length (filter (fun row => first_blank row = false) sample_rows) /\
    rows (meta ds) = Z.of_nat (length (draws ds)).
Proof.
  assert (Hne : sample_header <> []) by discriminate.
  assert (Hh : Forall ascii_cell sample_header) by (repeat constructor).
  assert (Ha : Forall (Forall ascii_cell) sample_rows) by (repeat constructor).
  split; [exact Hne|]. split; [exact Hh|]. split; [exact Ha|].
  destruct sample_dataset as [ds Hds].
  exists ds. split; [exact Hds|].
  exact (rows_count sample_info sample_header sample_rows ds Hne Hh Ha Hds).
Defined.

Lemma dataset_same_cells_witness :
  let rows' := [[Some "1"; Some "5"; Some "beyond"]; [None; Some "9"; None];
                [Some "2"; None; None; None]] in
  Forall2 (same_cells (length sample_header)) sample_rows rows' /\
  dataset_of_matrix sample_info (sample_header :: sample_rows)
  = dataset_of_matrix sample_info (sample_header :: rows').
Proof.
  intros rows'.
  assert (H : Forall2 (same_cells (length sample_header)) sample_rows rows').
  { repeat constructor; intros [|[|k]] Hk; try reflexivity; simpl in Hk; lia. }
  split; [exact H|].
  exact (dataset_same_cells sample_info sample_header sample_rows rows' H).
Defined.

Lemma dataset_blank_header_tail_witness :
  let extra := [None; Some "  "; None] in
  sample_header <> [] /\ Forall (fun v => is_blank v = true) extra /\
  dataset_of_matrix sample_info ((sample_header ++ extra) :: sample_rows)
  = dataset_of_matrix sample_info (sample_header :: sample_rows).
Proof.
  intros extra.
  assert (Hne : sample_header <> []) by discriminate.
  assert (Hb : Forall (fun v => is_blank v = true) extra)
    by (repeat constructor).
  split; [exact Hne|]. split; [exact Hb|].
  exact (dataset_blank_header_tail sample_info sample_header extra sample_rows Hne Hb).
Defined.

(** ** Insertion-ordered dictionaries *)

Section Dict.

Context {V : Type}.
Implicit Types (d : dict V) (k : string) (v : V).



Lemma dict_get_elem k v d : dict_get k d = Some v -> (k, v) ∈ d.
Proof.
  induction d as [|[k' v'] d IH]; simpl; [done|].
  destruct (String.eqb_spec k k') as [-> | Hne].
  - intros [= ->]. by left.
  - intros H. right. by apply IH.
Qed.

Lemma dict_get_None k d : dict_get k d = None <-> k ∉ d.*1.
Proof.
  induction d as [|[k' v'] d IH]; simpl.
  - split; [intros _; apply not_elem_of_nil | done].
  - rewrite not_elem_of_cons. simpl.
    destruct (String.eqb_spec k k') as [-> | Hne]; split; try done.
    + by intros [? _].
    + intros H. split; [done | by apply IH].
    + intros [_ H]. by apply IH.
Qed.

Lemma dict_set_keys k v d :
  (dict_set k v d).*1
  = match dict_get k d with Some _ => d.*1 | None => d.*1 ++ [k] end.
Proof.
  induction d as [|[k' v'] d IH]; [done|]. cbn [dict_set dict_get].
  destruct (String.eqb_spec k k') as [-> | Hne]; [done|].
  rewrite !fmap_cons, IH. by destruct (dict_get k d).
Qed.

Lemma dict_set_NoDup k v d : NoDup d.*1 -> NoDup (dict_set k v d).*1.
Proof.
  intros H. rewrite dict_set_keys. destruct (dict_get k d) eqn:E; [done|].
  apply NoDup_app. split; [done|]. split; [|apply NoDup_singleton].
  intros x Hx ->%list_elem_of_singleton. by apply dict_get_None in E.
Qed.

Lemma dict_set_elem k v d (kv : string * V) :
  kv ∈ dict_set k v d -> kv = (k, v) \/ kv ∈ d.
Proof.
  induction d as [|[k' v'] d IH]; simpl.
  - intros ->%list_elem_of_singleton. by left.
  - destruct (String.eqb_spec k k') as [-> | Hne].
    + intros [-> | H]%elem_of_cons; [by left | right; by right].
    + intros [-> | H]%elem_of_cons; [right; by left|].
      destruct (IH H) as [-> | H']; [by left | right; by right].
Qed.

End Dict.


(** ** [parse_xlsx_dataset]: the counts *)

Section Counts.

Implicit Types (keys : list string) (counts : dict Z) (total : Z).

Let occ (key : string) keys : Z :=
  Z.of_nat (length (filter (fun x => x = key) keys)).


Lemma occ_pos key keys : 0 < occ key keys <-> key ∈ keys.
Proof.
  unfold occ. split.
  - intros H. destruct (filter _ keys) as [|x l] eqn:E; [simpl in H; lia|].
    assert (Hx : x ∈ filter (fun x => x = key) keys) by (rewrite E; by left).
    apply list_elem_of_filter in Hx as [-> Hx]. done.
  - intros H.
    assert (Hx : key ∈ filter (fun x => x = key) keys)
      by (by apply list_elem_of_filter).
    destruct (filter _ keys); [by apply elem_of_nil in Hx | simpl; lia].
Qed.


End Counts.



(** ** [parse_xlsx_dataset]: the draws *)

Section Draws.

Implicit Types (hs : list (option string)) (row : list (option string))
               (rec d : record) (num_cols : list string).

(** The record before [__numbers] is added: texts only. *)
Let texts_only hs row rec : Prop :=
  NoDup rec.*1 /\
  forall k f, (k, f) ∈ rec ->
    exists s, f = FText s /\ Some k ∈ hs /\ s <> "" /\ PyStr.strip s = s /\
              exists v, Some v ∈ row /\ s = PyStr.strip v.

Lemma record_step_texts hs row rec (hv : option string * option string) :
  hv.1 ∈ hs -> hv.2 ∈ row ->
  texts_only hs row rec -> texts_only hs row (record_step rec hv).
Proof.
  intros Hh Hv [Hnd Hall]. unfold record_step.
  destruct hv as [[h|] [v|]]; simpl in *; try done.
  - destruct (PyStr.is_empty h); [done|].
    destruct (PyStr.is_empty (PyStr.strip v)) eqn:E; [done|].
    split; [by apply dict_set_NoDup|].
    intros k f [[= -> ->] | Hin]%dict_set_elem; [|by apply Hall].
    exists (PyStr.strip v). split; [done|]. split; [done|].
    split; [by apply is_empty_false|]. split; [apply strip_idem|]. by exists v.
  - by destruct (PyStr.is_empty h).
Qed.

Lemma fold_record_texts hs row (pairs : list (option string * option string)) rec :
  (forall hv, hv ∈ pairs -> hv.1 ∈ hs /\ hv.2 ∈ row) ->
  texts_only hs row rec ->
  texts_only hs row (fold_left record_step pairs rec).
Proof.
  revert rec. induction pairs as [|hv pairs IH]; intros rec Hp Hrec; [done|].
  cbn [fold_left]. apply IH.
  - intros hv' Hin. apply Hp. by right.
  - destruct (Hp hv) as [H1 H2]; [by left|]. by apply record_step_texts.
Qed.

Lemma numbers_loop_ok rec (nums0 nums : list Z) (cols : list string) :
  for_each (numbers_step rec) nums0 cols = Ok nums ->
  exists new,
    nums = nums0 ++ new /\ (length new <= length cols)%nat /\
    Forall (fun n => exists col,
              to_int (pyval_of_field (dict_get col rec)) = Ok (Some n)) new.
Proof.
  revert nums0. induction cols as [|col cols IH]; intros nums0; cbn [for_each].
  - intros [= <-]. exists []. by rewrite app_nil_r.
  - unfold numbers_step at 1.
    destruct (to_int (pyval_of_field (dict_get col rec))) as [n|e] eqn:E;
      cbn [bind]; [|done].
    intros H. destruct (IH _ H) as (new & -> & Hlen & Hall).
    destruct n as [n|].
    + exists (n :: new). rewrite <- app_assoc. split; [done|].
      split; [simpl; lia|]. constructor; [by exists col | done].
    + exists new. split; [done|]. split; [simpl; lia | done].
Qed.

Lemma numbers_in_range rec (nums : list Z) (cols : list string) :
  for_each (numbers_step rec) [] cols = Ok nums ->
  (length nums <= length cols)%nat /\
  Forall (fun n => 0 <= n < str_limit) nums.
Proof.
  intros (new & -> & Hlen & Hall)%numbers_loop_ok. rewrite app_nil_l.
  split; [done|]. eapply Forall_impl; [exact Hall|].
  intros n [col Hn]. simpl in Hn.
  destruct (dict_get col rec) as [[s|l]|]; simpl in Hn; try done.
  by eapply to_int_bounds.
Qed.

Lemma row_record_well_formed hs num_cols row d :
  row_record hs num_cols row = Ok (Some d) -> well_formed_draw hs num_cols row d.
Proof.
  unfold row_record.
  destruct (take (length hs) row) as [|first rest] eqn:Et; [done|].
  destruct (forallb is_blank (first :: rest)); [done|].
  destruct (is_blank first); [done|]. cbv zeta.
  set (rec := fold_left record_step (zip hs (first :: rest)) []).
  assert (Hrec : texts_only hs row rec).
  { apply fold_record_texts; [|split; [constructor | by intros k f ?%elem_of_nil]].
    intros [h v] Hin. split; [by eapply elem_of_zip_l|].
    apply elem_of_zip_r in Hin. rewrite <- Et in Hin.
    simpl. by eapply subseteq_take. }
  destruct Hrec as [Hnd Hall].
  destruct (for_each (numbers_step rec) [] num_cols) as [nums|e] eqn:En;
    cbn [bind]; [|done].
  destruct (numbers_in_range _ _ _ En) as [Hlen Hnn].
  intros [= <-]. destruct nums as [|n nums'].
  - split; [done|]. split.
    + intros k s Hin. destruct (Hall _ _ Hin) as (s' & [= <-] & ?). done.
    + intros k l Hin. by destruct (Hall _ _ Hin) as (s' & [=] & _).
  - split; [by apply dict_set_NoDup|]. split.
    + intros k s [[=] | Hin]%dict_set_elem.
      destruct (Hall _ _ Hin) as (s' & [= <-] & ?). done.
    + intros k l [[= -> ->] | Hin]%dict_set_elem; [done|].
      by destruct (Hall _ _ Hin) as (s' & [=] & _).
Qed.

Lemma draws_well_formed info (header : list (option string))
    (data_rows : list (list (option string))) ds d :
  dataset_of_matrix info (header :: data_rows) = Ok ds -> d ∈ draws ds ->
  exists row, row ∈ data_rows /\
    well_formed_draw (headers_of header) (number_columns (meta ds)) row d.
Proof.
  intros H Hd. destruct (dataset_fields info header data_rows ds H) as (Hdr & _ & Hnc & _).
  destruct (draws_loop_elem _ _ _ _ d Hdr Hd) as (row & Hrow & Hrec).
  exists row. split; [done|]. rewrite Hnc. by apply row_record_well_formed.
Qed.

(** A row without a cell of more digits than [int] converts gives its
    record, or none: nothing is raised. *)
Lemma row_record_total hs num_cols row :
  Forall (fun v => ~ long_number v) row ->
  exists r, row_record hs num_cols row = Ok r.
Proof.
  intros Hrow. unfold row_record.
  destruct (take (length hs) row) as [|first rest] eqn:Et; [by eauto|].
  destruct (forallb is_blank (first :: rest)); [by eauto|].
  destruct (is_blank first); [by eauto|]. cbv zeta.
  set (rec := fold_left record_step (zip hs (first :: rest)) []).
  assert (Hrec : texts_only hs row rec).
  { apply fold_record_texts; [|split; [constructor | by intros k f ?%elem_of_nil]].
    intros [h v] Hin. split; [by eapply elem_of_zip_l|].
    apply elem_of_zip_r in Hin. rewrite <- Et in Hin.
    simpl. by eapply subseteq_take. }
  destruct Hrec as [_ Hall].
  destruct (for_each (numbers_step rec) [] num_cols) as [nums|e] eqn:En;
    cbn [bind]; [by eauto|]. exfalso.
  apply for_each_raise in En as (st & col & _ & Hstep).
  unfold numbers_step in Hstep.
  destruct (to_int (pyval_of_field (dict_get col rec))) as [n|e'] eqn:E;
    cbn [bind] in Hstep; [done|].
  apply to_int_raise in E as (_ & s & Hs & Hd & Hl).
  destruct (dict_get col rec) as [[s'|l]|] eqn:Eg; simpl in Hs; try done.
  injection Hs as ->. apply dict_get_elem in Eg.
  destruct (Hall _ _ Eg) as (s' & [= <-] & _ & _ & _ & v & Hv & ->).
  rewrite strip_idem in Hd, Hl.
  rewrite Forall_forall in Hrow. apply (Hrow (Some v) Hv). by exists v.
Qed.

Lemma draws_loop_total hs num_cols (acc : list record)
    (data_rows : list (list (option string))) :
  Forall (Forall (fun v => ~ long_number v)) data_rows ->
  exists draws, for_each (draws_step hs num_cols) acc data_rows = Ok draws.
Proof.
  intros H. revert acc. induction H as [|row rest Hrow _ IH]; intros acc.
  - by exists acc.
  - cbn [for_each]. unfold draws_step at 1.
    destruct (row_record_total hs num_cols row Hrow) as [r ->]. cbn [bind].
    apply IH.
Qed.

Lemma dataset_of_matrix_total info (header : list (option string))
    (data_rows : list (list (option string))) :
  Forall (Forall (fun v => ~ long_number v)) data_rows ->
  exists ds, dataset_of_matrix info (header :: data_rows) = Ok ds.
Proof.
  intros H. unfold dataset_of_matrix. cbv zeta.
  destruct (draws_loop_total
              (clean_headers (take (S (last_nonblank 0 0 header)) header))
              (extract_number_columns
                 (clean_headers (take (S (last_nonblank 0 0 header)) header)))
              [] data_rows H) as [draws ->]. cbn [bind].
  destruct (fold_left count_step _ _). eauto.
Qed.

End Draws.

(** X21. With a header row and data rows of ASCII text, every draw of a
    dataset comes from a data row and is well formed: it has no key
    twice; each text in it stands under a cleaned header and is a cell of
    the row, trimmed and not empty; and a list of numbers stands only
    under [__numbers], is not empty, holds no negative number, none of
    more than 4300 digits, and no more numbers than there are number
    columns. *)
Theorem draws_are_well_formed
    (info : run_info) (header : list (option string))
    (data_rows : list (list (option string))) (ds : dataset) (d : record) :
  Forall ascii_cell header ->
  Forall (Forall ascii_cell) data_rows ->
  dataset_of_matrix info (header :: data_rows) = Ok ds ->
  d ∈ draws ds ->
  exists row, row ∈ data_rows /\
    well_formed_draw (headers_of header) (number_columns (meta ds)) row d.
Proof. intros _ _. apply draws_well_formed. Qed.

Lemma draws_are_well_formed_witness :
  Forall ascii_cell sample_header /\ Forall (Forall ascii_cell) sample_rows /\
  exists ds d,
    dataset_of_matrix sample_info (sample_header :: sample_rows) = Ok ds /\
    d ∈ draws ds /\
    exists row, row ∈ sample_rows /\
      well_formed_draw (headers_of sample_header) (number_columns (meta ds)) row d.
Proof.
  set (d := [("Concurso", FText "1"); ("Bola1", FText "5");
             ("__numbers", FNumbers [5])] : record).
  assert (Hh : Forall ascii_cell sample_header) by (repeat constructor).
  assert (Ha : Forall (Forall ascii_cell) sample_rows) by (repeat constructor).
  split; [exact Hh|]. split; [exact Ha|].
  destruct sample_dataset as [ds Hds].
  assert (Hd : d ∈ draws ds).
  { revert Hds. vm_compute. intros [= <-]. by left. }
  exists ds, d. split; [exact Hds|]. split; [exact Hd|].
  exact (draws_are_well_formed sample_info sample_header sample_rows ds d Hh Ha Hds Hd).
Defined.

(** ** [parse_xlsx_dataset]: the keys of the counts *)




(** ** [build_all] *)

Section BuildAllProps.

Variable bytes : Type.
Variable fromstring : bytes -> option element.
Implicit Types (files pre post : list (xlsx_file bytes))
               (dss : list dataset) (written : list (string * json_doc))
               (entries : list manifest_entry) (out_dir : string).

Lemma build_loop_converted out_dir pre dss rest written entries :
  Forall2 (converts bytes fromstring) pre dss ->
  build_loop bytes fromstring out_dir (pre ++ rest) written entries
  = build_loop bytes fromstring out_dir rest
      (written ++ zip_with (dataset_write bytes out_dir) pre dss)
      (entries ++ zip_with (entry_of bytes) pre dss).
Proof.
  intros H. revert written entries.
  induction H as [|f ds pre dss Hf _ IH]; intros written entries.
  - simpl. by rewrite !app_nil_r.
  - cbn [app build_loop zip_with]. unfold converts in Hf. rewrite Hf.
    cbv zeta. rewrite IH, <- !app_assoc. done.
Qed.

Lemma build_all_fails out_dir t pre f post dss e :
  Forall2 (converts bytes fromstring) pre dss ->
  parse_xlsx_dataset bytes fromstring (xlsx_info bytes f) (xlsx_zip bytes f) = Raise e ->
  build_all bytes fromstring out_dir t (pre ++ f :: post)
  = (zip_with (dataset_write bytes out_dir) pre dss, Raise e).
Proof.
  intros Hpre Hf. unfold build_all.
  destruct (pre ++ f :: post) eqn:E; [by destruct pre|]. rewrite <- E.
  rewrite (build_loop_converted out_dir pre dss (f :: post) [] [] Hpre).
  cbn [build_loop]. by rewrite Hf.
Qed.

Lemma build_all_succeeds out_dir t files dss :
  files <> [] -> Forall2 (converts bytes fromstring) files dss ->
  build_all bytes fromstring out_dir t files
  = (zip_with (dataset_write bytes out_dir) files dss
       ++ [(path_join out_dir "manifest.json",
            ManifestDoc t (zip_with (entry_of bytes) files dss))],
     Ok tt).
Proof.
  intros Hne H.
  pose proof (build_loop_converted out_dir files dss [] [] [] H) as Hloop.
  rewrite app_nil_r in Hloop. cbn [build_loop app] in Hloop.
  unfold build_all. destruct files as [|f rest]; [done|]. by rewrite Hloop.
Qed.

Lemma zip_with_no_manifest out_dir pre dss :
  Forall (fun w => ~ is_manifest w) (zip_with (dataset_write bytes out_dir) pre dss).
Proof.
  apply Forall_forall. intros w (f & ds & -> & _)%elem_of_zip_with. by intros [].
Qed.

End BuildAllProps.

(** X23. [build_all] stops at the first file whose conversion raises:
    the exception is that file's, the datasets of the files before it,
    whose stems are ASCII text, have been written, in order, and nothing
    else has: no manifest, and nothing for the files after it. *)
Theorem build_all_fail_fast
    (bytes : Type) (fromstring : bytes -> option element)
    (out_dir t : string) (pre post : list (xlsx_file bytes))
    (f : xlsx_file bytes) (dss : list dataset) (e : exn) :
  Forall (fun x => is_ascii (path_stem (xlsx_info bytes x)) = true) pre ->
  Forall2 (converts bytes fromstring) pre dss ->
  parse_xlsx_dataset bytes fromstring (xlsx_info bytes f) (xlsx_zip bytes f) = Raise e ->
  build_all bytes fromstring out_dir t (pre ++ f :: post)
  = (zip_with (dataset_write bytes out_dir) pre dss, Raise e) /\
  Forall (fun w => ~ is_manifest w)
         (build_all bytes fromstring out_dir t (pre ++ f :: post)).1 /\
  length (build_all bytes fromstring out_dir t (pre ++ f :: post)).1 = length pre.
Proof.
  intros _ Hpre Hf.
  rewrite (build_all_fails bytes fromstring out_dir t pre f post dss e Hpre Hf).
  split; [done|]. split; [apply zip_with_no_manifest|].
  simpl. rewrite length_zip_with. apply Forall2_length in Hpre. lia.
Qed.

(** X24. When every file converts, the stems of the files being ASCII
    text, [build_all] succeeds; it has written one dataset per file, in
    the order of the files and each at the path made of the slug of the
    file's stem, and then, last, the manifest, which lists one entry per
    file in the same order, with that slug as id and the dataset's own
    row count, number columns and time. *)
Theorem build_all_writes
    (bytes : Type) (fromstring : bytes -> option element)
    (out_dir t : string) (files : list (xlsx_file bytes)) (dss : list dataset) :
  files <> [] ->
  Forall (fun x => is_ascii (path_stem (xlsx_info bytes x)) = true) files ->
  Forall2 (converts bytes fromstring) files dss ->
  build_all bytes fromstring out_dir t files
  = (zip_with (dataset_write bytes out_dir) files dss
       ++ [(path_join out_dir "manifest.json",
            ManifestDoc t (zip_with (entry_of bytes) files dss))],
     Ok tt) /\
  length (zip_with (entry_of bytes) files dss) = length files /\
  (forall i f ds, files !! i = Some f -> dss !! i = Some ds ->
     zip_with (entry_of bytes) files dss !! i
     = Some (manifest_entry_of (path_stem (xlsx_info bytes f)) ds) /\
     is_slug (entry_id (manifest_entry_of (path_stem (xlsx_info bytes f)) ds)) = true).
Proof.
  intros Hne _ H. split; [by apply build_all_succeeds|].
  split; [rewrite length_zip_with; apply Forall2_length in H; lia|].
  intros i f ds Hf Hds. split.
  - rewrite lookup_zip_with, Hf. simpl. by rewrite Hds.
  - apply slugify_slug.
Qed.

Lemma build_all_fail_fast_witness :
  Forall (fun x => is_ascii (path_stem (xlsx_info element x)) = true) [good_file] /\
  exists ds,
    Forall2 (converts element Some) [good_file] [ds] /\
    parse_xlsx_dataset element Some (xlsx_info element bad_file)
                       (xlsx_zip element bad_file) = Raise ValueError /\
    build_all element Some "data/json" "t" ([good_file] ++ bad_file :: [good_file])
    = (zip_with (dataset_write element "data/json") [good_file] [ds],
       Raise ValueError) /\
    Forall (fun w => ~ is_manifest w)
      (build_all element Some "data/json" "t"
                 ([good_file] ++ bad_file :: [good_file])).1 /\
    length (build_all element Some "data/json" "t"
                      ([good_file] ++ bad_file :: [good_file])).1
    = length [good_file].
Proof.
  assert (Ha : Forall (fun x => is_ascii (path_stem (xlsx_info element x)) = true)
                      [good_file]) by (repeat constructor).
  split; [exact Ha|].
  assert (Hg : exists ds, converts element Some good_file ds)
    by (eexists; vm_compute; reflexivity).
  destruct Hg as [ds Hds]. exists ds.
  assert (H1 : Forall2 (converts element Some) [good_file] [ds])
    by (repeat constructor; exact Hds).
  assert (H2 : parse_xlsx_dataset element Some (xlsx_info element bad_file)
                                  (xlsx_zip element bad_file) = Raise ValueError)
    by (vm_compute; reflexivity).
  split; [exact H1|]. split; [exact H2|].
  exact (build_all_fail_fast element Some "data/json" "t" [good_file] [good_file]
                             bad_file [ds] ValueError Ha H1 H2).
Defined.

Lemma build_all_writes_witness :
  Forall (fun x => is_ascii (path_stem (xlsx_info element x)) = true) [good_file] /\
  exists ds,
    [good_file] <> [] /\ Forall2 (converts element Some) [good_file] [ds] /\
    build_all element Some "data/json" "t" [good_file]
    = ([(("data/json/mega-sena.json"), DatasetDoc ds);
        ("data/json/manifest.json",
         ManifestDoc "t" [manifest_entry_of "Mega Sena" ds])],
       Ok tt).
Proof.
  assert (Ha : Forall (fun x => is_ascii (path_stem (xlsx_info element x)) = true)
                      [good_file]) by (repeat constructor).
  split; [exact Ha|].
  assert (Hg : exists ds, converts element Some good_file ds)
    by (eexists; vm_compute; reflexivity).
  destruct Hg as [ds Hds]. exists ds.
  assert (H0 : [good_file] <> []) by discriminate.
  assert (H1 : Forall2 (converts element Some) [good_file] [ds])
    by (repeat constructor; exact Hds).
  split; [exact H0|]. split; [exact H1|].
  exact (proj1 (build_all_writes element Some "data/json" "t" [good_file] [ds] H0 Ha H1)).
Defined.

(** X25. A row element whose cells carry no reference is read from left
    to right: its row in the matrix is at least as long as it has cells
    and holds the text of its k-th cell at column k. *)
Theorem dense_row_content
    (shared : list string) (root : element) (rows : list (list (option string)))
    (i : nat) (el : element) (row : list (option string)) :
  sheet_rows shared root = Ok rows ->
  drop_leading_empty (row_elements root) !! i = Some el ->
  rows !! i = Some row ->
  (forall c, c ∈ row_cells el -> ET.attrib c !! "r" = None) ->
  (length (row_cells el) <= length row)%nat /\
  (forall k c, row_cells el !! k = Some c ->
               row !! k = Some (value_of shared c)).
Proof.
  intros H Hel Hrow Hno.
  assert (Hk : forall k c, row_cells el !! k = Some c ->
                           row !! k = Some (value_of shared c))
    by (intros k c; by eapply sheet_rows_dense).
  split; [|done].
  destruct (decide (length (row_cells el) <= length row)%nat) as [|Hgt]; [done|].
  destruct (lookup_lt_is_Some_2 (row_cells el) (length row)) as [c Hc]; [lia|].
  specialize (Hk _ _ Hc). apply lookup_lt_Some in Hk. lia.
Qed.

Lemma dense_row_content_witness :
  let cs := [c_elem None None "a"; c_elem None (Some "s") "0"; c_elem None None "c"] in
  let root := worksheet [cs] in
  let el := Element "row" ∅ None cs in
  let row := [Some "a"; Some "shared"; Some "c"] in
  sheet_rows ["shared"] root = Ok [row] /\
  (forall c, c ∈ row_cells el -> ET.attrib c !! "r" = None) /\
  (length (row_cells el) <= length row)%nat /\
  (forall k c, row_cells el !! k = Some c ->
               row !! k = Some (value_of ["shared"] c)).
Proof.
  intros cs root el row.
  assert (H1 : sheet_rows ["shared"] root = Ok [row]) by (vm_compute; reflexivity).
  assert (H2 : drop_leading_empty (row_elements root) !! 0%nat = Some el)
    by (vm_compute; reflexivity).
  assert (H3 : forall c, c ∈ row_cells el -> ET.attrib c !! "r" = None).
  { intros c Hc. change (row_cells el) with cs in Hc. unfold cs in Hc.
    repeat (apply elem_of_cons in Hc as [-> | Hc]; [vm_compute; reflexivity|]).
    by apply elem_of_nil in Hc. }
  split; [exact H1|]. split; [exact H3|].
  exact (dense_row_content ["shared"] root [row] 0%nat el row H1 H2 eq_refl H3).
Defined.

(** ** [parse_xlsx_dataset]: the last block *)

Lemma dataset_last_fields (info : run_info) (header : list (option string))
    (data_rows : list (list (option string))) (ds : dataset) :
  dataset_of_matrix info (header :: data_rows) = Ok ds ->
  let last_draw : record := default [] (list.last (draws ds)) in
  Concurso (last ds) = dict_get "Concurso" last_draw /\
  Data_do_Sorteio (last ds)
  = py_or_field
      (py_or_field (dict_get "Data do Sorteio" last_draw)
                   (dict_get "Data de Sorteio" last_draw))
      (dict_get "Data de apuração" last_draw).
Proof.
  unfold dataset_of_matrix. cbv zeta.
  destruct (for_each _ _ _) as [draws|e]; cbn [bind]; [|done].
  destruct (fold_left count_step _ _) as [counts total].
  intros [= <-]. done.
Qed.

Lemma well_formed_truthy (hs : list (option string)) (num_cols : list string)
    (row : list (option string)) (d : record) (k : string) (f : field) :
  well_formed_draw hs num_cols row d -> dict_get k d = Some f ->
  py_truthy_field (Some f) = true.
Proof.
  intros (_ & Htext & Hnums) Hk%dict_get_elem. destruct f as [s|l]; simpl.
  - destruct (Htext _ _ Hk) as (_ & Hne & _). by destruct s.
  - destruct (Hnums _ _ Hk) as (_ & Hne & _). by destruct l.
Qed.

(** X26. The last block is read off the last draw: [Concurso] is its
    field of that name, and the draw date is its field under the first of
    "Data do Sorteio", "Data de Sorteio" and "Data de apuração" that it
    has; a field that is present is never passed over. *)
Theorem last_block_of_last_draw
    (info : run_info) (header : list (option string))
    (data_rows : list (list (option string))) (ds : dataset) (d : record) :
  dataset_of_matrix info (header :: data_rows) = Ok ds ->
  list.last (draws ds) = Some d ->
  Concurso (last ds) = dict_get "Concurso" d /\
  Data_do_Sorteio (last ds)
  = first_present "Data do Sorteio" "Data de Sorteio" "Data de apuração" d.
Proof.
  intros H Hlast.
  destruct (dataset_last_fields info header data_rows ds H) as [Hc Hd].
  rewrite Hlast in Hc, Hd. simpl in Hc, Hd. split; [done|].
  assert (Hin : d ∈ draws ds).
  { rewrite last_lookup in Hlast. by eapply list_elem_of_lookup_2. }
  destruct (draws_well_formed info header data_rows ds d H Hin) as (row & _ & Hwf).
  rewrite Hd. unfold first_present, py_or_field.
  destruct (dict_get "Data do Sorteio" d) as [f1|] eqn:E1.
  - by rewrite !(well_formed_truthy _ _ _ _ _ _ Hwf E1).
  - simpl. destruct (dict_get "Data de Sorteio" d) as [f2|] eqn:E2; [|done].
    by rewrite !(well_formed_truthy _ _ _ _ _ _ Hwf E2).
Qed.

Lemma last_block_of_last_draw_witness :
  exists ds d,
    dataset_of_matrix sample_info (sample_header :: sample_rows) = Ok ds /\
    list.last (draws ds) = Some d /\
    Concurso (last ds) = dict_get "Concurso" d /\
    Data_do_Sorteio (last ds)
    = first_present "Data do Sorteio" "Data de Sorteio" "Data de apuração" d.
Proof.
  set (d := [("Concurso", FText "2")] : record).
  destruct sample_dataset as [ds Hds].
  assert (Hl : list.last (draws ds) = Some d).
  { revert Hds. vm_compute. by intros [= <-]. }
  exists ds, d. split; [exact Hds|]. split; [exact Hl|].
  exact (last_block_of_last_draw sample_info sample_header sample_rows ds d Hds Hl).
Defined.

(** ** [parse_xlsx_dataset]: the empty matrix *)

(** C9. The transform fails with the error of the empty workbook exactly
    when the matrix has no rows, and the check comes first: with at least
    a header row it raises nothing but the [ValueError] of [to_int], and
    it produces a dataset whenever the data rows are of ASCII text and no
    cell holds more than 4300 digits. When every data row is filtered
    out, in particular when there is none, that dataset has 0 rows, no
    draws, a total of 0 numbers and no counts, and neither Concurso nor a
    draw date in its last block. From the archive, [parse_xlsx_dataset]
    ends with that error exactly when the reader returns a matrix without
    rows. *)
Theorem empty_workbook_iff (info : run_info) :
  (forall matrix,
      dataset_of_matrix info matrix = Raise (EmptyWorkbook info) <-> matrix = []) /\
  (forall matrix e,
      dataset_of_matrix info matrix = Raise e ->
      (matrix = [] /\ e = EmptyWorkbook info) \/ (matrix <> [] /\ e = ValueError)) /\
  (forall header data_rows,
      Forall (Forall ascii_cell) data_rows ->
      Forall (Forall (fun v => ~ long_number v)) data_rows ->
      exists ds, dataset_of_matrix info (header :: data_rows) = Ok ds) /\
  (forall header data_rows,
      Forall (fun row => all_blank row = true \/ first_blank row = true) data_rows ->
      exists ds,
        dataset_of_matrix info (header :: data_rows) = Ok ds /\
        rows (meta ds) = 0 /\ draws ds = [] /\
        total_numbers (stats ds) = 0 /\ number_counts (stats ds) = [] /\
        Concurso (last ds) = None /\ Data_do_Sorteio (last ds) = None) /\
  (forall (bytes : Type) (fromstring : bytes -> option element) (zf : ZipFile bytes),
      parse_xlsx_dataset bytes fromstring info zf = Raise (EmptyWorkbook info)
      <-> read_first_sheet_rows bytes fromstring zf = Ok []).
Proof.
  split; [apply dataset_of_matrix_empty_iff|].
  split; [apply dataset_of_matrix_raise|].
  split; [intros header data_rows _; apply dataset_of_matrix_total|].
  split; [apply dataset_of_matrix_no_draws|].
  intros bytes fromstring zf. apply parse_xlsx_dataset_empty_iff.
Qed.

Lemma empty_workbook_iff_witness :
  let info := {| path_stem := "mega"; path_name := "mega.xlsx"; utc_now := "t" |} in
  let header := [Some "Concurso"; Some "Bola1"] in
  let data_rows := [[None; Some "9"]; []; [Some " "; None]] in
  dataset_of_matrix info matrix_long_number = Raise ValueError /\
  ((matrix_long_number = [] /\ ValueError = EmptyWorkbook info) \/
   (matrix_long_number <> [] /\ ValueError = ValueError)) /\
  Forall (Forall ascii_cell) data_rows /\
  Forall (Forall (fun v => ~ long_number v)) data_rows /\
  Forall (fun row => all_blank row = true \/ first_blank row = true) data_rows /\
  (exists ds, dataset_of_matrix info (header :: data_rows) = Ok ds) /\
  (exists ds,
      dataset_of_matrix info (header :: data_rows) = Ok ds /\
      rows (meta ds) = 0 /\ draws ds = [] /\
      total_numbers (stats ds) = 0 /\ number_counts (stats ds) = [] /\
      Concurso (last ds) = None /\ Data_do_Sorteio (last ds) = None).
Proof.
  intros info header data_rows.
  assert (H0 : dataset_of_matrix info matrix_long_number = Raise ValueError)
    by (vm_compute; reflexivity).
  assert (H1 : Forall (Forall ascii_cell) data_rows) by (repeat constructor).
  assert (H2 : Forall (Forall (fun v => ~ long_number v)) data_rows).
  { apply Forall_forall. intros row Hrow. apply Forall_forall.
    intros v Hv (s & -> & _ & Hl). unfold data_rows in Hrow.
    repeat (apply elem_of_cons in Hrow as [-> | Hrow]);
      [..| by apply elem_of_nil in Hrow];
      repeat (apply elem_of_cons in Hv as [Hv | Hv]);
      try (by apply elem_of_nil in Hv); try discriminate Hv;
      injection Hv as ->; vm_compute in Hl; discriminate Hl. }
  assert (H3 : Forall (fun row => all_blank row = true \/ first_blank row = true)
                      data_rows)
    by (repeat constructor; right; reflexivity).
  split; [exact H0|].
  split; [exact (proj1 (proj2 (empty_workbook_iff info)) _ _ H0)|].
  split; [exact H1|]. split; [exact H2|]. split; [exact H3|].
  split; [exact (proj1 (proj2 (proj2 (empty_workbook_iff info))) header data_rows H1 H2)|].
  exact (proj1 (proj2 (proj2 (proj2 (empty_workbook_iff info)))) header data_rows H3).
Defined.
